(** * pytracking: tracking-data codec, configuration and link filter

    A shallow embedding of [pytracking/tracking.py] and of the link filter of
    [pytracking/html.py].

    - Python [str] is a [string]; [bytes] is a [list byte].
    - A [dict] with string keys is an association list in insertion order
      without repeated keys (the order is what [json.dumps] prints).
    - A raised exception is the [Raise] branch of [result].
    - The libraries the code calls ([json], [base64], [str.encode] /
      [bytes.decode], [cryptography.fernet], [urllib.parse.urljoin]) are the
      operations of the class [Libs]; what the code relies on is stated in
      the class [LibsOk].
    - The clock and the randomness of the cipher are explicit arguments.
    - Objects with identity (Configuration instances, the dicts they hold,
      Fernet handles) live in a store; [__init__], [__deepcopy__],
      [merge_with_kwargs], [cache_encryption_key] and [get_configuration]
      are embedded on it. The codec and the result assembly read a
      configuration's fields and are embedded on the record
      [Configuration]; [config_of] reads that record off the store.
      Where Python's object model does more than the store represents (an
      instance given a new [__dict__], a copy made by [__reduce_ex__]) the
      embedded function answers [None].
    - [Module Reference] implements the libraries (base64, JSON in the
      format of [json.dumps], 7-bit text, latin-1 and utf-32, a cipher that
      authenticates) so that every definition runs. *)

From Stdlib Require Import ZArith String Ascii List Bool Lia.
From Stdlib Require Import Decimal DecimalString DecimalZ DecimalPos.
From Stdlib.Strings Require Import Byte.
From stdpp Require Import base option list gmap strings.

Local Open Scope string_scope.
Local Open Scope list_scope.
Local Set Warnings "-register-all".

(** ** Exceptions and results *)

Inductive exn : Set :=
| BinasciiError
| InvalidToken
| UnicodeEncodeError
| UnicodeDecodeError
| LookupError
| JSONDecodeError
| AttributeError
| TypeError
| ValueError.

Inductive result (A : Type) : Type :=
| Ok (a : A)
| Raise (e : exn).
Arguments Ok {A} a.
Arguments Raise {A} e.

#[global] Instance result_ret : MRet result := fun A a => Ok a.
#[global] Instance result_bind : MBind result := fun A B f m =>
  match m with
  | Ok a => f a
  | Raise e => Raise e
  end.


Definition is_ok {A : Type} (m : result A) : bool :=
  match m with Ok _ => true | Raise _ => false end.

(** ** JSON values and dicts *)

Inductive json : Type :=
| JNull
| JBool (b : bool)
| JInt (z : Z)
| JStr (s : string)
| JArr (items : list json)
| JObj (items : list (string * json)).

(** A Python dict with string keys, in insertion order. *)
Definition dict : Type := list (string * json).

(** Lookup and item assignment, for any type of values (an instance
    [__dict__] holds more than JSON). *)
Fixpoint dict_get {V : Type} (k : string) (d : list (string * V)) : option V :=
  match d with
  | [] => None
  | (k', v) :: d' => if String.eqb k k' then Some v else dict_get k d'
  end.

(** [d[k] = v]: an existing key keeps its position, a new key goes last. *)
Fixpoint dict_set {V : Type} (k : string) (v : V) (d : list (string * V))
  : list (string * V) :=
  match d with
  | [] => [(k, v)]
  | (k', v') :: d' =>
      if String.eqb k k' then (k, v) :: d' else (k', v') :: dict_set k v d'
  end.

(** [d.update(other)] for a dict [other]. *)
Definition dict_update (d other : dict) : dict :=
  fold_left (fun acc kv => dict_set (fst kv) (snd kv) acc) other d.

Definition dict_keys (d : dict) : list string := map fst d.

Fixpoint distinct (l : list string) : bool :=
  match l with
  | [] => true
  | k :: l' => negb (existsb (String.eqb k) l') && distinct l'
  end.

(** No key twice, at every level: the values a Python dict can hold. *)
Fixpoint json_wf (v : json) : bool :=
  match v with
  | JArr items => forallb json_wf items
  | JObj items =>
      distinct (map fst items)
      && forallb (fun kv => match kv with (_, w) => json_wf w end) items
  | _ => true
  end.

Definition dict_wf (d : dict) : bool := json_wf (JObj d).

(** Truthiness, as [if x:] tests it. *)
Definition truthy_str (s : option string) : bool :=
  match s with
  | Some (String _ _) => true
  | _ => false
  end.

Definition truthy_dict (d : option dict) : bool :=
  match d with
  | Some (_ :: _) => true
  | _ => false
  end.

(** [None] or a string, as a JSON-shaped Python value. *)
Definition py_of_str (s : option string) : json :=
  match s with
  | Some s => JStr s
  | None => JNull
  end.

(** ** Strings *)

(** [s.startswith(p)] *)
Definition startswith (s p : string) : bool := String.prefix p s.

(** [s[n:]] *)
Fixpoint string_drop (n : nat) (s : string) : string :=
  match n, s with
  | O, _ => s
  | S _, EmptyString => EmptyString
  | S n', String _ s' => string_drop n' s'
  end.

Definition is_ascii_char (c : ascii) : bool :=
  match c with
  | Ascii _ _ _ _ _ _ _ b7 => negb b7
  end.

Fixpoint str_is_ascii (s : string) : bool :=
  match s with
  | EmptyString => true
  | String c s' => is_ascii_char c && str_is_ascii s'
  end.

Definition byte_is_ascii (b : byte) : bool := is_ascii_char (ascii_of_byte b).

(** The alphabet of URL-safe base64: letters, digits, [-], [_] and the
    padding [=]. *)
Definition urlsafe_alphabet : list byte :=
  list_byte_of_string
    "ABCDEFGHIJKLMNOPQRSTUVWXYZabcdefghijklmnopqrstuvwxyz0123456789-_=".

Definition urlsafe_byte (b : byte) : bool :=
  existsb (Byte.eqb b) urlsafe_alphabet.

(** ** The libraries the code calls *)

(** What the cipher decides about a token. [Fernet.decrypt] raises
    [InvalidToken] for both failures. *)
Inductive opened : Type :=
| Plain (msg : list byte)
| Malformed
| BadTag.

(** The current time and the fresh IV [Fernet.encrypt] draws. *)
Record entropy : Type := { clock : Z; iv : list byte }.

Class Libs : Type := {
  (** [json.dumps(v)] and [json.loads(t)] *)
  json_dumps : json -> string;
  json_loads : string -> result json;
  (** [s.encode(encoding)] and [b.decode(encoding)] *)
  text_encode : string -> string -> result (list byte);
  text_decode : string -> list byte -> result string;
  (** [base64.urlsafe_b64encode] and [base64.urlsafe_b64decode] *)
  urlsafe_b64encode : list byte -> list byte;
  urlsafe_b64decode : list byte -> result (list byte);
  (** A [Fernet] handle, [Fernet(key)], [f.encrypt(msg)] and what
      [f.decrypt(token)] finds *)
  fernet : Type;
  Fernet_init : string -> result fernet;
  fernet_encrypt : fernet -> entropy -> list byte -> list byte;
  fernet_open : fernet -> list byte -> opened;
  (** [urllib.parse.urljoin(base, ref)] *)
  urljoin : option string -> string -> string;
  (** [d.update(x)] for an [x] that is not a dict *)
  update_from_iterable : dict -> json -> result dict
}.

(** [f.decrypt(token)] *)
Definition fernet_decrypt `{L : Libs} (k : fernet) (token : list byte)
  : result (list byte) :=
  match fernet_open k token with
  | Plain msg => Ok msg
  | Malformed => Raise InvalidToken
  | BadTag => Raise InvalidToken
  end.

(** An encoding under which ASCII text and its bytes are the same, as in
    utf-8, ascii and latin-1. *)
Definition ascii_transparent `{L : Libs} (enc : string) : Prop :=
  forall s, str_is_ascii s = true ->
    text_encode enc s = Ok (list_byte_of_string s) /\
    text_decode enc (list_byte_of_string s) = Ok s.

(** An encoding under which bytes that start at or above 0x80 never decode
    to text that starts with an ASCII character. *)
Definition high_start_preserved `{L : Libs} (enc : string) : Prop :=
  forall b bs t, byte_is_ascii b = false ->
    text_decode enc (b :: bs) = Ok t ->
    exists c t', t = String c t' /\ is_ascii_char c = false.

Class LibsOk (L : Libs) : Prop := {
  (** json: what was dumped loads back; the default [ensure_ascii] output
      is ASCII; a JSON text starts with an ASCII character *)
  json_roundtrip : forall v, json_wf v = true -> json_loads (json_dumps v) = Ok v;
  json_dumps_ascii : forall v, str_is_ascii (json_dumps v) = true;
  json_loads_start : forall t v, json_loads t = Ok v ->
    exists c t', t = String c t' /\ is_ascii_char c = true;
  (** base64 *)
  b64_roundtrip : forall bs, urlsafe_b64decode (urlsafe_b64encode bs) = Ok bs;
  b64_alphabet : forall bs, forallb urlsafe_byte (urlsafe_b64encode bs) = true;
  b64_exn : forall bs e, urlsafe_b64decode bs = Raise e -> e = BinasciiError;
  (** text codecs *)
  utf8_transparent : ascii_transparent "utf-8";
  utf8_high_start : high_start_preserved "utf-8";
  (** Fernet: a token opens under its own key, is URL-safe base64 of bytes
      that start with the version byte 0x80, and nothing else opens; a
      token opens under no other key (the contract of an authenticated
      cipher, taken as exact) *)
  fernet_roundtrip : forall k r msg, fernet_open k (fernet_encrypt k r msg) = Plain msg;
  fernet_alphabet : forall k r msg, forallb urlsafe_byte (fernet_encrypt k r msg) = true;
  fernet_token_version : forall k r msg, exists body,
    urlsafe_b64decode (fernet_encrypt k r msg) = Ok (x80 :: body);
  fernet_open_version : forall k token msg, fernet_open k token = Plain msg ->
    exists body, urlsafe_b64decode token = Ok (x80 :: body);
  fernet_wrong_key : forall k1 k2 r msg, k1 <> k2 ->
    fernet_open k2 (fernet_encrypt k1 r msg) = BadTag;
  Fernet_init_exn : forall s e, Fernet_init s = Raise e -> e = ValueError
}.

(** ** tracking.py *)

Section Tracking.
Context `{L : Libs}.

Record Configuration : Type := {
  webhook_url : option string;
  webhook_timeout_seconds : Z;
  include_webhook_url : bool;
  base_open_tracking_url : option string;
  base_click_tracking_url : option string;
  default_metadata : option dict;
  include_default_metadata : bool;
  encryption_bytestring_key : option string;
  encoding : string;
  kwargs : dict;
  encryption_key : option fernet;
  append_slash : bool;
  pixel_position : string
}.

(** [Configuration.get_data_to_embed] *)
Definition get_data_to_embed (self : Configuration)
    (url_to_track : option string) (extra_metadata : option dict) : dict :=
  let data : dict := [] in
  let data :=
    if truthy_str url_to_track
    then dict_set "url" (py_of_str url_to_track) data else data in
  let metadata : dict := [] in
  let metadata :=
    if include_default_metadata self && truthy_dict (default_metadata self)
    then dict_update metadata (default [] (default_metadata self))
    else metadata in
  let metadata :=
    if truthy_dict extra_metadata
    then dict_update metadata (default [] extra_metadata) else metadata in
  let data :=
    if truthy_dict (Some metadata)
    then dict_set "metadata" (JObj metadata) data else data in
  let data :=
    if include_webhook_url self && truthy_str (webhook_url self)
    then dict_set "webhook" (py_of_str (webhook_url self)) data else data in
  data.

(** [Configuration.get_url_encoded_data_str]; [rnd] is what
    [Fernet.encrypt] draws. *)
Definition get_url_encoded_data_str (self : Configuration) (rnd : entropy)
    (data_to_embed : dict) : result string :=
  json_byte_str ← text_encode (encoding self) (json_dumps (JObj data_to_embed));
  match encryption_key self with
  | Some key =>
      text_decode (encoding self) (fernet_encrypt key rnd json_byte_str)
  | None =>
      text_decode (encoding self) (urlsafe_b64encode json_byte_str)
  end.

(** The bytes of the string [get_url_encoded_data_str] returns under an
    encoding that keeps ASCII as it is. *)
Definition encoded_bytes (self : Configuration) (rnd : entropy)
    (data_to_embed : dict) : list byte :=
  let json_byte_str := list_byte_of_string (json_dumps (JObj data_to_embed)) in
  match encryption_key self with
  | Some key => fernet_encrypt key rnd json_byte_str
  | None => urlsafe_b64encode json_byte_str
  end.

(** [Configuration.get_open_tracking_url_from_data_str] *)
Definition get_open_tracking_url_from_data_str (self : Configuration)
    (data_str : string) : string :=
  let temp_url := urljoin (base_open_tracking_url self) data_str in
  if append_slash self then temp_url +:+ "/" else temp_url.

(** [Configuration.get_click_tracking_url_from_data_str] *)
Definition get_click_tracking_url_from_data_str (self : Configuration)
    (data_str : string) : string :=
  let temp_url := urljoin (base_click_tracking_url self) data_str in
  if append_slash self then temp_url +:+ "/" else temp_url.


(** [Configuration.get_click_tracking_url] *)
Definition get_click_tracking_url (self : Configuration) (rnd : entropy)
    (url_to_track : option string) (extra_metadata : option dict)
  : result string :=
  let data_to_embed := get_data_to_embed self url_to_track extra_metadata in
  data_str ← get_url_encoded_data_str self rnd data_to_embed;
  Ok (get_click_tracking_url_from_data_str self data_str).

(** [TrackingResult]; its [webhook_url] is [tr_webhook_url] here, the
    name being taken by the configuration's field. *)
Record TrackingResult : Type := {
  is_open_tracking : bool;
  is_click_tracking : bool;
  tracked_url : json;
  tr_webhook_url : json;
  metadata : dict;
  request_data : option dict;
  timestamp : Z
}.

(** [data.get(k, dflt)] on what [json.loads] returned: only a dict has
    [get]. *)
Definition py_get (data : json) (k : string) (dflt : json) : result json :=
  match data with
  | JObj items => Ok (default dflt (dict_get k items))
  | _ => Raise AttributeError
  end.

(** [d.update(x)] for any [x]: a dict is merged; [None], a bool and a
    number are not iterable; an empty string or list adds nothing. *)
Definition dict_update_from (d : dict) (x : json) : result dict :=
  match x with
  | JObj other => Ok (dict_update d other)
  | JNull | JBool _ | JInt _ => Raise TypeError
  | JStr EmptyString => Ok d
  | JArr [] => Ok d
  | _ => update_from_iterable d x
  end.

(** The segment [get_tracking_result] decodes (lines 260-261). *)
Definition strip_leading_slash (encoded_url_path : string) : string :=
  if startswith encoded_url_path "/"
  then string_drop 1 encoded_url_path else encoded_url_path.

(** [get_tracking_result], lines 263-271: from the segment to the
    payload. *)
Definition decode_payload (self : Configuration) (encoded_url_path : string)
  : result json :=
  payload ←
    match encryption_key self with
    | Some key =>
        token ← text_encode (encoding self) encoded_url_path;
        plain ← fernet_decrypt key token;
        text_decode (encoding self) plain
    | None =>
        token ← text_encode (encoding self) encoded_url_path;
        raw ← urlsafe_b64decode token;
        text_decode (encoding self) raw
    end;
  json_loads payload.

(** Where decoding can stop, one stage per library call of lines 263-271
    and one for the first [data.get] of line 276. *)
Inductive stage : Set :=
| TextEncode
| Base64
| TokenStructure
| Authentication
| TextDecode
| JsonParse
| JsonShape.

(** The bytes the segment opens to: what [urlsafe_b64decode], or
    [decrypt] under the key, returns. *)
Definition opens_to (self : Configuration) (segment : string)
    (plain : list byte) : Prop :=
  exists token,
    text_encode (encoding self) segment = Ok token /\
    match encryption_key self with
    | Some key => fernet_open key token = Plain plain
    | None => urlsafe_b64decode token = Ok plain
    end.

Definition is_object (v : json) : bool :=
  match v with JObj _ => true | _ => false end.

(** [decode_failure self segment st e]: decoding [segment] stops at stage
    [st], where the library raises [e]. *)
Inductive decode_failure (self : Configuration) (segment : string)
  : stage -> exn -> Prop :=
| text_encode_fails e :
    text_encode (encoding self) segment = Raise e ->
    decode_failure self segment TextEncode e
| b64decode_fails token e :
    encryption_key self = None ->
    text_encode (encoding self) segment = Ok token ->
    urlsafe_b64decode token = Raise e ->
    decode_failure self segment Base64 e
| token_malformed key token :
    encryption_key self = Some key ->
    text_encode (encoding self) segment = Ok token ->
    fernet_open key token = Malformed ->
    decode_failure self segment TokenStructure InvalidToken
| tag_mismatch key token :
    encryption_key self = Some key ->
    text_encode (encoding self) segment = Ok token ->
    fernet_open key token = BadTag ->
    decode_failure self segment Authentication InvalidToken
| text_decode_fails plain e :
    opens_to self segment plain ->
    text_decode (encoding self) plain = Raise e ->
    decode_failure self segment TextDecode e
| json_loads_fails plain payload e :
    opens_to self segment plain ->
    text_decode (encoding self) plain = Ok payload ->
    json_loads payload = Raise e ->
    decode_failure self segment JsonParse e
| payload_not_object plain payload v :
    opens_to self segment plain ->
    text_decode (encoding self) plain = Ok payload ->
    json_loads payload = Ok v ->
    is_object v = false ->
    decode_failure self segment JsonShape AttributeError.

(** The metadata [get_tracking_result] starts from (lines 273-275). *)
Definition local_metadata (self : Configuration) : dict :=
  let metadata : dict := [] in
  if negb (include_default_metadata self) && truthy_dict (default_metadata self)
  then dict_update metadata (default [] (default_metadata self))
  else metadata.

(** [get_tracking_result], lines 273-291: from the payload to the
    result. *)
Definition resolve_tracking_result (self : Configuration) (data : json)
    (request_data : option dict) (is_open : bool) (timestamp : Z)
  : result TrackingResult :=
  let metadata := local_metadata self in
  payload_metadata ← py_get data "metadata" (JObj []);
  metadata ← dict_update_from metadata payload_metadata;
  webhook_url ←
    (if include_webhook_url self
     then py_get data "webhook" JNull
     else Ok (py_of_str (webhook_url self)));
  tracked_url ← py_get data "url" JNull;
  Ok {| is_open_tracking := is_open;
        is_click_tracking := negb is_open;
        tracked_url := tracked_url;
        tr_webhook_url := webhook_url;
        metadata := metadata;
        request_data := request_data;
        timestamp := timestamp |}.

(** [Configuration.get_tracking_result]; [now] is [int(time.time())]. *)
Definition get_tracking_result (self : Configuration)
    (encoded_url_path : string) (request_data : option dict)
    (is_open : bool) (now : Z) : result TrackingResult :=
  let timestamp := now in
  let encoded_url_path := strip_leading_slash encoded_url_path in
  data ← decode_payload self encoded_url_path;
  resolve_tracking_result self data request_data is_open timestamp.

(** [len(x)] of a string attribute that may be [None]. *)
Definition py_len (s : option string) : result nat :=
  match s with
  | Some s => Ok (String.length s)
  | None => Raise TypeError
  end.

(** [Configuration.get_click_tracking_url_path] *)
Definition get_click_tracking_url_path (self : Configuration) (url : string)
  : result string :=
  n ← py_len (base_click_tracking_url self);
  Ok (string_drop n url).

(** [Configuration.get_open_tracking_url_path] *)
Definition get_open_tracking_url_path (self : Configuration) (url : string)
  : result string :=
  n ← py_len (base_open_tracking_url self);
  Ok (string_drop n url).

(** The module-level functions, on the fields of the instance that
    [get_configuration] returned (the merge itself is embedded on the store
    below). *)

(** [x and s.startswith(x)] for an attribute [x] that may be [None] *)
Definition set_and_prefix_of (x : option string) (s : string) : bool :=
  truthy_str x && startswith s (default "" x).

(** The segment handed to [get_tracking_result] by
    [get_click_tracking_result] (lines 438-442). *)
Definition click_encoded_url_path (configuration : Configuration)
    (encoded_url_path : string) : result string :=
  if set_and_prefix_of (base_click_tracking_url configuration) encoded_url_path
  then get_click_tracking_url_path configuration encoded_url_path
  else Ok encoded_url_path.

(** The segment [get_click_tracking_result] has decoded: the path
    [get_tracking_result] gets, less its leading slash. *)
Definition click_segment (configuration : Configuration)
    (encoded_url_path : string) : result string :=
  encoded_url_path ← click_encoded_url_path configuration encoded_url_path;
  Ok (strip_leading_slash encoded_url_path).

(** [get_click_tracking_result] *)
Definition get_click_tracking_result (encoded_url_path : string)
    (request_data : option dict) (configuration : Configuration) (now : Z)
  : result TrackingResult :=
  encoded_url_path ← click_encoded_url_path configuration encoded_url_path;
  get_tracking_result configuration encoded_url_path request_data false now.

(** The segment handed to [get_tracking_result] by
    [get_open_tracking_result] (lines 479-483). *)
Definition open_encoded_url_path (configuration : Configuration)
    (encoded_url_path : string) : result string :=
  if set_and_prefix_of (base_open_tracking_url configuration) encoded_url_path
  then get_open_tracking_url_path configuration encoded_url_path
  else Ok encoded_url_path.

(** The segment [get_open_tracking_result] has decoded. *)
Definition open_segment (configuration : Configuration)
    (encoded_url_path : string) : result string :=
  encoded_url_path ← open_encoded_url_path configuration encoded_url_path;
  Ok (strip_leading_slash encoded_url_path).

(** [get_open_tracking_result] *)
Definition get_open_tracking_result (encoded_url_path : string)
    (request_data : option dict) (configuration : Configuration) (now : Z)
  : result TrackingResult :=
  encoded_url_path ← open_encoded_url_path configuration encoded_url_path;
  get_tracking_result configuration encoded_url_path request_data true now.

(** ** html.py *)

Definition _valid_scheme : list string := ["http://"; "https://"; "//"].

(** The link starts with one of [_valid_scheme]. *)
Definition has_valid_scheme (link : string) : Prop :=
  startswith link "http://" = true \/ startswith link "https://" = true
  \/ startswith link "//" = true.

(** [_valid_link]; [configuration] may be [None]. *)
Definition _valid_link (link : string) (configuration : option Configuration)
  : bool :=
  let is_valid := existsb (fun scheme => startswith link scheme) _valid_scheme in
  match configuration with
  | Some configuration =>
      if truthy_str (base_click_tracking_url configuration)
      then is_valid
           && negb (startswith link
                      (default "" (base_click_tracking_url configuration)))
      else is_valid
  | None => is_valid
  end.

(** One item of [tree.iterlinks()]: the element's tag, the attribute that
    holds the link, and the link. *)
Record link_item : Type := {
  tag : string;
  attribute : string;
  link : string
}.

(** Whether [_replace_links] rewrites the item (the test of line 62). *)
Definition rewritten (configuration : Configuration) (it : link_item) : bool :=
  String.eqb (tag it) "a" && String.eqb (attribute it) "href"
  && _valid_link (link it) (Some configuration).

(** [_replace_links]: the links of the tree after the loop; [rnd i] is the
    randomness of the [i]-th item. The new link is
    [get_click_tracking_url(link, extra_metadata, configuration)], whose
    merge with no overrides leaves the fields as they are. *)
Fixpoint _replace_links_from (i : nat) (links : list link_item)
    (extra_metadata : option dict) (configuration : Configuration)
    (rnd : nat -> entropy) : result (list link_item) :=
  match links with
  | [] => Ok []
  | it :: rest =>
      it' ←
        (if rewritten configuration it
         then new_link ← get_click_tracking_url configuration (rnd i)
                           (Some (link it)) extra_metadata;
              Ok {| tag := tag it; attribute := attribute it; link := new_link |}
         else Ok it);
      rest' ← _replace_links_from (S i) rest extra_metadata configuration rnd;
      Ok (it' :: rest')
  end.

Definition _replace_links := _replace_links_from 0.

End Tracking.


(** ** Objects with identity

    A Configuration instance is mutable and is copied by [deepcopy]; the
    dicts it refers to and its Fernet handle are objects of their own. The
    store maps an object's identity to its state. A dict holds its JSON
    values by value. *)

Abbreviation loc := positive (only parsing).

(** What an attribute or an argument can hold. *)
Inductive val : Type :=
| VNone
| VBool (b : bool)
| VInt (z : Z)
| VStr (s : string)
| VDict (l : loc)
| VFernet (l : loc).

Section Objects.
Context `{L : Libs}.

Inductive obj : Type :=
| ODict (items : dict)
| OFernet (key : fernet)
| OConfig (attrs : list (string * val)).

Abbreviation store := (gmap loc obj) (only parsing).

(** A new object gets an identity no object has. *)
Definition alloc (o : obj) (h : store) : loc * store :=
  let l := fresh (dom h) in (l, <[l := o]> h).

(** Truthiness of a value. *)
Definition truthy (h : store) (v : val) : bool :=
  match v with
  | VNone => false
  | VBool b => b
  | VInt z => negb (Z.eqb z 0)
  | VStr s => negb (String.eqb s "")
  | VDict l =>
      match h !! l with
      | Some (ODict []) => false
      | _ => true
      end
  | VFernet _ => true
  end.

(** [o.name = v] for an attribute the code names ([self.encoding =
    encoding]), also [o.__dict__[name] = v]. *)
Definition setattr (o : loc) (name : string) (v : val) (h : store) : store :=
  match h !! o with
  | Some (OConfig attrs) => <[o := OConfig (dict_set name v attrs)]> h
  | _ => h
  end.

(** [Configuration.cache_encryption_key] *)
Definition cache_encryption_key (self : loc) (h : store) : result store :=
  match h !! self with
  | Some (OConfig attrs) =>
      match dict_get "encryption_bytestring_key" attrs with
      | Some key =>
          if truthy h key
          then
            match key with
            | VStr s =>
                f ← Fernet_init s;
                let (lf, h) := alloc (OFernet f) h in
                Ok (setattr self "encryption_key" (VFernet lf) h)
            | _ => Raise TypeError
            end
          else Ok (setattr self "encryption_key" VNone h)
      | None => Raise AttributeError
      end
  | _ => Raise AttributeError
  end.

(** The arguments of [Configuration.__init__]; [arg_kwargs] is [**kwargs]. *)
Record init_args : Type := {
  arg_webhook_url : val;
  arg_webhook_timeout_seconds : val;
  arg_include_webhook_url : val;
  arg_base_open_tracking_url : val;
  arg_base_click_tracking_url : val;
  arg_default_metadata : val;
  arg_include_default_metadata : val;
  arg_encryption_bytestring_key : val;
  arg_encoding : val;
  arg_append_slash : val;
  arg_pixel_position : val;
  arg_kwargs : dict
}.

Definition DEFAULT_TIMEOUT_SECONDS : Z := 5.

(** [Configuration()] *)
Definition default_args : init_args := {|
  arg_webhook_url := VNone;
  arg_webhook_timeout_seconds := VInt DEFAULT_TIMEOUT_SECONDS;
  arg_include_webhook_url := VBool false;
  arg_base_open_tracking_url := VNone;
  arg_base_click_tracking_url := VNone;
  arg_default_metadata := VNone;
  arg_include_default_metadata := VBool false;
  arg_encryption_bytestring_key := VNone;
  arg_encoding := VStr "utf-8";
  arg_append_slash := VBool false;
  arg_pixel_position := VStr "top";
  arg_kwargs := []
|}.

(** The attributes [__init__] sets (lines 56-68), in order. *)
Definition init_attrs (args : init_args) (kwargs : loc) : list (string * val) :=
  [ ("webhook_url", arg_webhook_url args);
    ("webhook_timeout_seconds", arg_webhook_timeout_seconds args);
    ("include_webhook_url", arg_include_webhook_url args);
    ("base_open_tracking_url", arg_base_open_tracking_url args);
    ("base_click_tracking_url", arg_base_click_tracking_url args);
    ("default_metadata", arg_default_metadata args);
    ("include_default_metadata", arg_include_default_metadata args);
    ("encryption_bytestring_key", arg_encryption_bytestring_key args);
    ("encoding", arg_encoding args);
    ("kwargs", VDict kwargs);
    ("encryption_key", VNone);
    ("append_slash", arg_append_slash args);
    ("pixel_position", arg_pixel_position args) ].

(** [Configuration.__init__], with the creation of the instance. *)
Definition __init__ (args : init_args) (h : store) : result (loc * store) :=
  let (kwargs, h) := alloc (ODict (arg_kwargs args)) h in
  let (self, h) := alloc (OConfig (init_attrs args kwargs)) h in
  h ← cache_encryption_key self h;
  Ok (self, h).

(** [copy.deepcopy(value)] of an attribute value: a dict or a handle is
    copied into a new object, anything else is immutable. *)
Definition deepcopy (value : val) (h : store) : val * store :=
  match value with
  | VDict l =>
      match h !! l with
      | Some (ODict items) =>
          let (l', h) := alloc (ODict items) h in (VDict l', h)
      | _ => (value, h)
      end
  | VFernet l =>
      match h !! l with
      | Some (OFernet key) =>
          let (l', h) := alloc (OFernet key) h in (VFernet l', h)
      | _ => (value, h)
      end
  | _ => (value, h)
  end.

(** The loop of [__deepcopy__] (lines 82-84). *)
Fixpoint copy_attrs (new_config : loc) (items : list (string * val))
    (h : store) : store :=
  match items with
  | [] => h
  | (key, value) :: rest =>
      let h :=
        if negb (String.eqb key "encryption_key")
        then let (value', h) := deepcopy value h in
             setattr new_config key value' h
        else h in
      copy_attrs new_config rest h
  end.

(** [Configuration.__deepcopy__] *)
Definition __deepcopy__ (self : loc) (h : store) : result (loc * store) :=
  '(new_config, h) ← __init__ default_args h;
  match h !! self with
  | Some (OConfig attrs) => Ok (new_config, copy_attrs new_config attrs h)
  | _ => Raise AttributeError
  end.

(** The names the class itself defines. *)
Definition class_attributes : list string :=
  [ "__init__"; "__str__"; "__deepcopy__"; "merge_with_kwargs";
    "cache_encryption_key"; "get_data_to_embed"; "get_url_encoded_data_str";
    "get_open_tracking_url_from_data_str";
    "get_click_tracking_url_from_data_str"; "get_open_tracking_url";
    "get_click_tracking_url"; "get_tracking_result";
    "get_click_tracking_url_path"; "get_open_tracking_url_path" ].

(** The attributes of the instance at [o]. *)
Definition attrs_of (h : store) (o : loc) : list (string * val) :=
  match h !! o with
  | Some (OConfig attrs) => attrs
  | _ => []
  end.

(** [o.__dict__.get(name)]: the attribute as the instance itself holds it.
    For a name the class does not define it is what [getattr(o, name)]
    gives. *)
Definition getattr (h : store) (o : loc) (name : string) : option val :=
  dict_get name (attrs_of h o).

(** The names every instance has from [object] and from the class
    machinery, as CPython 3.11 has them: what [dir(object())] lists, and
    [__dict__], [__module__] and [__weakref__]. *)
Definition object_attributes : list string :=
  [ "__class__"; "__delattr__"; "__dict__"; "__dir__"; "__doc__"; "__eq__";
    "__format__"; "__ge__"; "__getattribute__"; "__getstate__"; "__gt__";
    "__hash__"; "__init__"; "__init_subclass__"; "__le__"; "__lt__";
    "__module__"; "__ne__"; "__new__"; "__reduce__"; "__reduce_ex__";
    "__repr__"; "__setattr__"; "__sizeof__"; "__str__"; "__subclasshook__";
    "__weakref__" ].

(** [hasattr(o, name)]: an attribute of the instance, a name of its class,
    or a name every object has. *)
Definition hasattr (h : store) (o : loc) (name : string) : bool :=
  match h !! o with
  | Some (OConfig attrs) =>
      existsb (String.eqb name) (map fst attrs)
      || existsb (String.eqb name) class_attributes
      || existsb (String.eqb name) object_attributes
  | _ => false
  end.

(** The built-in [setattr(o, name, v)] for a name the code does not fix
    (line 101). [__class__] takes a class and [__dict__] a dict, and no
    value here is a class; [__weakref__] cannot be written; any other name,
    a method's too, becomes an attribute of the instance. Given a dict for
    [__dict__] the instance shares its attributes with that dict from then
    on; the store does not represent that, and the answer is [None]. *)
Definition builtin_setattr (o : loc) (name : string) (v : val) (h : store)
  : option (result store) :=
  if String.eqb name "__class__" then Some (Raise TypeError)
  else if String.eqb name "__weakref__" then Some (Raise AttributeError)
  else if String.eqb name "__dict__"
  then match v with
       | VDict _ => None
       | _ => Some (Raise TypeError)
       end
  else Some (Ok (setattr o name v h)).

(** The loop of [merge_with_kwargs] (lines 99-101); it stops where
    [setattr] raises. *)
Fixpoint apply_kwargs (new_configuration : loc)
    (kwargs : list (string * val)) (h : store) : option (result store) :=
  match kwargs with
  | [] => Some (Ok h)
  | (key, value) :: rest =>
      if hasattr h new_configuration key
      then
        match builtin_setattr new_configuration key value h with
        | Some (Ok h) => apply_kwargs new_configuration rest h
        | Some (Raise e) => Some (Raise e)
        | None => None
        end
      else apply_kwargs new_configuration rest h
  end.

(** [Configuration.merge_with_kwargs]. A method is looked up on the
    instance first: an attribute of the instance with the method's name
    shadows it, and calling the attribute's value, which is no function,
    raises [TypeError]. [copy.deepcopy] (line 98) looks [__deepcopy__] up
    that way and, finding [None], copies by [__reduce_ex__] instead, which
    is not represented here: [None]. *)
Definition merge_with_kwargs (self : loc) (kwargs : list (string * val))
    (h : store) : option (result (loc * store)) :=
  match getattr h self "__deepcopy__" with
  | Some VNone => None
  | Some _ => Some (Raise TypeError)
  | None =>
      match __deepcopy__ self h with
      | Raise e => Some (Raise e)
      | Ok (new_configuration, h) =>
          match apply_kwargs new_configuration kwargs h with
          | None => None
          | Some (Raise e) => Some (Raise e)
          | Some (Ok h) =>
              match getattr h new_configuration "cache_encryption_key" with
              | Some _ => Some (Raise TypeError)
              | None =>
                  Some (h ← cache_encryption_key new_configuration h;
                        Ok (new_configuration, h))
              end
          end
      end
  end.

(** [get_configuration]; an instance is truthy. *)
Definition get_configuration (configuration : option loc)
    (kwargs : list (string * val)) (h : store)
  : option (result (loc * store)) :=
  match configuration with
  | Some configuration =>
      match getattr h configuration "merge_with_kwargs" with
      | Some _ => Some (Raise TypeError)
      | None => merge_with_kwargs configuration kwargs h
      end
  | None =>
      match __init__ default_args h with
      | Raise e => Some (Raise e)
      | Ok (configuration, h) => merge_with_kwargs configuration kwargs h
      end
  end.

(** What a reference in a value refers to; an immutable value refers to
    nothing. *)
Definition referent (h : store) (v : val) : option obj :=
  match v with
  | VDict l => h !! l
  | VFernet l => h !! l
  | _ => None
  end.

Definition is_reference (v : val) : option loc :=
  match v with
  | VDict l => Some l
  | VFernet l => Some l
  | _ => None
  end.

(** A value of a store refers to an object of its kind, if it refers at
    all. *)
Definition val_ok (h : store) (v : val) : Prop :=
  match v with
  | VDict l => exists items, h !! l = Some (ODict items)
  | VFernet l => exists key, h !! l = Some (OFernet key)
  | _ => True
  end.

(** [v'] in [h'] is a deep copy of [v] in [h]: the same immutable value, or
    a reference to an object that [h] does not have, with the state of the
    one [v] refers to. *)
Definition deep_copy_of (h h' : store) (v v' : val) : Prop :=
  match v with
  | VDict l =>
      exists l', v' = VDict l' /\ h !! l' = None /\ h' !! l' = h !! l
  | VFernet l =>
      exists l', v' = VFernet l' /\ h !! l' = None /\ h' !! l' = h !! l
  | _ => v' = v
  end.

(** Everything but the object at [o] is as it was. *)
Definition same_but (o : loc) (h h' : store) : Prop :=
  forall l x, l <> o -> h !! l = Some x -> h' !! l = Some x.

(** The name is an attribute of an instance with these attributes, or a
    name the class defines. *)
Definition known (attrs : list (string * val)) (name : string) : bool :=
  existsb (String.eqb name) (map fst attrs)
  || existsb (String.eqb name) class_attributes.

(** The name is an attribute [__init__] sets or a name of the class. *)
Definition known_by_default (name : string) : bool :=
  existsb (String.eqb name) (map fst (init_attrs default_args 1%positive))
  || existsb (String.eqb name) class_attributes.

(** The key material a merge leaves on the copy: the value given for it,
    or else the receiver's. *)
Definition merged_key (attrs kwargs : list (string * val)) : val :=
  match dict_get "encryption_bytestring_key" kwargs with
  | Some v => v
  | None => default VNone (dict_get "encryption_bytestring_key" attrs)
  end.

End Objects.

(** ** The fields of an instance

    The methods read an instance's attributes; the codec is embedded on the
    record of those fields. [config_of] reads the record off the store, at
    the types the constructor documents: a string or [None] for the URLs
    and the key material, a bool for the flags, a dict or [None] for the
    default metadata. *)

Section View.
Context `{L : Libs}.

Abbreviation store := (gmap loc obj) (only parsing).

Definition as_str (v : val) : option (option string) :=
  match v with
  | VNone => Some None
  | VStr s => Some (Some s)
  | _ => None
  end.

Definition as_text (v : val) : option string :=
  match v with VStr s => Some s | _ => None end.

Definition as_bool (v : val) : option bool :=
  match v with VBool b => Some b | _ => None end.

Definition as_int (v : val) : option Z :=
  match v with VInt z => Some z | _ => None end.

Definition as_items (h : store) (v : val) : option dict :=
  match v with
  | VDict l =>
      match h !! l with
      | Some (ODict items) => Some items
      | _ => None
      end
  | _ => None
  end.

Definition as_dict (h : store) (v : val) : option (option dict) :=
  match v with
  | VNone => Some None
  | _ => items ← as_items h v; Some (Some items)
  end.

Definition as_key (h : store) (v : val) : option (option fernet) :=
  match v with
  | VNone => Some None
  | VFernet l =>
      match h !! l with
      | Some (OFernet key) => Some (Some key)
      | _ => None
      end
  | _ => None
  end.

(** The record of the attributes that [get] gives, with [key] as the
    cipher handle. *)
Definition fields_of (h : store) (get : string -> option val)
    (key : option fernet) : option Configuration :=
  wh ← get "webhook_url" ≫= as_str;
  ts ← get "webhook_timeout_seconds" ≫= as_int;
  iw ← get "include_webhook_url" ≫= as_bool;
  bo ← get "base_open_tracking_url" ≫= as_str;
  bc ← get "base_click_tracking_url" ≫= as_str;
  dm ← get "default_metadata" ≫= as_dict h;
  im ← get "include_default_metadata" ≫= as_bool;
  bk ← get "encryption_bytestring_key" ≫= as_str;
  enc ← get "encoding" ≫= as_text;
  kw ← get "kwargs" ≫= as_items h;
  sl ← get "append_slash" ≫= as_bool;
  pp ← get "pixel_position" ≫= as_text;
  Some {| webhook_url := wh;
          webhook_timeout_seconds := ts;
          include_webhook_url := iw;
          base_open_tracking_url := bo;
          base_click_tracking_url := bc;
          default_metadata := dm;
          include_default_metadata := im;
          encryption_bytestring_key := bk;
          encoding := enc;
          kwargs := kw;
          encryption_key := key;
          append_slash := sl;
          pixel_position := pp |}.

(** The record of the instance at [o]. *)
Definition config_of (h : store) (o : loc) : option Configuration :=
  key ← getattr h o "encryption_key" ≫= as_key h;
  fields_of h (getattr h o) key.

(** [c] with [key] as its cipher handle. *)
Definition set_encryption_key (c : Configuration) (key : option fernet)
  : Configuration :=
  {| webhook_url := webhook_url c;
     webhook_timeout_seconds := webhook_timeout_seconds c;
     include_webhook_url := include_webhook_url c;
     base_open_tracking_url := base_open_tracking_url c;
     base_click_tracking_url := base_click_tracking_url c;
     default_metadata := default_metadata c;
     include_default_metadata := include_default_metadata c;
     encryption_bytestring_key := encryption_bytestring_key c;
     encoding := encoding c;
     kwargs := kwargs c;
     encryption_key := key;
     append_slash := append_slash c;
     pixel_position := pixel_position c |}.

(** The record of [Configuration()]. *)
Definition default_configuration : Configuration :=
  {| webhook_url := None;
     webhook_timeout_seconds := DEFAULT_TIMEOUT_SECONDS;
     include_webhook_url := false;
     base_open_tracking_url := None;
     base_click_tracking_url := None;
     default_metadata := None;
     include_default_metadata := false;
     encryption_bytestring_key := None;
     encoding := "utf-8";
     kwargs := [];
     encryption_key := None;
     append_slash := false;
     pixel_position := "top" |}.

(** [v'] in [h'] reads as [v] in [h]: the same immutable value, or a
    reference to an object in the state of the one [v] refers to. *)
Definition agrees (h h' : store) (v v' : val) : Prop :=
  match v with
  | VDict l => exists l', v' = VDict l' /\ h' !! l' = h !! l
  | VFernet l => exists l', v' = VFernet l' /\ h' !! l' = h !! l
  | _ => v' = v
  end.

(** An attribute after a merge: the value given for it, or else the
    receiver's. *)
Definition overridden (attrs kwargs : list (string * val)) (name : string)
  : option val :=
  match dict_get name kwargs with
  | Some v => Some v
  | None => dict_get name attrs
  end.

(** The handle [cache_encryption_key] derives from the key material
    (lines 117-120). *)
Definition derive_key (h : store) (bk : val) : result (option fernet) :=
  if truthy h bk
  then
    match bk with
    | VStr s => f ← Fernet_init s; Ok (Some f)
    | _ => Raise TypeError
    end
  else Ok None.

(** The same on the record: the handle for the key material [bk]. *)
Definition cached_key (bk : option string) : result (option fernet) :=
  if truthy_str bk
  then f ← Fernet_init (default "" bk); Ok (Some f)
  else Ok None.

(** The handle of the record is the one derived from its key material, as
    on every instance that [__init__] or [merge_with_kwargs] returned; the
    module-level functions work on such an instance (each starts with
    [get_configuration]). *)
Definition key_cached (c : Configuration) : Prop :=
  cached_key (encryption_bytestring_key c) = Ok (encryption_key c).

(** A name that [setattr] stores as a plain attribute: not a method of the
    class (line 104 calls [cache_encryption_key] on the copy) and not one of
    the underscore names every object has. *)
Definition plain_name (k : string) : bool :=
  negb (startswith k "_") && negb (existsb (String.eqb k) class_attributes).

(** The attributes [__init__] sets. *)
Definition init_names : list string :=
  map fst (init_attrs default_args 1%positive).

(** [urljoin(base, seg)] is [base + seg] for every segment over the
    URL-safe base64 alphabet, as it is for a base that ends with a slash and
    for no base at all. *)
Definition appends_to_base (base : option string) : Prop :=
  forall seg, forallb urlsafe_byte (list_byte_of_string seg) = true ->
    urljoin base seg = default "" base +:+ seg.

End View.

(** ** Reference libraries

    An instance of [Libs] to run the code on: URL-safe base64 with a strict
    decoder, a JSON printer in the format of [json.dumps] with a parser for
    that format, the text codec on 7-bit text (utf-8 and ascii agree there),
    latin-1 and utf-32, and a cipher that authenticates but does not hide. *)

Module Reference.

(** *** base64 *)

Definition b64_table : list byte :=
  list_byte_of_string
    "ABCDEFGHIJKLMNOPQRSTUVWXYZabcdefghijklmnopqrstuvwxyz0123456789-_".

Definition pad : byte := "="%byte.

Definition b64_char (n : N) : byte := nth (N.to_nat n) b64_table pad.

Fixpoint find_index (b : byte) (l : list byte) (i : N) : option N :=
  match l with
  | [] => None
  | x :: l' => if Byte.eqb b x then Some i else find_index b l' (N.succ i)
  end.

Definition b64_index (b : byte) : option N := find_index b b64_table 0%N.

Definition byte_of_N (n : N) : byte := default x00 (Byte.of_N n).

Fixpoint b64encode (bs : list byte) : list byte :=
  match bs with
  | [] => []
  | [a] =>
      let a := Byte.to_N a in
      [b64_char (a / 4); b64_char ((a mod 4) * 16); pad; pad]
  | [a; b] =>
      let a := Byte.to_N a in
      let b := Byte.to_N b in
      [b64_char (a / 4); b64_char ((a mod 4) * 16 + b / 16);
       b64_char ((b mod 16) * 4); pad]
  | a :: b :: c :: rest =>
      let a := Byte.to_N a in
      let b := Byte.to_N b in
      let c := Byte.to_N c in
      b64_char (a / 4) :: b64_char ((a mod 4) * 16 + b / 16)
      :: b64_char ((b mod 16) * 4 + c / 64) :: b64_char (c mod 64)
      :: b64encode rest
  end%N.

Definition is_nil {A : Type} (l : list A) : bool :=
  match l with [] => true | _ => false end.

Fixpoint b64decode (cs : list byte) : result (list byte) :=
  match cs with
  | [] => Ok []
  | c1 :: c2 :: c3 :: c4 :: rest =>
      match b64_index c1, b64_index c2 with
      | Some s1, Some s2 =>
          let b1 := byte_of_N (s1 * 4 + s2 / 16) in
          match b64_index c3, b64_index c4 with
          | Some s3, Some s4 =>
              rest' ← b64decode rest;
              Ok (b1 :: byte_of_N ((s2 mod 16) * 16 + s3 / 4)
                     :: byte_of_N ((s3 mod 4) * 64 + s4) :: rest')
          | Some s3, None =>
              if Byte.eqb c4 pad && is_nil rest
              then Ok [b1; byte_of_N ((s2 mod 16) * 16 + s3 / 4)]
              else Raise BinasciiError
          | None, _ =>
              if Byte.eqb c3 pad && Byte.eqb c4 pad && is_nil rest
              then Ok [b1]
              else Raise BinasciiError
          end
      | _, _ => Raise BinasciiError
      end
  | _ => Raise BinasciiError
  end%N.

(** *** Text *)

Definition known_encoding (enc : string) : bool :=
  existsb (String.eqb enc) ["utf-8"; "ascii"; "latin-1"].

(** utf-32 as on a little-endian host: [str.encode] writes the byte order
    mark and four bytes for each character; [bytes.decode] reads an optional
    mark of either order, then units of four bytes, and raises
    [UnicodeDecodeError] for a truncated unit and for a unit that is no
    code point (above 0x10FFFF, or a surrogate). Text has 8-bit characters
    here, as for the other codecs, so a unit above 0xFF is refused too. *)
Definition utf32_bom : list byte := [xff; xfe; x00; x00].

Definition utf32_encode (s : string) : list byte :=
  utf32_bom ++ flat_map (fun b => [b; x00; x00; x00]) (list_byte_of_string s).

Definition is_zero (b : byte) : bool := Byte.eqb b x00.

Fixpoint utf32_units (big_endian : bool) (bs : list byte) : result string :=
  match bs with
  | [] => Ok EmptyString
  | b0 :: b1 :: b2 :: b3 :: rest =>
      let (low, high) :=
        if big_endian then (b3, [b0; b1; b2]) else (b0, [b1; b2; b3]) in
      if forallb is_zero high
      then match utf32_units big_endian rest with
           | Ok t => Ok (String (ascii_of_byte low) t)
           | Raise e => Raise e
           end
      else Raise UnicodeDecodeError
  | _ => Raise UnicodeDecodeError
  end.

Definition utf32_decode (bs : list byte) : result string :=
  match bs with
  | b0 :: b1 :: b2 :: b3 :: rest =>
      if Byte.eqb b0 xff && Byte.eqb b1 xfe && is_zero b2 && is_zero b3
      then utf32_units false rest
      else if is_zero b0 && is_zero b1 && Byte.eqb b2 xfe && Byte.eqb b3 xff
      then utf32_units true rest
      else utf32_units false bs
  | _ => utf32_units false bs
  end.

Definition encode (enc s : string) : result (list byte) :=
  if known_encoding enc
  then if String.eqb enc "latin-1" || str_is_ascii s
       then Ok (list_byte_of_string s)
       else Raise UnicodeEncodeError
  else if String.eqb enc "utf-32" then Ok (utf32_encode s)
  else Raise LookupError.

Definition decode (enc : string) (bs : list byte) : result string :=
  if known_encoding enc
  then if String.eqb enc "latin-1" || forallb byte_is_ascii bs
       then Ok (string_of_list_byte bs)
       else Raise UnicodeDecodeError
  else if String.eqb enc "utf-32" then utf32_decode bs
  else Raise LookupError.

(** *** The cipher: a key of four bytes; a token is base64 of the version
    byte, the key and the message *)

Definition cipher_key : Type := byte * byte * byte * byte.

Definition cipher_init (s : string) : result cipher_key :=
  match s with
  | String a (String b (String c (String d EmptyString))) =>
      if str_is_ascii s
      then Ok (byte_of_ascii a, byte_of_ascii b, byte_of_ascii c, byte_of_ascii d)
      else Raise ValueError
  | _ => Raise ValueError
  end.

Definition key_bytes (key : cipher_key) : list byte :=
  match key with (a, b, c, d) => [a; b; c; d] end.

Definition cipher_encrypt (key : cipher_key) (rnd : entropy) (msg : list byte)
  : list byte :=
  b64encode (x80 :: key_bytes key ++ msg).

Definition key_eqb (k1 k2 : cipher_key) : bool :=
  match k1, k2 with
  | (a1, b1, c1, d1), (a2, b2, c2, d2) =>
      Byte.eqb a1 a2 && Byte.eqb b1 b2 && Byte.eqb c1 c2 && Byte.eqb d1 d2
  end.

Definition cipher_open (key : cipher_key) (token : list byte) : opened :=
  match b64decode token with
  | Ok (v :: a :: b :: c :: d :: msg) =>
      if Byte.eqb v x80
      then if key_eqb (a, b, c, d) key then Plain msg else BadTag
      else Malformed
  | _ => Malformed
  end.

(** *** JSON, in the format [json.dumps] prints *)

Definition quote_char : ascii := "034"%char.
Definition backslash : ascii := "092"%char.

Definition hex_digits : list ascii := list_ascii_of_string "0123456789abcdef".

Definition hex_digit (n : N) : ascii := nth (N.to_nat n) hex_digits "0"%char.

Fixpoint find_ascii (c : ascii) (l : list ascii) (i : N) : option N :=
  match l with
  | [] => None
  | x :: l' => if Ascii.eqb c x then Some i else find_ascii c l' (N.succ i)
  end.

Definition hex_value (c : ascii) : option N := find_ascii c hex_digits 0%N.

(** A quote, a backslash and whatever is outside [' '..'~'] are escaped. *)
Definition escape_char (c : ascii) : string :=
  if Ascii.eqb c quote_char then String backslash (String quote_char "")
  else if Ascii.eqb c backslash then String backslash (String backslash "")
  else if Ascii.eqb c "010"%char then String backslash "n"
  else if Ascii.eqb c "013"%char then String backslash "r"
  else if Ascii.eqb c "009"%char then String backslash "t"
  else if Ascii.eqb c "008"%char then String backslash "b"
  else if Ascii.eqb c "012"%char then String backslash "f"
  else
    let n := N_of_ascii c in
    if (n <? 32)%N || (126 <? n)%N
    then String backslash
           (String "u" (String "0" (String "0"
              (String (hex_digit (n / 16))
                 (String (hex_digit (n mod 16)) "")))))
    else String c "".

Fixpoint escape (s : string) : string :=
  match s with
  | EmptyString => ""
  | String c s' => escape_char c +:+ escape s'
  end.

Definition quote (s : string) : string :=
  String quote_char (escape s +:+ String quote_char "").

Fixpoint dumps (v : json) : string :=
  match v with
  | JNull => "null"
  | JBool true => "true"
  | JBool false => "false"
  | JInt z => NilZero.string_of_int (Z.to_int z)
  | JStr s => quote s
  | JArr items =>
      "[" +:+
      match items with
      | [] => "]"
      | x :: l =>
          dumps x +:+
          (fix tail (l : list json) : string :=
             match l with
             | [] => "]"
             | y :: l' => ", " +:+ dumps y +:+ tail l'
             end) l
      end
  | JObj members =>
      "{" +:+
      match members with
      | [] => "}"
      | (k, x) :: l =>
          quote k +:+ ": " +:+ dumps x +:+
          (fix tail (l : list (string * json)) : string :=
             match l with
             | [] => "}"
             | (k', y) :: l' =>
                 ", " +:+ quote k' +:+ ": " +:+ dumps y +:+ tail l'
             end) l
      end
  end.

Definition dumps_items : list json -> string :=
  fix tail (l : list json) : string :=
    match l with
    | [] => "]"
    | y :: l' => ", " +:+ dumps y +:+ tail l'
    end.

Definition dumps_members : list (string * json) -> string :=
  fix tail (l : list (string * json)) : string :=
    match l with
    | [] => "}"
    | (k', y) :: l' => ", " +:+ quote k' +:+ ": " +:+ dumps y +:+ tail l'
    end.

Definition unescape (e : ascii) : option ascii :=
  if Ascii.eqb e quote_char then Some quote_char
  else if Ascii.eqb e backslash then Some backslash
  else if Ascii.eqb e "/" then Some "/"%char
  else if Ascii.eqb e "n" then Some "010"%char
  else if Ascii.eqb e "r" then Some "013"%char
  else if Ascii.eqb e "t" then Some "009"%char
  else if Ascii.eqb e "b" then Some "008"%char
  else if Ascii.eqb e "f" then Some "012"%char
  else None.

Definition cons_char (c : ascii) (r : option (string * string))
  : option (string * string) :=
  match r with
  | Some (str, rest) => Some (String c str, rest)
  | None => None
  end.

(** The text of a string, from after its opening quote. *)
Fixpoint parse_string (s : string) : option (string * string) :=
  match s with
  | EmptyString => None
  | String c r =>
      if Ascii.eqb c quote_char then Some (EmptyString, r)
      else if Ascii.eqb c backslash then
        match r with
        | String e r1 =>
            if Ascii.eqb e "u" then
              match r1 with
              | String h1 (String h2 (String h3 (String h4 r2))) =>
                  match hex_value h1, hex_value h2, hex_value h3, hex_value h4 with
                  | Some 0%N, Some 0%N, Some a, Some b =>
                      cons_char (ascii_of_N (a * 16 + b)) (parse_string r2)
                  | _, _, _, _ => None
                  end
              | _ => None
              end
            else
              match unescape e with
              | Some c' => cons_char c' (parse_string r1)
              | None => None
              end
        | EmptyString => None
        end
      else if (N_of_ascii c <? 32)%N then None
      else cons_char c (parse_string r)
  end.

Definition is_num_char (c : ascii) : bool :=
  existsb (Ascii.eqb c) (list_ascii_of_string "-0123456789").

Fixpoint span_num (s : string) : string * string :=
  match s with
  | EmptyString => (EmptyString, EmptyString)
  | String c r =>
      if is_num_char c
      then let (a, b) := span_num r in (String c a, b)
      else (EmptyString, s)
  end.

(** An integer in the one way [json.dumps] prints it. *)
Definition parse_int (s : string) : option (Z * string) :=
  let (ds, r) := span_num s in
  match NilZero.int_of_string ds with
  | Some d =>
      let z := Z.of_int d in
      if String.eqb (NilZero.string_of_int (Z.to_int z)) ds
      then Some (z, r) else None
  | None => None
  end.

Fixpoint parse_value (fuel : nat) (s : string) : option (json * string) :=
  match fuel with
  | O => None
  | S f =>
      if startswith s "null" then Some (JNull, string_drop 4 s)
      else if startswith s "true" then Some (JBool true, string_drop 4 s)
      else if startswith s "false" then Some (JBool false, string_drop 5 s)
      else
        match s with
        | EmptyString => None
        | String c r =>
            if Ascii.eqb c quote_char then
              '(str, r1) ← parse_string r; Some (JStr str, r1)
            else if Ascii.eqb c "[" then
              if startswith r "]" then Some (JArr [], string_drop 1 r)
              else
                '(x, r1) ← parse_value f r;
                '(l, r2) ← parse_items f r1;
                Some (JArr (x :: l), r2)
            else if Ascii.eqb c "{" then
              if startswith r "}" then Some (JObj [], string_drop 1 r)
              else
                '(kx, r1) ← parse_member f r;
                '(l, r2) ← parse_members f r1;
                Some (JObj (dict_update [] (kx :: l)), r2)
            else
              '(z, r1) ← parse_int s; Some (JInt z, r1)
        end
  end
with parse_items (fuel : nat) (s : string) : option (list json * string) :=
  match fuel with
  | O => None
  | S f =>
      if startswith s "]" then Some ([], string_drop 1 s)
      else if startswith s ", " then
        '(y, r1) ← parse_value f (string_drop 2 s);
        '(l, r2) ← parse_items f r1;
        Some (y :: l, r2)
      else None
  end
with parse_member (fuel : nat) (s : string)
  : option ((string * json) * string) :=
  match fuel with
  | O => None
  | S f =>
      match s with
      | EmptyString => None
      | String c r =>
          if Ascii.eqb c quote_char then
            '(k, r1) ← parse_string r;
            if startswith r1 ": " then
              '(x, r2) ← parse_value f (string_drop 2 r1);
              Some ((k, x), r2)
            else None
          else None
      end
  end
with parse_members (fuel : nat) (s : string)
  : option (list (string * json) * string) :=
  match fuel with
  | O => None
  | S f =>
      if startswith s "}" then Some ([], string_drop 1 s)
      else if startswith s ", " then
        '(kx, r1) ← parse_member f (string_drop 2 s);
        '(l, r2) ← parse_members f r1;
        Some (kx :: l, r2)
      else None
  end.

(** What may follow a printed integer: not a character of one. *)
Definition ok_rest (rest : string) : Prop :=
  match rest with
  | String c _ => is_num_char c = false
  | EmptyString => True
  end.

(** A text the integer scanner takes whole. *)
Definition all_num (s : string) : Prop :=
  forall rest, ok_rest rest -> span_num (s +:+ rest) = (s, rest).

(** The characters a printed value starts with. *)
Definition value_start (c : ascii) : bool :=
  is_num_char c
  || existsb (Ascii.eqb c) ["n"; "t"; "f"; quote_char; "["; "{"]%char.

(** The parser reads a printed value back, whatever follows. *)
Definition parses (v : json) : Prop :=
  forall fuel rest,
    String.length (dumps v) < fuel -> ok_rest rest ->
    parse_value fuel (dumps v +:+ rest) = Some (v, rest).

(** The whole text is one value; a repeated key keeps its last value. *)
Definition loads (t : string) : result json :=
  match parse_value (S (String.length t)) t with
  | Some (v, EmptyString) => Ok v
  | _ => Raise JSONDecodeError
  end.

(** [urljoin] for a base that ends with a slash and a reference without
    one, which is how the tracking URLs are built. *)
Definition join (base : option string) (ref : string) : string :=
  default "" base +:+ ref.

(** [d.update(x)] for a list of pairs of a string and a value; anything
    else is not modelled and raises. *)
Fixpoint update_pairs (d : dict) (items : list json) : result dict :=
  match items with
  | [] => Ok d
  | JArr [JStr k; v] :: rest => update_pairs (dict_set k v d) rest
  | _ => Raise ValueError
  end.

Definition update_iterable (d : dict) (x : json) : result dict :=
  match x with
  | JArr items => update_pairs d items
  | _ => Raise ValueError
  end.

End Reference.

#[global] Instance reference_libs : Libs := {|
  json_dumps := Reference.dumps;
  json_loads := Reference.loads;
  text_encode := Reference.encode;
  text_decode := Reference.decode;
  urlsafe_b64encode := Reference.b64encode;
  urlsafe_b64decode := Reference.b64decode;
  fernet := Reference.cipher_key;
  Fernet_init := Reference.cipher_init;
  fernet_encrypt := Reference.cipher_encrypt;
  fernet_open := Reference.cipher_open;
  urljoin := Reference.join;
  update_from_iterable := Reference.update_iterable
|}.


(** ** Configurations and inputs to run the code on *)

Definition no_entropy : entropy := {| clock := 0; iv := [] |}.

(** The defaults of [Configuration.__init__] with a click base URL and
    local default metadata {"a": 1}. *)
Definition plain_config : Configuration := {|
  webhook_url := None;
  webhook_timeout_seconds := 5;
  include_webhook_url := false;
  base_open_tracking_url := None;
  base_click_tracking_url := Some "https://t.example/c/";
  default_metadata := Some [("a", JInt 1)];
  include_default_metadata := false;
  encryption_bytestring_key := None;
  encoding := "utf-8";
  kwargs := [];
  encryption_key := None;
  append_slash := false;
  pixel_position := "top"
|}.

Definition with_key (key_text : string) (key : Reference.cipher_key)
  : Configuration := {|
  webhook_url := webhook_url plain_config;
  webhook_timeout_seconds := webhook_timeout_seconds plain_config;
  include_webhook_url := include_webhook_url plain_config;
  base_open_tracking_url := base_open_tracking_url plain_config;
  base_click_tracking_url := base_click_tracking_url plain_config;
  default_metadata := default_metadata plain_config;
  include_default_metadata := include_default_metadata plain_config;
  encryption_bytestring_key := Some key_text;
  encoding := encoding plain_config;
  kwargs := kwargs plain_config;
  encryption_key := Some key;
  append_slash := append_slash plain_config;
  pixel_position := pixel_position plain_config
|}.

Definition key_A : Reference.cipher_key := ("k", "e", "y", "A")%byte.
Definition key_B : Reference.cipher_key := ("k", "e", "y", "B")%byte.
Definition config_A : Configuration := with_key "keyA" key_A.
Definition config_B : Configuration := with_key "keyB" key_B.

(** An empty base URL and an empty webhook URL that is to be included. *)
Definition empty_strings_config : Configuration := {|
  webhook_url := Some "";
  webhook_timeout_seconds := 5;
  include_webhook_url := true;
  base_open_tracking_url := Some "";
  base_click_tracking_url := Some "";
  default_metadata := None;
  include_default_metadata := false;
  encryption_bytestring_key := None;
  encoding := "utf-8";
  kwargs := [];
  encryption_key := None;
  append_slash := false;
  pixel_position := "top"
|}.

(** A token made under [key_B], and a string that is base64 but no
    token. *)
Definition token_B : string :=
  string_of_list_byte
    (Reference.cipher_encrypt key_B no_entropy (list_byte_of_string "{}")).

Definition not_a_token : string := "AAAA".

(** A store with one Configuration: it holds the dict {"a": 1} as its
    default metadata and an empty [kwargs]. *)
Definition example_attrs : list (string * val) :=
  [ ("webhook_url", VNone);
    ("webhook_timeout_seconds", VInt 5);
    ("include_webhook_url", VBool false);
    ("base_open_tracking_url", VNone);
    ("base_click_tracking_url", VStr "https://t.example/c/");
    ("default_metadata", VDict 2%positive);
    ("include_default_metadata", VBool false);
    ("encryption_bytestring_key", VNone);
    ("encoding", VStr "utf-8");
    ("kwargs", VDict 3%positive);
    ("encryption_key", VNone);
    ("append_slash", VBool false);
    ("pixel_position", VStr "top") ].

Definition example_store : gmap positive obj :=
  <[1%positive := OConfig example_attrs]>
    (<[2%positive := ODict [("a", JInt 1)]]>
       (<[3%positive := ODict []]> ∅)).

Definition example_kwargs : list (string * val) :=
  [ ("webhook_url", VStr "https://hooks.example/x");
    ("encryption_bytestring_key", VStr "keyA");
    ("no_such_option", VInt 1) ].

(** The error classes of the specification, and the class it gives each
    stage of decoding. *)
Inductive spec_error : Set :=
| ConfigurationError
| DecodeError
| IntegrityError
| FormatError.

Definition claimed_class (st : stage) : option spec_error :=
  match st with
  | TextEncode => None
  | Base64 => Some DecodeError
  | TokenStructure => Some DecodeError
  | Authentication => Some IntegrityError
  | TextDecode => Some FormatError
  | JsonParse => Some FormatError
  | JsonShape => Some FormatError
  end.

(** What is raised tells the class: some reading of the exceptions as
    classes gives every failure the class of its stage. *)
Definition taxonomy_realised `{L : Libs} : Prop :=
  exists classify : exn -> spec_error,
    forall (self : Configuration) segment st e c,
      decode_failure self segment st e ->
      claimed_class st = Some c -> classify e = c.



(** The arguments of [Configuration(base_click_tracking_url=...,
    encryption_bytestring_key="keyA", utm="x")]. *)
Definition example_args : init_args := {|
  arg_webhook_url := VNone;
  arg_webhook_timeout_seconds := VInt 5;
  arg_include_webhook_url := VBool false;
  arg_base_open_tracking_url := VNone;
  arg_base_click_tracking_url := VStr "https://t.example/c/";
  arg_default_metadata := VNone;
  arg_include_default_metadata := VBool false;
  arg_encryption_bytestring_key := VStr "keyA";
  arg_encoding := VStr "utf-8";
  arg_append_slash := VBool false;
  arg_pixel_position := VStr "top";
  arg_kwargs := [("utm", JStr "x")]
|}.

(** The links of a document: a link to rewrite, a [mailto:] link, an
    image, and a link that points to the tracker already. *)
Definition example_links : list link_item :=
  [ {| tag := "a"; attribute := "href"; link := "https://example.com/a" |};
    {| tag := "a"; attribute := "href"; link := "mailto:x@y.com" |};
    {| tag := "img"; attribute := "src"; link := "https://example.com/i.png" |};
    {| tag := "a"; attribute := "href"; link := "https://t.example/c/xyz" |} ].

(** A configuration that puts its webhook URL and its default metadata
    into the link, and one that takes the webhook URL from the link and has
    defaults of its own. *)
Definition maker_config : Configuration := {|
  webhook_url := Some "https://hooks.example/maker";
  webhook_timeout_seconds := 5;
  include_webhook_url := true;
  base_open_tracking_url := Some "https://t.example/o/";
  base_click_tracking_url := Some "https://t.example/c/";
  default_metadata := Some [("a", JInt 1); ("m", JInt 7)];
  include_default_metadata := true;
  encryption_bytestring_key := None;
  encoding := "utf-8";
  kwargs := [];
  encryption_key := None;
  append_slash := false;
  pixel_position := "top"
|}.

Definition resolver_config : Configuration := {|
  webhook_url := Some "https://hooks.example/resolver";
  webhook_timeout_seconds := 5;
  include_webhook_url := true;
  base_open_tracking_url := Some "https://t.example/o/";
  base_click_tracking_url := Some "https://t.example/c/";
  default_metadata := Some [("a", JInt 9); ("r", JInt 8)];
  include_default_metadata := false;
  encryption_bytestring_key := None;
  encoding := "latin-1";
  kwargs := [];
  encryption_key := None;
  append_slash := false;
  pixel_position := "bottom"
|}.

(** The defaults of [Configuration.__init__] with [encoding="utf-32"], and
    a payload with a tracked URL and metadata. *)
Definition utf32_config : Configuration := {|
  webhook_url := None;
  webhook_timeout_seconds := 5;
  include_webhook_url := false;
  base_open_tracking_url := None;
  base_click_tracking_url := None;
  default_metadata := None;
  include_default_metadata := false;
  encryption_bytestring_key := None;
  encoding := "utf-32";
  kwargs := [];
  encryption_key := None;
  append_slash := false;
  pixel_position := "top"
|}.

Definition example_payload : dict :=
  [("url", JStr "https://example.com"); ("metadata", JObj [("b", JInt 3)])].

(** Overrides that name a method of the class. *)
Definition shadowing_kwargs : list (string * val) :=
  [("cache_encryption_key", VInt 1)].
(** ** Facts about dicts and strings *)

Lemma dict_get_set {V : Type} (k k' : string) (v : V) (d : list (string * V)) :
  dict_get k (dict_set k' v d) =
  if String.eqb k k' then Some v else dict_get k d.
Proof.
  induction d as [|[k0 v0] d IH]; simpl.
  - reflexivity.
  - destruct (String.eqb_spec k' k0) as [->|Hne]; simpl.
    + destruct (String.eqb k k0); reflexivity.
    + rewrite IH. destruct (String.eqb_spec k k0) as [->|Hne'].
      * destruct (String.eqb_spec k0 k') as [E|_]; [congruence | reflexivity].
      * reflexivity.
Qed.

Lemma dict_get_absent {V : Type} (k : string) (d : list (string * V)) :
  existsb (String.eqb k) (map fst d) = false -> dict_get k d = None.
Proof.
  induction d as [|[k0 v0] d IH]; simpl; [reflexivity|].
  intros H. apply orb_false_elim in H as [-> H]. auto.
Qed.

Lemma dict_set_absent {V : Type} (k : string) (v : V) (d : list (string * V)) :
  existsb (String.eqb k) (map fst d) = false -> dict_set k v d = d ++ [(k, v)].
Proof.
  induction d as [|[k0 v0] d IH]; simpl; [reflexivity|].
  intros H. apply orb_false_elim in H as [-> H]. rewrite IH by exact H.
  reflexivity.
Qed.

Lemma dict_update_cons (d : dict) (k : string) (v : json) (other : dict) :
  dict_update d ((k, v) :: other) = dict_update (dict_set k v d) other.
Proof. reflexivity. Qed.

(** Overlay: a key of [other] gets [other]'s value, any other key keeps
    the value it had. *)
Lemma dict_get_update (k : string) (d other : dict) :
  distinct (map fst other) = true ->
  dict_get k (dict_update d other) =
  match dict_get k other with
  | Some v => Some v
  | None => dict_get k d
  end.
Proof.
  revert d. induction other as [|[k0 v0] other IH]; intros d Hd.
  - reflexivity.
  - rewrite dict_update_cons. simpl in Hd.
    apply andb_prop in Hd as [Hk Hd]. apply negb_true_iff in Hk.
    rewrite (IH _ Hd), dict_get_set. simpl.
    destruct (String.eqb_spec k k0) as [->|Hne].
    + rewrite (dict_get_absent _ _ Hk). reflexivity.
    + reflexivity.
Qed.

Lemma existsb_eqb_app (k : string) (l1 l2 : list string) :
  existsb (String.eqb k) (l1 ++ l2) =
  existsb (String.eqb k) l1 || existsb (String.eqb k) l2.
Proof. apply existsb_app. Qed.

Lemma distinct_app_cons (l1 : list string) (k : string) (l2 : list string) :
  distinct (l1 ++ k :: l2) = true ->
  existsb (String.eqb k) l1 = false /\ distinct ((l1 ++ [k]) ++ l2) = true.
Proof.
  induction l1 as [|a l1 IH]; simpl; intros H.
  - split; [reflexivity | exact H].
  - apply andb_prop in H as [Ha H]. apply negb_true_iff in Ha.
    destruct (IH H) as [Hk Hd].
    rewrite existsb_app in Ha. apply orb_false_elim in Ha as [Ha1 Ha2].
    simpl in Ha2. apply orb_false_elim in Ha2 as [Hak Ha2].
    split.
    + rewrite String.eqb_sym, Hak. exact Hk.
    + rewrite Hd, andb_true_r. apply negb_true_iff.
      rewrite !existsb_app; simpl. rewrite Ha1, Hak, Ha2. reflexivity.
Qed.

(** Updating with keys that are new and distinct appends them in order. *)
Lemma dict_update_fresh (d other : dict) :
  distinct (map fst (d ++ other)) = true -> dict_update d other = d ++ other.
Proof.
  revert d. induction other as [|[k0 v0] other IH]; intros d Hd.
  - simpl. rewrite app_nil_r. reflexivity.
  - rewrite dict_update_cons. rewrite map_app in Hd. simpl in Hd.
    apply distinct_app_cons in Hd as [Hk Hd].
    rewrite (dict_set_absent _ _ _ Hk).
    rewrite IH.
    + rewrite <- app_assoc. reflexivity.
    + rewrite !map_app. simpl. exact Hd.
Qed.

Lemma dict_update_empty (other : dict) :
  distinct (map fst other) = true -> dict_update [] other = other.
Proof. intros H. apply (dict_update_fresh [] other H). Qed.

Lemma dict_wf_inv (d : dict) :
  dict_wf d = true ->
  distinct (map fst d) = true /\
  forallb (fun kv => match kv with (_, w) => json_wf w end) d = true.
Proof. unfold dict_wf. simpl. intros H. apply andb_prop in H. exact H. Qed.

Lemma dict_set_keys_absent {V : Type} (k k' : string) (v : V)
    (d : list (string * V)) :
  String.eqb k k' = false ->
  existsb (String.eqb k) (map fst d) = false ->
  existsb (String.eqb k) (map fst (dict_set k' v d)) = false.
Proof.
  intros Hkk'. induction d as [|[k0 v0] d IH]; simpl.
  - rewrite Hkk'. reflexivity.
  - intros H. apply orb_false_elim in H as [Hk0 H].
    destruct (String.eqb k' k0); simpl.
    + rewrite Hkk', H. reflexivity.
    + rewrite Hk0, (IH H). reflexivity.
Qed.

Lemma dict_set_wf (k : string) (v : json) (d : dict) :
  dict_wf d = true -> json_wf v = true -> dict_wf (dict_set k v d) = true.
Proof.
  intros Hd Hv. apply dict_wf_inv in Hd as [Hk Hw].
  unfold dict_wf. simpl. apply andb_true_intro.
  induction d as [|[k0 v0] d IH]; simpl in *.
  - rewrite Hv. split; reflexivity.
  - apply andb_prop in Hk as [Hk0 Hk]. apply andb_prop in Hw as [Hv0 Hw].
    apply negb_true_iff in Hk0.
    destruct (String.eqb_spec k k0) as [->|Hne]; simpl.
    + rewrite Hk0, Hk, Hv, Hw. split; reflexivity.
    + destruct (IH Hk Hw) as [IH1 IH2]. rewrite IH1, IH2, Hv0.
      rewrite dict_set_keys_absent; [split; reflexivity | | exact Hk0].
      apply String.eqb_neq. congruence.
Qed.

Lemma dict_update_wf (d other : dict) :
  dict_wf d = true ->
  forallb (fun kv => match kv with (_, w) => json_wf w end) other = true ->
  dict_wf (dict_update d other) = true.
Proof.
  revert d. induction other as [|[k0 v0] other IH]; intros d Hd Ho.
  - exact Hd.
  - simpl in Ho. apply andb_prop in Ho as [Hv Ho].
    rewrite dict_update_cons. apply IH; [|exact Ho].
    apply dict_set_wf; assumption.
Qed.

Lemma append_cons (c : ascii) (p rest : string) :
  String c p +:+ rest = String c (p +:+ rest).
Proof. reflexivity. Qed.

Lemma append_empty (rest : string) : "" +:+ rest = rest.
Proof. reflexivity. Qed.

Lemma startswith_app (p rest : string) : startswith (p +:+ rest) p = true.
Proof.
  unfold startswith. induction p as [|c p IH].
  - rewrite append_empty. destruct rest; reflexivity.
  - rewrite append_cons. simpl.
    destruct (ascii_dec c c); [exact IH | congruence].
Qed.

Lemma string_drop_app (p rest : string) :
  string_drop (String.length p) (p +:+ rest) = rest.
Proof.
  induction p as [|c p IH]; [reflexivity|].
  rewrite append_cons. simpl. exact IH.
Qed.

(** A prefix found by [startswith] is removed by the slice, byte for
    byte. *)
Lemma startswith_split (s p : string) :
  startswith s p = true -> s = p +:+ string_drop (String.length p) s.
Proof.
  unfold startswith. revert s. induction p as [|c p IH]; intros s H.
  - reflexivity.
  - destruct s as [|c' s]; simpl in H; [discriminate|].
    destruct (ascii_dec c c') as [->|]; [|discriminate].
    rewrite append_cons. simpl. f_equal. apply IH. exact H.
Qed.

Lemma startswith_empty (s : string) : startswith s "" = true.
Proof. destruct s; reflexivity. Qed.

(** ** Facts about the store *)

Section ObjectFacts.
Context `{L : Libs}.

Abbreviation store := (gmap loc obj) (only parsing).

Lemma same_but_refl (o : loc) (h : store) : same_but o h h.
Proof. intros l x _ H. exact H. Qed.

Lemma same_but_trans (o : loc) (h1 h2 h3 : store) :
  same_but o h1 h2 -> same_but o h2 h3 -> same_but o h1 h3.
Proof. intros H12 H23 l x Hl H. apply (H23 l x Hl), (H12 l x Hl), H. Qed.

Lemma alloc_spec (x : obj) (h h' : store) (l : loc) :
  alloc x h = (l, h') -> h !! l = None /\ h' = <[l := x]> h.
Proof.
  unfold alloc. intros H. injection H as <- <-. split; [|reflexivity].
  apply not_elem_of_dom, is_fresh.
Qed.

Lemma subseteq_same_but (o : loc) (h h' : store) : h ⊆ h' -> same_but o h h'.
Proof. intros Hsub l x _ H. apply (lookup_weaken _ _ _ _ H Hsub). Qed.

Lemma alloc_extends (x : obj) (h0 h h' : store) (l : loc) :
  alloc x h = (l, h') -> h0 ⊆ h ->
  h0 ⊆ h' /\ h ⊆ h' /\ h !! l = None /\ h0 !! l = None
  /\ h' !! l = Some x.
Proof.
  intros Ha Hsub. apply alloc_spec in Ha as [Hl ->].
  assert (H0 : h0 !! l = None).
  { destruct (h0 !! l) as [y|] eqn:Hy; [|reflexivity].
    rewrite (lookup_weaken _ _ _ _ Hy Hsub) in Hl. discriminate. }
  assert (Hext : h ⊆ <[l := x]> h) by (apply insert_subseteq; exact Hl).
  repeat split.
  - transitivity h; assumption.
  - exact Hext.
  - exact Hl.
  - exact H0.
  - apply lookup_insert_eq.
Qed.

Lemma setattr_spec (h0 h : store) (o : loc) (name : string) (v : val)
    (attrs : list (string * val)) :
  h !! o = Some (OConfig attrs) -> h0 !! o = None -> h0 ⊆ h ->
  let h' := setattr o name v h in
  h0 ⊆ h' /\ same_but o h h'
  /\ h' !! o = Some (OConfig (dict_set name v attrs)).
Proof.
  intros Ho H0 Hsub. unfold setattr. rewrite Ho. repeat split.
  - apply insert_subseteq_r; assumption.
  - intros l x Hl Hx. rewrite lookup_insert_ne; [exact Hx | congruence].
  - apply lookup_insert_eq.
Qed.

Lemma dict_get_in_keys {V : Type} (k : string) (d : list (string * V)) :
  existsb (String.eqb k) (map fst d) = true <-> is_Some (dict_get k d).
Proof.
  induction d as [|[k0 v0] d IH]; simpl.
  - split; [discriminate | intros [x Hx]; discriminate].
  - destruct (String.eqb k k0); simpl; [|exact IH].
    split; [eauto | reflexivity].
Qed.

Lemma dict_get_not_in_keys {V : Type} (k : string) (d : list (string * V)) :
  existsb (String.eqb k) (map fst d) = false <-> dict_get k d = None.
Proof.
  split.
  - apply dict_get_absent.
  - intros H. destruct (existsb (String.eqb k) (map fst d)) eqn:E; [|reflexivity].
    apply dict_get_in_keys in E as [x Hx]. congruence.
Qed.

(** [Configuration()] makes two objects, the instance and its empty
    [kwargs], and changes nothing else. *)
Lemma init_default (h : store) :
  exists kw new,
    __init__ default_args h =
      Ok (new, <[new := OConfig (init_attrs default_args kw)]>
                 (<[kw := ODict []]> h))
    /\ h !! kw = None /\ h !! new = None /\ kw <> new.
Proof.
  unfold __init__.
  destruct (alloc (ODict (arg_kwargs default_args)) h) as [kw h1] eqn:H1.
  destruct (alloc (OConfig (init_attrs default_args kw)) h1) as [new h2] eqn:H2.
  apply alloc_spec in H1 as [Hkw ->]. apply alloc_spec in H2 as [Hnew ->].
  exists kw, new.
  assert (Hne : kw <> new).
  { intros <-. rewrite lookup_insert_eq in Hnew. discriminate. }
  rewrite lookup_insert_ne in Hnew by exact Hne.
  repeat split; try assumption.
  unfold cache_encryption_key. rewrite lookup_insert_eq. simpl.
  unfold setattr. rewrite lookup_insert_eq. simpl.
  rewrite insert_insert_eq. reflexivity.
Qed.

Lemma keys_dict_set {V : Type} (name k : string) (v : V) (d : list (string * V)) :
  existsb (String.eqb name) (map fst (dict_set k v d)) =
  String.eqb name k || existsb (String.eqb name) (map fst d).
Proof.
  induction d as [|[k0 v0] d IH]; simpl.
  - reflexivity.
  - destruct (String.eqb_spec k k0) as [->|Hne]; simpl.
    + destruct (String.eqb name k0); reflexivity.
    + rewrite IH. destruct (String.eqb name k), (String.eqb name k0); reflexivity.
Qed.

Lemma deepcopy_spec (h0 hc : store) (o : loc) (v v' : val) (hc' : store) :
  h0 ⊆ hc -> val_ok h0 v -> deepcopy v hc = (v', hc') ->
  h0 ⊆ hc' /\ hc ⊆ hc' /\ deep_copy_of h0 hc' v v'.
Proof.
  intros Hsub Hok Hcp.
  destruct v as [| | | |l|l]; cbn [deepcopy] in Hcp;
    try (injection Hcp as <- <-; repeat split; [assumption | reflexivity]).
  - destruct Hok as [items Hl].
    rewrite (lookup_weaken _ _ _ _ Hl Hsub) in Hcp.
    destruct (alloc (ODict items) hc) as [l' h1] eqn:Ha.
    injection Hcp as <- <-.
    destruct (alloc_extends _ _ _ _ _ Ha Hsub) as (H0 & Hext & Hc & H0l & Hl').
    repeat split; [exact H0 | exact Hext |].
    simpl. exists l'. rewrite Hl, Hl'. auto.
  - destruct Hok as [key Hl].
    rewrite (lookup_weaken _ _ _ _ Hl Hsub) in Hcp.
    destruct (alloc (OFernet key) hc) as [l' h1] eqn:Ha.
    injection Hcp as <- <-.
    destruct (alloc_extends _ _ _ _ _ Ha Hsub) as (H0 & Hext & Hc & H0l & Hl').
    repeat split; [exact H0 | exact Hext |].
    simpl. exists l'. rewrite Hl, Hl'. auto.
Qed.

(** A copy stays a copy while only the instance at [o] changes. *)
Lemma deep_copy_of_stable (h0 h1 h2 : store) (o : loc) (v v' : val)
    (attrs : list (string * val)) :
  val_ok h0 v -> deep_copy_of h0 h1 v v' ->
  h1 !! o = Some (OConfig attrs) -> same_but o h1 h2 ->
  deep_copy_of h0 h2 v v'.
Proof.
  intros Hok Hcp Ho Hsame.
  destruct v as [| | | |l|l]; simpl in *; try exact Hcp.
  - destruct Hok as [items Hl]. destruct Hcp as (l' & -> & Hn & Hl').
    exists l'. repeat split; [exact Hn|].
    rewrite Hl in *. apply Hsame; [|exact Hl']. congruence.
  - destruct Hok as [key Hl]. destruct Hcp as (l' & -> & Hn & Hl').
    exists l'. repeat split; [exact Hn|].
    rewrite Hl in *. apply Hsame; [|exact Hl']. congruence.
Qed.

(** The loop of [__deepcopy__]: every attribute of the original but
    [encryption_key] is set to a deep copy; nothing else changes. *)
Lemma copy_attrs_spec (h0 : store) (new : loc) (items : list (string * val)) :
  forall (hc : store) (attrs : list (string * val)),
  h0 ⊆ hc -> h0 !! new = None -> hc !! new = Some (OConfig attrs) ->
  distinct (map fst items) = true ->
  (forall k v, dict_get k items = Some v -> val_ok h0 v) ->
  exists attrs',
    copy_attrs new items hc !! new = Some (OConfig attrs')
    /\ h0 ⊆ copy_attrs new items hc
    /\ same_but new hc (copy_attrs new items hc)
    /\ (forall name,
          dict_get name items = None \/ name = "encryption_key" ->
          dict_get name attrs' = dict_get name attrs)
    /\ (forall name v,
          name <> "encryption_key" -> dict_get name items = Some v ->
          exists v', dict_get name attrs' = Some v' /\
                     deep_copy_of h0 (copy_attrs new items hc) v v').
Proof.
  induction items as [|[k v] rest IH]; intros hc attrs Hsub Hnew Hc Hd Hok.
  - exists attrs. simpl. repeat split; try assumption.
    + apply same_but_refl.
    + intros name v _ H. discriminate.
  - simpl in Hd. apply andb_prop in Hd as [Hk Hd]. apply negb_true_iff in Hk.
    assert (Hkrest : dict_get k rest = None) by (apply dict_get_absent, Hk).
    assert (Hokrest : forall k' v', dict_get k' rest = Some v' -> val_ok h0 v').
    { intros k' v' H. apply (Hok k'). simpl.
      destruct (String.eqb_spec k' k) as [->|_]; [congruence | exact H]. }
    simpl. destruct (String.eqb_spec k "encryption_key") as [->|Hne]; simpl.
    + destruct (IH hc attrs Hsub Hnew Hc Hd Hokrest)
        as (attrs' & Hf & Hsubf & Hsame & Hi & Hii).
      exists attrs'. repeat split; try assumption.
      * intros name [H| ->]; [|apply Hi; right; reflexivity].
        apply Hi. destruct (String.eqb_spec name "encryption_key");
          [right; assumption | left; exact H].
      * intros name v0 Hn H. apply (Hii name v0 Hn).
        destruct (String.eqb_spec name "encryption_key"); [contradiction | exact H].
    + destruct (deepcopy v hc) as [v' h1] eqn:Hcp.
      assert (Hv : val_ok h0 v).
      { apply (Hok k). simpl. rewrite String.eqb_refl. reflexivity. }
      destruct (deepcopy_spec h0 hc new v v' h1 Hsub Hv Hcp) as (H01 & Hc1 & Hcopy).
      pose proof (lookup_weaken _ _ _ _ Hc Hc1) as Hnew1.
      destruct (setattr_spec h0 h1 new k v' attrs Hnew1 Hnew H01)
        as (H02 & Hsame12 & Hnew2).
      destruct (IH _ _ H02 Hnew Hnew2 Hd Hokrest)
        as (attrs' & Hf & Hsubf & Hsame & Hi & Hii).
      exists attrs'. repeat split; try assumption.
      * intros l x Hl Hx. apply (Hsame l x Hl), (Hsame12 l x Hl).
        apply (lookup_weaken _ _ _ _ Hx Hc1).
      * intros name H.
        assert (Hnk : name <> k).
        { destruct H as [H| ->]; [|congruence].
          destruct (String.eqb_spec name k); [discriminate | assumption]. }
        rewrite Hi.
        -- rewrite dict_get_set. apply String.eqb_neq in Hnk. rewrite Hnk.
           reflexivity.
        -- destruct H as [H|H]; [left | right; exact H].
           destruct (String.eqb_spec name k); [contradiction | exact H].
      * intros name v0 Hn H.
        destruct (String.eqb_spec name k) as [->|Hnk].
        -- injection H as <-. exists v'. split.
           ++ rewrite Hi by (left; exact Hkrest).
              rewrite dict_get_set, String.eqb_refl. reflexivity.
           ++ apply (deep_copy_of_stable h0 h1 _ new v v' attrs Hv Hcopy Hnew1).
              apply (same_but_trans new _ _ _ Hsame12 Hsame).
        -- apply (Hii name v0 Hn H).
Qed.

Lemma plain_name_not_underscore (k : string) :
  plain_name k = true ->
  startswith k "_" = false /\ existsb (String.eqb k) class_attributes = false.
Proof.
  unfold plain_name. intros H. apply andb_prop in H as [H1 H2].
  apply negb_true_iff in H1. apply negb_true_iff in H2. split; assumption.
Qed.

Lemma plain_name_not_object (k : string) :
  plain_name k = true -> existsb (String.eqb k) object_attributes = false.
Proof.
  intros H. apply plain_name_not_underscore in H as [H _].
  destruct (existsb (String.eqb k) object_attributes) eqn:E; [|reflexivity].
  apply existsb_exists in E as (x & Hin & Heq). apply String.eqb_eq in Heq.
  subst x. unfold object_attributes in Hin. simpl in Hin.
  repeat (destruct Hin as [<-|Hin]; [discriminate H|]). contradiction.
Qed.

(** A name that is not plain is no key of a dict with plain keys. *)
Lemma plain_keys_lookup {V : Type} (d : list (string * V)) (name : string) :
  forallb plain_name (map fst d) = true -> plain_name name = false ->
  dict_get name d = None.
Proof.
  induction d as [|[k v] d IH]; simpl; [reflexivity|].
  intros H Hn. apply andb_prop in H as [Hk H].
  destruct (String.eqb_spec name k) as [->|_]; [congruence | auto].
Qed.

Lemma hasattr_plain (h : store) (o : loc) (attrs : list (string * val))
    (name : string) :
  h !! o = Some (OConfig attrs) -> plain_name name = true ->
  hasattr h o name = known attrs name.
Proof.
  intros Ho Hp. unfold hasattr, known. rewrite Ho.
  rewrite (plain_name_not_object _ Hp). apply orb_false_r.
Qed.

Lemma builtin_setattr_plain (o : loc) (name : string) (v : val) (h : store) :
  plain_name name = true ->
  builtin_setattr o name v h = Some (Ok (setattr o name v h)).
Proof.
  intros Hp. apply plain_name_not_underscore in Hp as [Hp _].
  unfold builtin_setattr.
  destruct (String.eqb_spec name "__class__") as [->|_]; [discriminate Hp|].
  destruct (String.eqb_spec name "__weakref__") as [->|_]; [discriminate Hp|].
  destruct (String.eqb_spec name "__dict__") as [->|_]; [discriminate Hp|].
  reflexivity.
Qed.

(** The loop of [merge_with_kwargs] on plain names: a known name gets the
    value given for it; nothing else changes. *)
Lemma apply_kwargs_spec (h0 : store) (new : loc) (kwargs : list (string * val)) :
  forall (hc : store) (attrs : list (string * val)),
  h0 ⊆ hc -> h0 !! new = None -> hc !! new = Some (OConfig attrs) ->
  distinct (map fst kwargs) = true ->
  forallb plain_name (map fst kwargs) = true ->
  exists hk attrs',
    apply_kwargs new kwargs hc = Some (Ok hk)
    /\ hk !! new = Some (OConfig attrs')
    /\ h0 ⊆ hk
    /\ same_but new hc hk
    /\ (forall name,
          dict_get name attrs' =
          match dict_get name kwargs with
          | Some v => if known attrs name then Some v else dict_get name attrs
          | None => dict_get name attrs
          end).
Proof.
  induction kwargs as [|[k v] rest IH]; intros hc attrs Hsub Hnew Hc Hd Hp.
  - exists hc, attrs. simpl. repeat split; try assumption. apply same_but_refl.
  - simpl in Hd. apply andb_prop in Hd as [Hk Hd]. apply negb_true_iff in Hk.
    simpl in Hp. apply andb_prop in Hp as [Hpk Hp].
    assert (Hkrest : dict_get k rest = None) by (apply dict_get_absent, Hk).
    cbn [apply_kwargs]. rewrite (hasattr_plain _ _ _ _ Hc Hpk).
    destruct (known attrs k) eqn:Hknown.
    + rewrite (builtin_setattr_plain _ _ _ _ Hpk).
      destruct (setattr_spec h0 hc new k v attrs Hc Hnew Hsub)
        as (H01 & Hsame1 & Hnew1).
      destruct (IH _ _ H01 Hnew Hnew1 Hd Hp)
        as (hk & attrs' & Hrun & Hf & Hsubf & Hsame & Hget).
      exists hk, attrs'. repeat split; try assumption.
      * apply (same_but_trans new _ _ _ Hsame1 Hsame).
      * intros name. rewrite Hget. cbn [dict_get].
        destruct (String.eqb_spec name k) as [->|Hnk].
        -- rewrite Hkrest, Hknown, dict_get_set, String.eqb_refl. reflexivity.
        -- assert (Hkn : known (dict_set k v attrs) name = known attrs name).
           { unfold known. rewrite keys_dict_set.
             apply String.eqb_neq in Hnk. rewrite Hnk. reflexivity. }
           rewrite Hkn, dict_get_set.
           apply String.eqb_neq in Hnk. rewrite Hnk. reflexivity.
    + destruct (IH _ _ Hsub Hnew Hc Hd Hp)
        as (hk & attrs' & Hrun & Hf & Hsubf & Hsame & Hget).
      exists hk, attrs'. repeat split; try assumption.
      intros name. rewrite Hget. cbn [dict_get].
      destruct (String.eqb_spec name k) as [->|Hnk]; [|reflexivity].
      rewrite Hkrest, Hknown. reflexivity.
Qed.

(** [cache_encryption_key] on an instance: the key attribute becomes
    [None] for a falsy key and a new handle for a key [Fernet] accepts; it
    raises what [Fernet] raises. *)
Lemma cache_encryption_key_spec (h0 hc : store) (new : loc)
    (attrs : list (string * val)) (bk : val) :
  h0 ⊆ hc -> h0 !! new = None -> hc !! new = Some (OConfig attrs) ->
  dict_get "encryption_bytestring_key" attrs = Some bk ->
  match cache_encryption_key new hc with
  | Ok hf =>
      h0 ⊆ hf /\ same_but new hc hf /\
      exists ek,
        hf !! new = Some (OConfig (dict_set "encryption_key" ek attrs)) /\
        ((truthy hc bk = false /\ ek = VNone) \/
         (truthy hc bk = true /\
          exists s f lf,
            bk = VStr s /\ Fernet_init s = Ok f /\ ek = VFernet lf /\
            hc !! lf = None /\ hf !! lf = Some (OFernet f)))
  | Raise e =>
      truthy hc bk = true /\
      ((exists s, bk = VStr s /\ Fernet_init s = Raise e) \/
       ((forall s, bk <> VStr s) /\ e = TypeError))
  end.
Proof.
  intros Hsub Hnew Hc Hbk. unfold cache_encryption_key. rewrite Hc, Hbk.
  destruct (truthy hc bk) eqn:Ht.
  - destruct bk as [| | |s| |];
      try (split; [reflexivity | right; split; [intros s; discriminate | reflexivity]]).
    destruct (Fernet_init s) as [f|e] eqn:Hf; unfold mbind, result_bind.
    + destruct (alloc (OFernet f) hc) as [lf h1] eqn:Ha.
      destruct (alloc_extends _ _ _ _ _ Ha Hsub) as (H01 & Hs1 & Hlf & H0lf & Hlf1).
      pose proof (lookup_weaken _ _ _ _ Hc Hs1) as Hnew1.
      destruct (setattr_spec h0 h1 new "encryption_key" (VFernet lf) attrs
                  Hnew1 Hnew H01) as (H02 & Hs2 & Hnew2).
      repeat split;
        [exact H02
        | apply (same_but_trans _ _ _ _ (subseteq_same_but new _ _ Hs1) Hs2) |].
      exists (VFernet lf). split; [exact Hnew2|]. right. split; [reflexivity|].
      exists s, f, lf. repeat split; try assumption.
      apply Hs2; [|exact Hlf1]. intros ->. congruence.
    + split; [reflexivity|]. left. exists s. split; [reflexivity | exact Hf].
  - destruct (setattr_spec h0 hc new "encryption_key" VNone attrs Hc Hnew Hsub)
      as (H01 & Hs1 & Hnew1).
    repeat split; [exact H01 | exact Hs1 |].
    exists VNone. split; [exact Hnew1|]. left. split; reflexivity.
Qed.

End ObjectFacts.

(** ** The embedded payload *)

Section PayloadFacts.
Context `{L : Libs}.

Lemma update_if_truthy (m : dict) (o : option dict) :
  (if truthy_dict o then dict_update m (default [] o) else m) =
  dict_update m (default [] o).
Proof. destruct o as [[|kv o]|]; reflexivity. Qed.

Lemma update_if_included (inc : bool) (dm : option dict) :
  (if inc && truthy_dict dm then dict_update [] (default [] dm) else []) =
  dict_update [] (if inc then default [] dm else []).
Proof. destruct inc, dm as [[|kv dm]|]; reflexivity. Qed.

(** The metadata [get_data_to_embed] builds (lines 139-144): start empty,
    take the defaults when they are included, then the extra metadata. *)
Lemma get_data_to_embed_metadata (self : Configuration)
    (url_to_track : option string) (extra_metadata : option dict) :
  let included : dict :=
    if include_default_metadata self then default [] (default_metadata self)
    else [] in
  let merged := dict_update (dict_update [] included) (default [] extra_metadata) in
  get_data_to_embed self url_to_track extra_metadata =
    (if truthy_str url_to_track then [("url", py_of_str url_to_track)] else [])
    ++ (if truthy_dict (Some merged) then [("metadata", JObj merged)] else [])
    ++ (if include_webhook_url self && truthy_str (webhook_url self)
        then [("webhook", py_of_str (webhook_url self))] else []).
Proof.
  intros included merged. unfold get_data_to_embed.
  rewrite (update_if_included (include_default_metadata self) (default_metadata self)).
  rewrite update_if_truthy. fold included. fold merged.
  destruct (truthy_str url_to_track);
    destruct (truthy_dict (Some merged));
    destruct (include_webhook_url self && truthy_str (webhook_url self));
    reflexivity.
Qed.

Lemma truthy_str_value (s : option string) :
  truthy_str s = true -> exists u, s = Some u /\ u <> "" /\ py_of_str s = JStr u.
Proof.
  destruct s as [[|c u]|]; simpl; try discriminate.
  intros _. exists (String c u). repeat split. discriminate.
Qed.

(** The three keys of the dict [get_data_to_embed] returns. *)
Lemma get_data_to_embed_keys (self : Configuration)
    (url_to_track : option string) (extra_metadata : option dict) :
  let data := get_data_to_embed self url_to_track extra_metadata in
  let included : dict :=
    if include_default_metadata self then default [] (default_metadata self)
    else [] in
  let extra : dict := default [] extra_metadata in
  let merged := dict_update (dict_update [] included) extra in
  dict_get "url" data =
    (if truthy_str url_to_track then Some (py_of_str url_to_track) else None)
  /\ dict_get "metadata" data =
    (if truthy_dict (Some merged) then Some (JObj merged) else None)
  /\ dict_get "webhook" data =
    (if include_webhook_url self && truthy_str (webhook_url self)
     then Some (py_of_str (webhook_url self)) else None).
Proof.
  intros data included extra merged. unfold data.
  rewrite get_data_to_embed_metadata. cbv zeta. fold included extra merged.
  destruct (truthy_str url_to_track);
    destruct (truthy_dict (Some merged));
    destruct (include_webhook_url self && truthy_str (webhook_url self));
    repeat split.
Qed.

(** C2 (as amended): what [get_data_to_embed] returns. The key "url" is
    present iff the tracked URL is a non-empty string; "metadata" is present
    iff the merged metadata is non-empty, and then holds the defaults (only
    when [include_default_metadata]) overlaid by the extra metadata, the
    extra value winning on a shared key; "webhook" is present iff
    [include_webhook_url] and the webhook URL is a non-empty string; no
    other key is present and no value is null. With defaults {"a":1}
    included and extra metadata {"a":2,"b":3} the metadata is
    {"a":2,"b":3}. *)
Theorem get_data_to_embed_postcondition (self : Configuration)
    (url_to_track : option string) (extra_metadata : option dict) :
  let data := get_data_to_embed self url_to_track extra_metadata in
  let included : dict :=
    if include_default_metadata self then default [] (default_metadata self)
    else [] in
  let extra : dict := default [] extra_metadata in
  let merged := dict_update (dict_update [] included) extra in
  dict_get "url" data =
    (if truthy_str url_to_track then Some (py_of_str url_to_track) else None)
  /\ dict_get "metadata" data =
    (if truthy_dict (Some merged) then Some (JObj merged) else None)
  /\ (distinct (map fst included) = true -> distinct (map fst extra) = true ->
      forall k, dict_get k merged =
        match dict_get k extra with
        | Some v => Some v
        | None => dict_get k included
        end)
  /\ dict_get "webhook" data =
    (if include_webhook_url self && truthy_str (webhook_url self)
     then Some (py_of_str (webhook_url self)) else None)
  /\ (forall k v, dict_get k data = Some v ->
        v <> JNull /\ (k = "url" \/ k = "metadata" \/ k = "webhook"))
  /\ (include_default_metadata self = true ->
      default_metadata self = Some [("a", JInt 1)] ->
      extra_metadata = Some [("a", JInt 2); ("b", JInt 3)] ->
      dict_get "metadata" data = Some (JObj [("a", JInt 2); ("b", JInt 3)])).
Proof.
  intros data included extra merged.
  assert (Hdata : data =
    (if truthy_str url_to_track then [("url", py_of_str url_to_track)] else [])
    ++ (if truthy_dict (Some merged) then [("metadata", JObj merged)] else [])
    ++ (if include_webhook_url self && truthy_str (webhook_url self)
        then [("webhook", py_of_str (webhook_url self))] else []))
    by apply get_data_to_embed_metadata.
  assert (Hmerge : distinct (map fst included) = true ->
      distinct (map fst extra) = true ->
      forall k, dict_get k merged =
        match dict_get k extra with
        | Some v => Some v
        | None => dict_get k included
        end).
  { intros Hi He k. unfold merged.
    rewrite (dict_get_update _ _ _ He), (dict_update_empty _ Hi). reflexivity. }
  repeat split.
  - rewrite Hdata. destruct (truthy_str url_to_track);
      destruct (truthy_dict (Some merged));
      destruct (include_webhook_url self && truthy_str (webhook_url self));
      reflexivity.
  - rewrite Hdata. destruct (truthy_str url_to_track);
      destruct (truthy_dict (Some merged));
      destruct (include_webhook_url self && truthy_str (webhook_url self));
      reflexivity.
  - exact Hmerge.
  - rewrite Hdata. destruct (truthy_str url_to_track);
      destruct (truthy_dict (Some merged));
      destruct (include_webhook_url self && truthy_str (webhook_url self));
      reflexivity.
  - rewrite Hdata in H.
    destruct (truthy_str url_to_track) eqn:Hu;
      destruct (truthy_dict (Some merged));
      destruct (include_webhook_url self && truthy_str (webhook_url self)) eqn:Hw;
      simpl in H;
      repeat match type of H with
             | (if ?c then _ else _) = _ => destruct c
             end;
      try discriminate; injection H as <-;
      try (apply andb_prop in Hw as [_ Hw]);
      try (apply truthy_str_value in Hu as (u & _ & _ & ->));
      try (apply truthy_str_value in Hw as (w & _ & _ & ->));
      discriminate.
  - rewrite Hdata in H.
    destruct (truthy_str url_to_track);
      destruct (truthy_dict (Some merged));
      destruct (include_webhook_url self && truthy_str (webhook_url self));
      simpl in H;
      repeat match type of H with
             | (if String.eqb ?a ?b then _ else _) = _ =>
                 destruct (String.eqb_spec a b)
             end;
      try discriminate; auto.
  - intros Hinc Hdm Hex. rewrite Hdata. unfold merged, included, extra.
    rewrite Hinc, Hdm, Hex. simpl.
    destruct (truthy_str url_to_track); reflexivity.
Qed.

End PayloadFacts.

(** ** Result assembly, segment extraction and the path slices *)

Section ResultFacts.
Context `{L : Libs}.

Lemma local_metadata_eq (self : Configuration) :
  local_metadata self =
  if include_default_metadata self then []
  else dict_update [] (default [] (default_metadata self)).
Proof.
  unfold local_metadata.
  destruct (include_default_metadata self),
    (default_metadata self) as [[|kv dm]|]; reflexivity.
Qed.

Lemma resolve_tracking_result_ok (self : Configuration) (data md : dict)
    (req : option dict) (is_open : bool) (ts : Z) :
  default (JObj []) (dict_get "metadata" data) = JObj md ->
  resolve_tracking_result self (JObj data) req is_open ts =
  Ok {| is_open_tracking := is_open;
        is_click_tracking := negb is_open;
        tracked_url := default JNull (dict_get "url" data);
        tr_webhook_url :=
          (if include_webhook_url self
           then default JNull (dict_get "webhook" data)
           else py_of_str (webhook_url self));
        metadata := dict_update (local_metadata self) md;
        request_data := req;
        timestamp := ts |}.
Proof.
  intros Hmd. unfold resolve_tracking_result. simpl. rewrite Hmd. simpl.
  destruct (include_webhook_url self); reflexivity.
Qed.

(** C3: what [get_tracking_result] makes of a decoded payload. The
    metadata starts from the local defaults exactly when
    [include_default_metadata] is false (empty otherwise) and is overlaid by
    the payload's metadata; the webhook is the payload's when
    [include_webhook_url], the local one otherwise; the tracked URL is the
    payload's; exactly one of the open and click flags is set, from
    [is_open]. With local defaults {"a":1} not included and payload
    metadata {"b":3} the metadata is {"a":1,"b":3}. *)
Theorem get_tracking_result_resolution (self : Configuration)
    (encoded_url_path : string) (req : option dict) (is_open : bool)
    (now : Z) (data md : dict) :
  decode_payload self (strip_leading_slash encoded_url_path) = Ok (JObj data) ->
  default (JObj []) (dict_get "metadata" data) = JObj md ->
  exists r,
    get_tracking_result self encoded_url_path req is_open now = Ok r
    /\ local_metadata self =
       (if include_default_metadata self then []
        else dict_update [] (default [] (default_metadata self)))
    /\ (distinct (map fst (default [] (default_metadata self))) = true ->
        local_metadata self =
        if include_default_metadata self then []
        else default [] (default_metadata self))
    /\ metadata r = dict_update (local_metadata self) md
    /\ (distinct (map fst md) = true ->
        forall k, dict_get k (metadata r) =
          match dict_get k md with
          | Some v => Some v
          | None => dict_get k (local_metadata self)
          end)
    /\ tr_webhook_url r =
       (if include_webhook_url self
        then default JNull (dict_get "webhook" data)
        else py_of_str (webhook_url self))
    /\ tracked_url r = default JNull (dict_get "url" data)
    /\ is_open_tracking r = is_open
    /\ is_click_tracking r = negb is_open
    /\ xorb (is_open_tracking r) (is_click_tracking r) = true
    /\ request_data r = req
    /\ timestamp r = now
    /\ (include_default_metadata self = false ->
        default_metadata self = Some [("a", JInt 1)] ->
        md = [("b", JInt 3)] ->
        metadata r = [("a", JInt 1); ("b", JInt 3)]).
Proof.
  intros Hdec Hmd. eexists. split.
  { unfold get_tracking_result. rewrite Hdec. simpl.
    apply (resolve_tracking_result_ok _ _ _ _ _ _ Hmd). }
  simpl. repeat split.
  - apply local_metadata_eq.
  - intros Hd. rewrite local_metadata_eq.
    destruct (include_default_metadata self); [reflexivity|].
    apply dict_update_empty. exact Hd.
  - intros Hd k. apply dict_get_update. exact Hd.
  - destruct is_open; reflexivity.
  - intros Hinc Hdm ->. rewrite local_metadata_eq, Hinc, Hdm. reflexivity.
Qed.

Lemma strip_leading_slash_cons (rest : string) :
  strip_leading_slash ("/" +:+ rest) = rest.
Proof. unfold strip_leading_slash. rewrite startswith_app. reflexivity. Qed.

Lemma strip_leading_slash_other (s : string) :
  startswith s "/" = false -> strip_leading_slash s = s.
Proof. unfold strip_leading_slash. intros ->. reflexivity. Qed.

Lemma set_and_prefix_of_true (x : option string) (s : string) :
  set_and_prefix_of x s = true ->
  exists b, x = Some b /\ startswith s b = true.
Proof.
  unfold set_and_prefix_of. destruct x as [b|]; simpl; [|discriminate].
  intros H. apply andb_prop in H as [_ H]. eauto.
Qed.

Lemma prefix_segment (x : option string) (s b rest : string) :
  x = Some b -> s = b +:+ rest ->
  (if set_and_prefix_of x s
   then n ← py_len x; Ok (string_drop n s) else Ok s) = Ok rest.
Proof.
  intros -> ->. unfold set_and_prefix_of. simpl.
  rewrite startswith_app, andb_true_r.
  destruct b as [|c b]; simpl.
  - reflexivity.
  - change (String c (b +:+ rest)) with (String c b +:+ rest).
    change (S (String.length b)) with (String.length (String c b)).
    rewrite string_drop_app. reflexivity.
Qed.

Lemma no_prefix_segment (x : option string) (s : string) :
  (x = None \/ exists b, x = Some b /\ startswith s b = false) ->
  (if set_and_prefix_of x s
   then n ← py_len x; Ok (string_drop n s) else Ok s) = Ok s.
Proof.
  unfold set_and_prefix_of. intros [->|(b & -> & Hb)]; simpl.
  - reflexivity.
  - rewrite Hb, andb_false_r. reflexivity.
Qed.

(** C7: the segment the decode path works on. A configured base URL that
    the input starts with is removed as a prefix, character for character
    (the input is the base followed by what is kept); then one leading
    slash, if there is one, is removed; an input with neither is used as it
    is. With base "https://t.example/c/" both
    "https://t.example/c/AbCd123" and "/AbCd123" give "AbCd123"; with base
    "https://t.example/c" the first gives "AbCd123" too, the slash that the
    prefix leaves being removed in turn. *)
Theorem encoded_segment_extraction (configuration : Configuration)
    (encoded_url_path : string) (req : option dict) (now : Z) :
  get_click_tracking_result encoded_url_path req configuration now =
    (seg ← click_segment configuration encoded_url_path;
     data ← decode_payload configuration seg;
     resolve_tracking_result configuration data req false now)
  /\ get_open_tracking_result encoded_url_path req configuration now =
    (seg ← open_segment configuration encoded_url_path;
     data ← decode_payload configuration seg;
     resolve_tracking_result configuration data req true now)
  /\ (forall b rest,
        base_click_tracking_url configuration = Some b ->
        encoded_url_path = b +:+ rest ->
        click_segment configuration encoded_url_path =
        Ok (strip_leading_slash rest))
  /\ (forall b rest,
        base_open_tracking_url configuration = Some b ->
        encoded_url_path = b +:+ rest ->
        open_segment configuration encoded_url_path =
        Ok (strip_leading_slash rest))
  /\ ((base_click_tracking_url configuration = None \/
       exists b, base_click_tracking_url configuration = Some b /\
                 startswith encoded_url_path b = false) ->
      click_segment configuration encoded_url_path =
      Ok (strip_leading_slash encoded_url_path))
  /\ ((base_open_tracking_url configuration = None \/
       exists b, base_open_tracking_url configuration = Some b /\
                 startswith encoded_url_path b = false) ->
      open_segment configuration encoded_url_path =
      Ok (strip_leading_slash encoded_url_path))
  /\ (forall rest, strip_leading_slash ("/" +:+ rest) = rest)
  /\ (forall s, startswith s "/" = false -> strip_leading_slash s = s)
  /\ (base_click_tracking_url configuration = Some "https://t.example/c/" ->
      click_segment configuration "https://t.example/c/AbCd123" = Ok "AbCd123"
      /\ click_segment configuration "/AbCd123" = Ok "AbCd123")
  /\ (base_click_tracking_url configuration = Some "https://t.example/c" ->
      click_segment configuration "https://t.example/c/AbCd123" = Ok "AbCd123").
Proof.
  repeat split.
  - unfold get_click_tracking_result, click_segment, get_tracking_result.
    destruct (click_encoded_url_path configuration encoded_url_path); reflexivity.
  - unfold get_open_tracking_result, open_segment, get_tracking_result.
    destruct (open_encoded_url_path configuration encoded_url_path); reflexivity.
  - intros b rest Hb Hp. unfold click_segment, click_encoded_url_path,
      get_click_tracking_url_path.
    rewrite (prefix_segment _ _ _ _ Hb Hp). reflexivity.
  - intros b rest Hb Hp. unfold open_segment, open_encoded_url_path,
      get_open_tracking_url_path.
    rewrite (prefix_segment _ _ _ _ Hb Hp). reflexivity.
  - intros H. unfold click_segment, click_encoded_url_path,
      get_click_tracking_url_path.
    rewrite (no_prefix_segment _ _ H). reflexivity.
  - intros H. unfold open_segment, open_encoded_url_path,
      get_open_tracking_url_path.
    rewrite (no_prefix_segment _ _ H). reflexivity.
  - apply strip_leading_slash_cons.
  - apply strip_leading_slash_other.
  - unfold click_segment, click_encoded_url_path, get_click_tracking_url_path.
    rewrite H. reflexivity.
  - unfold click_segment, click_encoded_url_path, get_click_tracking_url_path.
    rewrite H. reflexivity.
  - intros H.
    unfold click_segment, click_encoded_url_path, get_click_tracking_url_path.
    rewrite H. reflexivity.
Qed.

Lemma string_drop_length (n : nat) (s : string) :
  String.length (string_drop n s) = String.length s - n.
Proof.
  revert s. induction n as [|n IH]; intros [|c s]; simpl; auto with arith.
Qed.

(** C9: [get_click_tracking_url_path] and [get_open_tracking_url_path]
    drop the first [len(base)] characters of the input whatever it starts
    with: an input that does not start with the base is cut short, not
    returned as it is. *)
Theorem url_path_drops_unconditionally (self : Configuration)
    (url b : string) :
  (base_click_tracking_url self = Some b ->
   get_click_tracking_url_path self url = Ok (string_drop (String.length b) url))
  /\ (base_open_tracking_url self = Some b ->
   get_open_tracking_url_path self url = Ok (string_drop (String.length b) url))
  /\ String.length (string_drop (String.length b) url) =
     String.length url - String.length b
  /\ (forall rest, url = b +:+ rest ->
      string_drop (String.length b) url = rest)
  /\ (b <> "" -> url <> "" -> string_drop (String.length b) url <> url)
  /\ string_drop (String.length "https://t.example/c/") "/AbCd123" = "".
Proof.
  repeat split.
  - intros Hb. unfold get_click_tracking_url_path. rewrite Hb. reflexivity.
  - intros Hb. unfold get_open_tracking_url_path. rewrite Hb. reflexivity.
  - apply string_drop_length.
  - intros rest ->. apply string_drop_app.
  - intros Hb Hu Heq.
    pose proof (string_drop_length (String.length b) url) as Hlen.
    rewrite Heq in Hlen.
    destruct b as [|c b]; [congruence|].
    destruct url as [|c' url]; [congruence|].
    simpl in Hlen. lia.
Qed.

End ResultFacts.

(** ** The link filter *)

Section LinkFacts.
Context `{L : Libs}.

Lemma valid_scheme_iff (link : string) :
  existsb (fun scheme => startswith link scheme) _valid_scheme = true <->
  has_valid_scheme link.
Proof.
  unfold _valid_scheme, has_valid_scheme. simpl.
  rewrite orb_false_r, !orb_true_iff. tauto.
Qed.

Lemma _replace_links_from_spec (i : nat) (items : list link_item)
    (extra : option dict) (configuration : Configuration)
    (rnd : nat -> entropy) (items' : list link_item) :
  _replace_links_from i items extra configuration rnd = Ok items' ->
  length items' = length items /\
  forall j it, items !! j = Some it ->
    (rewritten configuration it = false -> items' !! j = Some it) /\
    (rewritten configuration it = true ->
     exists new_link,
       get_click_tracking_url configuration (rnd (i + j)) (Some (link it)) extra
         = Ok new_link /\
       items' !! j =
         Some {| tag := tag it; attribute := attribute it; link := new_link |}).
Proof.
  revert i items'. induction items as [|it0 items IH]; intros i items' H.
  - simpl in H. injection H as <-. split; [reflexivity|].
    intros j it Hj. discriminate.
  - simpl in H.
    destruct (rewritten configuration it0) eqn:Hrw.
    + destruct (get_click_tracking_url configuration (rnd i) (Some (link it0)) extra)
        as [new|e] eqn:Hnew; simpl in H; [|discriminate].
      destruct (_replace_links_from (S i) items extra configuration rnd)
        as [rest'|e] eqn:Hrest; simpl in H; [|discriminate].
      injection H as <-. destruct (IH _ _ Hrest) as [Hlen Hitems].
      split; [simpl; congruence|].
      intros [|j] it Hj; simpl in Hj.
      * injection Hj as <-. split; [congruence|]. intros _.
        exists new. rewrite Nat.add_0_r. split; [exact Hnew | reflexivity].
      * replace (i + S j) with (S i + j) by lia. apply (Hitems j it Hj).
    + simpl in H.
      destruct (_replace_links_from (S i) items extra configuration rnd)
        as [rest'|e] eqn:Hrest; simpl in H; [|discriminate].
      injection H as <-. destruct (IH _ _ Hrest) as [Hlen Hitems].
      split; [simpl; congruence|].
      intros [|j] it Hj; simpl in Hj.
      * injection Hj as <-. split; [reflexivity | congruence].
      * replace (i + S j) with (S i + j) by lia. apply (Hitems j it Hj).
Qed.

(** C8 (as amended): which links are rewritten. A link qualifies iff it
    starts with "http://", "https://" or "//" and, when the base click
    tracking URL is a non-empty string, does not start with it; with no
    base URL, or an empty one, the scheme alone decides. [_replace_links]
    rewrites exactly the [href] of [a] elements that qualify, to their click
    tracking URL, and leaves every other link as it is. "mailto:x@y.com", a
    "javascript:" link, a fragment and relative links never qualify;
    "https://example.com" qualifies under base "https://t.example/c/" and
    "https://t.example/c/xyz" does not. *)
Theorem valid_link_filter (link0 : string) (configuration : Configuration) :
  (_valid_link link0 (Some configuration) = true <->
   has_valid_scheme link0 /\
   ~ (exists b, base_click_tracking_url configuration = Some b /\ b <> "" /\
                startswith link0 b = true))
  /\ (_valid_link link0 None = true <-> has_valid_scheme link0)
  /\ (forall items extra rnd items',
        _replace_links items extra configuration rnd = Ok items' ->
        length items' = length items /\
        forall j it, items !! j = Some it ->
          (rewritten configuration it = false -> items' !! j = Some it) /\
          (rewritten configuration it = true ->
           exists new_link,
             get_click_tracking_url configuration (rnd j) (Some (link it)) extra
               = Ok new_link /\
             items' !! j = Some {| tag := tag it; attribute := attribute it;
                                   link := new_link |}))
  /\ (forall it, rewritten configuration it = true <->
        tag it = "a" /\ attribute it = "href" /\
        _valid_link (link it) (Some configuration) = true)
  /\ _valid_link "mailto:x@y.com" (Some configuration) = false
  /\ _valid_link "javascript:void(0)" (Some configuration) = false
  /\ _valid_link "#top" (Some configuration) = false
  /\ _valid_link "/about" (Some configuration) = false
  /\ _valid_link "page.html" (Some configuration) = false
  /\ (base_click_tracking_url configuration = Some "https://t.example/c/" ->
      _valid_link "https://example.com" (Some configuration) = true /\
      _valid_link "https://t.example/c/xyz" (Some configuration) = false).
Proof.
  split; [|split; [|split; [|split]]].
  - unfold _valid_link. rewrite <- valid_scheme_iff.
    destruct (base_click_tracking_url configuration) as [[|c b]|] eqn:Hb; simpl.
    + split.
      * intros H. split; [exact H|]. intros (b & Hb' & Hne & _). congruence.
      * intros [H _]. exact H.
    + rewrite andb_true_iff, negb_true_iff. split.
      * intros [H Hn]. split; [exact H|].
        intros (b' & Hb' & _ & Hs). injection Hb' as <-. congruence.
      * intros [H Hn]. split; [exact H|].
        destruct (startswith link0 (String c b)) eqn:Hs; [|reflexivity].
        exfalso. apply Hn. exists (String c b). repeat split; [discriminate|exact Hs].
    + split.
      * intros H. split; [exact H|]. intros (b & Hb' & _). discriminate.
      * intros [H _]. exact H.
  - unfold _valid_link. apply valid_scheme_iff.
  - intros items extra rnd items' H.
    apply (_replace_links_from_spec 0 items extra configuration rnd items' H).
  - intros it. unfold rewritten. rewrite !andb_true_iff, !String.eqb_eq. tauto.
  - unfold _valid_link.
    split; [|split; [|split; [|split; [|split]]]];
      try (destruct (truthy_str (base_click_tracking_url configuration));
           reflexivity).
    intros Hb. rewrite Hb. split; reflexivity.
Qed.

End LinkFacts.

(** ** The codec *)

Lemma urlsafe_byte_ascii (b : byte) :
  urlsafe_byte b = true -> byte_is_ascii b = true.
Proof. destruct b; intros H; vm_compute in H |- *; congruence. Qed.

Lemma urlsafe_byte_not_slash (b : byte) :
  urlsafe_byte b = true -> ascii_of_byte b <> "/"%char.
Proof. destruct b; intros H; vm_compute in H |- *; congruence. Qed.


Lemma string_of_list_byte_cons (b : byte) (bs : list byte) :
  string_of_list_byte (b :: bs) =
  String (ascii_of_byte b) (string_of_list_byte bs).
Proof. reflexivity. Qed.

Lemma list_byte_of_string_cons (c : ascii) (s : string) :
  list_byte_of_string (String c s) = byte_of_ascii c :: list_byte_of_string s.
Proof. reflexivity. Qed.

Lemma ascii_bytes_text (bs : list byte) :
  forallb byte_is_ascii bs = true ->
  str_is_ascii (string_of_list_byte bs) = true.
Proof.
  induction bs as [|b bs IH]; [reflexivity|].
  rewrite string_of_list_byte_cons. simpl.
  intros H. apply andb_prop in H as [Hb H].
  unfold byte_is_ascii in Hb. rewrite Hb, (IH H). reflexivity.
Qed.

Lemma text_ascii_bytes (s : string) :
  str_is_ascii s = true -> forallb byte_is_ascii (list_byte_of_string s) = true.
Proof.
  induction s as [|c s IH]; [reflexivity|].
  rewrite list_byte_of_string_cons. cbn [forallb str_is_ascii].
  intros H. apply andb_prop in H as [Hc H].
  unfold byte_is_ascii at 1. rewrite ascii_of_byte_of_ascii, Hc, (IH H). reflexivity.
Qed.

Lemma urlsafe_bytes_ascii (bs : list byte) :
  forallb urlsafe_byte bs = true -> forallb byte_is_ascii bs = true.
Proof.
  induction bs as [|b bs IH]; simpl; [reflexivity|].
  intros H. apply andb_prop in H as [Hb H].
  rewrite (urlsafe_byte_ascii _ Hb), (IH H). reflexivity.
Qed.

Lemma startswith_cons (c c' : ascii) (s p : string) :
  startswith (String c' s) (String c p) =
  if ascii_dec c c' then startswith s p else false.
Proof. reflexivity. Qed.

Lemma urlsafe_no_leading_slash (bs : list byte) :
  forallb urlsafe_byte bs = true ->
  strip_leading_slash (string_of_list_byte bs) = string_of_list_byte bs.
Proof.
  intros H. apply strip_leading_slash_other.
  destruct bs as [|b bs]; [reflexivity|].
  rewrite string_of_list_byte_cons, startswith_cons.
  simpl in H. apply andb_prop in H as [Hb _].
  destruct (ascii_dec "/" (ascii_of_byte b)) as [E|_]; [|reflexivity].
  exfalso. apply (urlsafe_byte_not_slash _ Hb). congruence.
Qed.

Section CodecFacts.
Context `{L : Libs} {LOk : LibsOk L}.

Lemma decode_ascii_bytes (enc : string) (bs : list byte) :
  ascii_transparent enc -> forallb byte_is_ascii bs = true ->
  text_decode enc bs = Ok (string_of_list_byte bs).
Proof.
  intros Henc Hbs. destruct (Henc _ (ascii_bytes_text _ Hbs)) as [_ Hd].
  rewrite list_byte_of_string_of_list_byte in Hd. exact Hd.
Qed.

Lemma encode_ascii_bytes (enc : string) (bs : list byte) :
  ascii_transparent enc -> forallb byte_is_ascii bs = true ->
  text_encode enc (string_of_list_byte bs) = Ok bs.
Proof.
  intros Henc Hbs. destruct (Henc _ (ascii_bytes_text _ Hbs)) as [He _].
  rewrite list_byte_of_string_of_list_byte in He. exact He.
Qed.

Lemma encoded_bytes_urlsafe (self : Configuration) (rnd : entropy) (data : dict) :
  forallb urlsafe_byte (encoded_bytes self rnd data) = true.
Proof.
  unfold encoded_bytes. destruct (encryption_key self).
  - apply fernet_alphabet.
  - apply b64_alphabet.
Qed.

(** Encoding succeeds and returns the text of [encoded_bytes]. *)
Lemma get_url_encoded_data_str_ok (self : Configuration) (rnd : entropy)
    (data : dict) :
  ascii_transparent (encoding self) ->
  get_url_encoded_data_str self rnd data =
  Ok (string_of_list_byte (encoded_bytes self rnd data)).
Proof.
  intros Henc. unfold get_url_encoded_data_str.
  destruct (Henc _ (json_dumps_ascii (JObj data))) as [-> _]. simpl.
  pose proof (encoded_bytes_urlsafe self rnd data) as Hsafe.
  unfold encoded_bytes in *.
  destruct (encryption_key self);
    apply decode_ascii_bytes, urlsafe_bytes_ascii; assumption.
Qed.

(** The segment of an encoded string is the string, and its bytes are
    [encoded_bytes]. *)
Lemma encoded_segment_bytes (c1 c2 : Configuration) (rnd : entropy) (data : dict) :
  ascii_transparent (encoding c2) ->
  let tok := string_of_list_byte (encoded_bytes c1 rnd data) in
  strip_leading_slash tok = tok /\
  text_encode (encoding c2) tok = Ok (encoded_bytes c1 rnd data).
Proof.
  intros Henc tok. pose proof (encoded_bytes_urlsafe c1 rnd data) as Hsafe.
  split.
  - apply urlsafe_no_leading_slash. exact Hsafe.
  - apply encode_ascii_bytes; [exact Henc|]. apply urlsafe_bytes_ascii, Hsafe.
Qed.

Lemma decode_json_bytes (enc : string) (v : json) :
  ascii_transparent enc -> json_wf v = true ->
  (payload ← text_decode enc (list_byte_of_string (json_dumps v));
   json_loads payload) = Ok v.
Proof.
  intros Henc Hwf. destruct (Henc _ (json_dumps_ascii v)) as [_ ->]. simpl.
  apply json_roundtrip. exact Hwf.
Qed.

(** Decoding what was encoded under the same key gives the payload back. *)
Lemma decode_payload_encoded (c1 c2 : Configuration) (rnd : entropy) (data : dict) :
  ascii_transparent (encoding c2) ->
  encryption_key c1 = encryption_key c2 ->
  dict_wf data = true ->
  decode_payload c2 (string_of_list_byte (encoded_bytes c1 rnd data)) =
  Ok (JObj data).
Proof.
  intros Henc Hkey Hwf.
  destruct (encoded_segment_bytes c1 c2 rnd data Henc) as [_ Htok].
  unfold decode_payload. rewrite Htok. unfold encoded_bytes. rewrite <- Hkey.
  destruct (encryption_key c1) as [k|]; simpl.
  - unfold fernet_decrypt. rewrite fernet_roundtrip. simpl.
    apply decode_json_bytes; assumption.
  - rewrite b64_roundtrip. simpl. apply decode_json_bytes; assumption.
Qed.

(** C1 (as amended): round trip under encodings that keep ASCII as it is.
    For a tracked URL [u] and metadata [m] (a dict of JSON values, no key
    twice), an encoding configuration [c1] and a decoding configuration [c2]
    whose encodings both keep ASCII text and its bytes the same (as utf-8,
    ascii and latin-1 do), with the same encryption key on both sides (the
    same handle, or none on both), the libraries keeping their contracts:
    [get_url_encoded_data_str] of [c1] returns a string, URL-safe base64 of
    the JSON text without a key and the cipher's token with one;
    [get_tracking_result] of [c2] on that string decodes the payload
    exactly and returns [u] as the tracked URL and, as metadata, [m]
    overlaid on the default metadata [c2] adds on its own side, so every
    entry of [m] is there with its value and the metadata is [m] when [c2]
    adds no defaults. *)
Theorem roundtrip_symmetry (c1 c2 : Configuration) (rnd : entropy)
    (u : string) (m : dict) (req : option dict) (is_open : bool) (now : Z) :
  ascii_transparent (encoding c1) ->
  ascii_transparent (encoding c2) ->
  encryption_key c1 = encryption_key c2 ->
  dict_wf m = true ->
  let p : dict := [("url", JStr u); ("metadata", JObj m)] in
  exists tok r,
    get_url_encoded_data_str c1 rnd p = Ok tok
    /\ tok = string_of_list_byte
               (match encryption_key c1 with
                | Some key =>
                    fernet_encrypt key rnd
                      (list_byte_of_string (json_dumps (JObj p)))
                | None =>
                    urlsafe_b64encode
                      (list_byte_of_string (json_dumps (JObj p)))
                end)
    /\ decode_payload c2 (strip_leading_slash tok) = Ok (JObj p)
    /\ get_tracking_result c2 tok req is_open now = Ok r
    /\ tracked_url r = JStr u
    /\ metadata r = dict_update (local_metadata c2) m
    /\ (forall k v, dict_get k m = Some v -> dict_get k (metadata r) = Some v)
    /\ (local_metadata c2 = [] -> metadata r = m).
Proof.
  intros H1 H2 Hkey Hm p.
  assert (Hp : dict_wf p = true).
  { unfold dict_wf, p. simpl. unfold dict_wf in Hm. simpl in Hm.
    rewrite Hm. reflexivity. }
  destruct (encoded_segment_bytes c1 c2 rnd p H2) as [Hstrip _].
  pose proof (decode_payload_encoded c1 c2 rnd p H2 Hkey Hp) as Hdec.
  exists (string_of_list_byte (encoded_bytes c1 rnd p)).
  eexists. split; [apply get_url_encoded_data_str_ok; exact H1|].
  split; [reflexivity|].
  split; [rewrite Hstrip; exact Hdec|].
  split.
  { unfold get_tracking_result. rewrite Hstrip, Hdec. simpl.
    apply (resolve_tracking_result_ok c2 p m). reflexivity. }
  simpl. apply dict_wf_inv in Hm as [Hd _].
  repeat split.
  - intros k v Hk. rewrite (dict_get_update _ _ _ Hd), Hk. reflexivity.
  - intros ->. apply dict_update_empty. exact Hd.
Qed.



Lemma get_data_to_embed_wf (self : Configuration)
    (url_to_track : option string) (extra_metadata : option dict) :
  dict_wf (default [] (default_metadata self)) = true ->
  dict_wf (default [] extra_metadata) = true ->
  dict_wf (get_data_to_embed self url_to_track extra_metadata) = true.
Proof.
  intros Hd He. rewrite get_data_to_embed_metadata. cbv zeta.
  remember (dict_update
              (dict_update []
                 (if include_default_metadata self
                  then default [] (default_metadata self) else []))
              (default [] extra_metadata)) as merged eqn:Hmerged.
  assert (Hm : json_wf (JObj merged) = true).
  { rewrite Hmerged.
    apply dict_update_wf; [apply dict_update_wf; [reflexivity|]|].
    - destruct (include_default_metadata self); [|reflexivity].
      apply dict_wf_inv in Hd as [_ Hd]. exact Hd.
    - apply dict_wf_inv in He as [_ He]. exact He. }
  clear Hmerged.
  unfold dict_wf.
  destruct (truthy_str url_to_track) eqn:Hu;
    [apply truthy_str_value in Hu as (u & _ & _ & ->)|];
    destruct (truthy_dict (Some merged));
    (destruct (include_webhook_url self && truthy_str (webhook_url self)) eqn:Hw;
     [apply andb_prop in Hw as [_ Hw];
      apply truthy_str_value in Hw as (w & _ & _ & ->)|]);
    simpl in Hm |- *; rewrite ?Hm; reflexivity.
Qed.

(** C10: emptiness is absence. [get_data_to_embed] tests by truthiness: an
    empty tracked URL gives a payload without "url", and decoding what
    that payload encodes to gives no tracked URL; an empty merged metadata
    gives no "metadata"; an empty webhook URL gives no "webhook" even when
    [include_webhook_url] is true. *)
Theorem emptiness_is_absence (self : Configuration) (rnd : entropy)
    (url_to_track : option string) (extra_metadata : option dict)
    (req : option dict) (is_open : bool) (now : Z) :
  ascii_transparent (encoding self) ->
  dict_wf (default [] (default_metadata self)) = true ->
  dict_wf (default [] extra_metadata) = true ->
  dict_get "url" (get_data_to_embed self (Some "") extra_metadata) = None
  /\ (exists tok r,
        get_url_encoded_data_str self rnd
          (get_data_to_embed self (Some "") extra_metadata) = Ok tok
        /\ get_tracking_result self tok req is_open now = Ok r
        /\ tracked_url r = JNull)
  /\ ((include_default_metadata self = false \/
       default_metadata self = None \/ default_metadata self = Some []) ->
      (extra_metadata = None \/ extra_metadata = Some []) ->
      dict_get "metadata"
        (get_data_to_embed self url_to_track extra_metadata) = None)
  /\ (webhook_url self = Some "" ->
      dict_get "webhook"
        (get_data_to_embed self url_to_track extra_metadata) = None).
Proof.
  intros Henc Hd He.
  pose proof (get_data_to_embed_keys self (Some "") extra_metadata)
    as (Hurl & Hmeta & _).
  simpl in Hurl.
  split; [exact Hurl|]. split; [|split].
  - set (data := get_data_to_embed self (Some "") extra_metadata) in *.
    assert (Hwf : dict_wf data = true) by (apply get_data_to_embed_wf; assumption).
    destruct (encoded_segment_bytes self self rnd data Henc) as [Hstrip _].
    pose proof (decode_payload_encoded self self rnd data Henc eq_refl Hwf) as Hdec.
    exists (string_of_list_byte (encoded_bytes self rnd data)).
    assert (Hmd : exists md,
      default (JObj []) (dict_get "metadata" data) = JObj md).
    { rewrite Hmeta.
      match goal with
      | |- context [if ?c then _ else _] => destruct c
      end; simpl; eauto. }
    destruct Hmd as [md Hmd].
    eexists. split; [apply get_url_encoded_data_str_ok; exact Henc|].
    split.
    + unfold get_tracking_result. rewrite Hstrip, Hdec. simpl.
      apply (resolve_tracking_result_ok self data md). exact Hmd.
    + simpl. rewrite Hurl. reflexivity.
  - intros Hdef Hex.
    pose proof (get_data_to_embed_keys self url_to_track extra_metadata)
      as (_ & Hm & _).
    rewrite Hm.
    assert (Hextra : default [] extra_metadata = [])
      by (destruct Hex as [->| ->]; reflexivity).
    rewrite Hextra.
    destruct Hdef as [-> | [-> | ->]]; simpl;
      destruct (include_default_metadata self); reflexivity.
  - intros Hw.
    pose proof (get_data_to_embed_keys self url_to_track extra_metadata)
      as (_ & _ & Hwh).
    rewrite Hwh, Hw. simpl. rewrite andb_false_r. reflexivity.
Qed.

End CodecFacts.

(** ** Merging configurations *)

Section MergeFacts.
Context `{L : Libs}.

Abbreviation store := (gmap loc obj) (only parsing).

Lemma truthy_same_but (h h' : store) (o : loc) (attrs attrs' : list (string * val))
    (v : val) :
  h !! o = Some (OConfig attrs) -> h' !! o = Some (OConfig attrs') ->
  same_but o h h' -> truthy h v = false -> truthy h' v = false.
Proof.
  intros Ho Ho' Hsame. destruct v as [| | | |l|l]; simpl; try (intros H; exact H).
  destruct (h !! l) as [[[|kv items]|key|a]|] eqn:Hl; try discriminate.
  intros _. rewrite (Hsame l _ ltac:(congruence) Hl). reflexivity.
Qed.

Lemma deep_copy_of_str (h h' : store) (v : val) (s : string) :
  deep_copy_of h h' v (VStr s) -> v = VStr s.
Proof.
  destruct v; simpl; intros H; try congruence;
    destruct H as (l' & H & _); discriminate.
Qed.

Lemma deep_copy_of_not_str (h h' : store) (v v' : val) :
  deep_copy_of h h' v v' -> (forall s, v <> VStr s) -> forall s, v' <> VStr s.
Proof.
  intros Hc Hv s ->. apply deep_copy_of_str in Hc. apply (Hv s Hc).
Qed.

(** What [merge_with_kwargs] returns, and what it raises. *)
Lemma merge_with_kwargs_spec (self : loc) (kwargs : list (string * val))
    (h : store) (attrs : list (string * val)) :
  h !! self = Some (OConfig attrs) ->
  distinct (map fst attrs) = true ->
  forallb plain_name (map fst attrs) = true ->
  (forall name v, dict_get name attrs = Some v -> val_ok h v) ->
  distinct (map fst kwargs) = true ->
  forallb plain_name (map fst kwargs) = true ->
  match merge_with_kwargs self kwargs h with
  | Some (Ok (new, h')) =>
      h !! new = None
      /\ (forall l x, h !! l = Some x -> h' !! l = Some x)
      /\ h' !! self = Some (OConfig attrs)
      /\ (forall name v,
            name <> "encryption_key" -> dict_get name kwargs = Some v ->
            is_Some (dict_get name attrs) ->
            getattr h' new name = Some v)
      /\ (forall name v,
            name <> "encryption_key" -> dict_get name kwargs = None ->
            dict_get name attrs = Some v ->
            exists v', getattr h' new name = Some v' /\ deep_copy_of h h' v v')
      /\ (forall name,
            dict_get name attrs = None -> known_by_default name = false ->
            getattr h' new name = None)
      /\ exists bk ek,
           getattr h' new "encryption_bytestring_key" = Some bk
           /\ getattr h' new "encryption_key" = Some ek
           /\ (forall v, dict_get "encryption_bytestring_key" kwargs = Some v ->
               bk = v)
           /\ ((truthy h' bk = false /\ ek = VNone) \/
               (exists s f lf,
                  bk = VStr s /\ s <> "" /\ Fernet_init s = Ok f /\
                  ek = VFernet lf /\ h !! lf = None /\
                  h' !! lf = Some (OFernet f)))
  | Some (Raise e) =>
      (exists s, merged_key attrs kwargs = VStr s /\ s <> "" /\
                 Fernet_init s = Raise e)
      \/ ((forall s, merged_key attrs kwargs <> VStr s) /\ e = TypeError)
  | None => False
  end.
Proof.
  intros Hself Hd Hpa Hok Hkw Hpk. unfold merge_with_kwargs.
  assert (Hnodc : getattr h self "__deepcopy__" = None).
  { unfold getattr, attrs_of. rewrite Hself.
    apply (plain_keys_lookup _ _ Hpa). reflexivity. }
  rewrite Hnodc. unfold __deepcopy__.
  destruct (init_default h) as (kw & new & Hinit & Hkwf & Hnewf & Hne).
  rewrite Hinit. unfold mbind, result_bind.
  set (A0 := init_attrs default_args kw).
  set (h1 := <[new := OConfig A0]> (<[kw := ODict []]> h)).
  assert (Hsub1 : h ⊆ h1).
  { transitivity (<[kw := ODict []]> h); apply insert_subseteq; [exact Hkwf|].
    rewrite lookup_insert_ne; [exact Hnewf | exact Hne]. }
  assert (H1new : h1 !! new = Some (OConfig A0)) by apply lookup_insert_eq.
  rewrite (lookup_weaken _ _ _ _ Hself Hsub1).
  destruct (copy_attrs_spec h new attrs h1 A0 Hsub1 Hnewf H1new Hd Hok)
    as (A2 & H2new & Hsub2 & Hsame2 & Hi & Hii).
  set (h2 := copy_attrs new attrs h1) in *.
  destruct (apply_kwargs_spec h new kwargs h2 A2 Hsub2 Hnewf H2new Hkw Hpk)
    as (h3 & A3 & Hrun & H3new & Hsub3 & Hsame3 & Hget3).
  rewrite Hrun.
  assert (Hnocache : getattr h3 new "cache_encryption_key" = None).
  { unfold getattr, attrs_of.
    rewrite H3new, Hget3,
      (plain_keys_lookup kwargs "cache_encryption_key" Hpk eq_refl).
    rewrite Hi
      by (left; apply (plain_keys_lookup attrs "cache_encryption_key" Hpa
                         eq_refl)).
    reflexivity. }
  rewrite Hnocache.
  (* the key material of the copy *)
  assert (Hbk2 : exists b2, dict_get "encryption_bytestring_key" A2 = Some b2 /\
    (dict_get "encryption_bytestring_key" attrs = None -> b2 = VNone) /\
    (forall v, dict_get "encryption_bytestring_key" attrs = Some v ->
       deep_copy_of h h2 v b2)).
  { destruct (dict_get "encryption_bytestring_key" attrs) as [v|] eqn:Hv.
    - assert (Hn : "encryption_bytestring_key" <> "encryption_key")
        by discriminate.
      destruct (Hii _ v Hn Hv) as (v' & Hv' & Hcp).
      exists v'. repeat split; [exact Hv' | discriminate |].
      intros v0 [= <-]. exact Hcp.
    - exists VNone. repeat split.
      + rewrite Hi by (left; exact Hv). reflexivity.
      + intros v0 [=]. }
  destruct Hbk2 as (b2 & Hb2 & Hb2none & Hb2copy).
  assert (Hknown : known A2 "encryption_bytestring_key" = true).
  { unfold known. apply orb_true_iff. left. apply dict_get_in_keys. eauto. }
  assert (Hbk3 : exists bk, dict_get "encryption_bytestring_key" A3 = Some bk /\
    (forall v, dict_get "encryption_bytestring_key" kwargs = Some v -> bk = v) /\
    (dict_get "encryption_bytestring_key" kwargs = None -> bk = b2)).
  { rewrite Hget3, Hknown.
    destruct (dict_get "encryption_bytestring_key" kwargs) as [v|].
    - exists v. repeat split; [congruence | discriminate].
    - exists b2. repeat split; [exact Hb2 | discriminate]. }
  destruct Hbk3 as (bk & Hbk & Hbkkw & Hbknone).
  pose proof (cache_encryption_key_spec h h3 new A3 bk Hsub3 Hnewf H3new Hbk)
    as Hcache.
  destruct (cache_encryption_key new h3) as [h4|e].
  - destruct Hcache as (Hsub4 & Hsame4 & ek & H4new & Hek).
    assert (Hattr : forall name, name <> "encryption_key" ->
      getattr h4 new name = dict_get name A3).
    { intros name Hn. unfold getattr, attrs_of. rewrite H4new, dict_get_set.
      apply String.eqb_neq in Hn. rewrite Hn. reflexivity. }
    split; [exact Hnewf|].
    split; [intros l x Hl; apply (lookup_weaken _ _ _ _ Hl Hsub4)|].
    split; [apply (lookup_weaken _ _ _ _ Hself Hsub4)|].
    split; [|split].
    + intros name v Hn Hkv [v0 Hv0]. rewrite (Hattr name Hn), Hget3, Hkv.
      destruct (Hii name v0 Hn Hv0) as (v' & Hv' & _).
      assert (Hk : known A2 name = true).
      { unfold known. apply orb_true_iff. left. apply dict_get_in_keys. eauto. }
      rewrite Hk. reflexivity.
    + intros name v Hn Hkv Hv. rewrite (Hattr name Hn), Hget3, Hkv.
      destruct (Hii name v Hn Hv) as (v' & Hv' & Hcp).
      exists v'. split; [exact Hv'|].
      apply (deep_copy_of_stable h h2 h4 new v v' A2 (Hok _ _ Hv) Hcp H2new).
      apply (same_but_trans new _ _ _ Hsame3 Hsame4).
    + split.
      { intros name Hna Hnk. unfold known_by_default in Hnk.
        apply orb_false_elim in Hnk as [Hn0 Hnc].
        assert (Hnek : name <> "encryption_key").
        { intros ->. vm_compute in Hn0. discriminate. }
        assert (Hn2 : dict_get name A2 = None).
        { rewrite Hi by (left; exact Hna).
          apply dict_get_not_in_keys. exact Hn0. }
        rewrite (Hattr name Hnek), Hget3.
        assert (Hk : known A2 name = false).
        { unfold known. rewrite Hnc, orb_false_r.
          apply dict_get_not_in_keys. exact Hn2. }
        rewrite Hk. destruct (dict_get name kwargs); exact Hn2. }
      exists bk, ek. split; [|split; [|split]].
      * rewrite Hattr by discriminate. exact Hbk.
      * unfold getattr, attrs_of. rewrite H4new, dict_get_set. reflexivity.
      * exact Hbkkw.
      * destruct Hek as [[Hf ->]|(Ht & s & f & lf & -> & Hf & -> & Hlf & Hlf4)].
        -- left. split; [|reflexivity].
           apply (truthy_same_but h3 h4 new A3 _ bk H3new H4new Hsame4 Hf).
        -- right. exists s, f, lf. repeat split; try assumption.
           ++ intros ->. discriminate.
           ++ destruct (h !! lf) as [x|] eqn:Hx; [|reflexivity].
              rewrite (lookup_weaken _ _ _ _ Hx Hsub3) in Hlf. discriminate.
  - destruct Hcache as (Ht & Hcases).
    assert (Hmk : (forall s, bk = VStr s -> merged_key attrs kwargs = VStr s) /\
                  ((forall s, bk <> VStr s) ->
                   forall s, merged_key attrs kwargs <> VStr s)).
    { unfold merged_key.
      destruct (dict_get "encryption_bytestring_key" kwargs) as [v|] eqn:Hv.
      - rewrite (Hbkkw v eq_refl). split; [auto | auto].
      - rewrite (Hbknone eq_refl).
        destruct (dict_get "encryption_bytestring_key" attrs) as [v|] eqn:Ha; simpl.
        + specialize (Hb2copy v eq_refl). split.
          * intros s ->. apply deep_copy_of_str in Hb2copy. exact Hb2copy.
          * intros Hns s ->. destruct b2; simpl in Hb2copy;
              try (apply (Hns s); congruence);
              try (destruct Hb2copy as (l' & Hx & _); discriminate).
        + rewrite (Hb2none eq_refl). split; [intros s [=] | intros _ s [=]]. }
    destruct Hmk as [Hmk1 Hmk2].
    destruct Hcases as [(s & -> & Hf)|[Hns ->]].
    + left. exists s. repeat split; [apply Hmk1; reflexivity | | exact Hf].
      intros ->. discriminate.
    + right. split; [apply Hmk2, Hns | reflexivity].
Qed.

(** C6 (as amended): [merge_with_kwargs] does not mutate and derives the
    key again, for overrides with plain names. On an instance whose own
    attributes have plain names (no leading underscore, no method of the
    class) and refer to dicts and handles of the store, merging with a dict
    of overrides whose names are plain either raises what deriving the
    merged key material raises (what [Fernet] raises for a string it
    rejects, [TypeError] for truthy key material that is no string), or
    returns an instance that is new and leaves every object that existed,
    the receiver with all its fields and the dicts it holds, as it was. On
    the new instance an attribute of the receiver named in the overrides
    has the value given; any other attribute of the receiver but
    [encryption_key] is a deep copy (the same immutable value, or a new
    dict with the same contents); a name that neither the receiver nor the
    class has is ignored; the [encryption_key] is derived from the new
    instance's [encryption_bytestring_key]: [None] for falsy key material,
    a handle that did not exist before for a key [Fernet] accepts, so a key
    given in the overrides is the one in effect and no handle is shared. *)
Theorem merge_with_kwargs_frame (self : loc) (kwargs : list (string * val))
    (h : store) (attrs : list (string * val)) :
  h !! self = Some (OConfig attrs) ->
  distinct (map fst attrs) = true ->
  forallb plain_name (map fst attrs) = true ->
  (forall name v, dict_get name attrs = Some v -> val_ok h v) ->
  distinct (map fst kwargs) = true ->
  forallb plain_name (map fst kwargs) = true ->
  match merge_with_kwargs self kwargs h with
  | Some (Ok (new, h')) =>
      h !! new = None
      /\ (forall l x, h !! l = Some x -> h' !! l = Some x)
      /\ h' !! self = Some (OConfig attrs)
      /\ (forall name v,
            name <> "encryption_key" -> dict_get name kwargs = Some v ->
            is_Some (dict_get name attrs) ->
            getattr h' new name = Some v)
      /\ (forall name v,
            name <> "encryption_key" -> dict_get name kwargs = None ->
            dict_get name attrs = Some v ->
            exists v', getattr h' new name = Some v' /\ deep_copy_of h h' v v')
      /\ (forall name,
            dict_get name attrs = None -> known_by_default name = false ->
            getattr h' new name = None)
      /\ exists bk ek,
           getattr h' new "encryption_bytestring_key" = Some bk
           /\ getattr h' new "encryption_key" = Some ek
           /\ (forall v, dict_get "encryption_bytestring_key" kwargs = Some v ->
               bk = v)
           /\ ((truthy h' bk = false /\ ek = VNone) \/
               (exists s f lf,
                  bk = VStr s /\ s <> "" /\ Fernet_init s = Ok f /\
                  ek = VFernet lf /\ h !! lf = None /\
                  h' !! lf = Some (OFernet f)))
  | Some (Raise e) =>
      (exists s, merged_key attrs kwargs = VStr s /\ s <> "" /\
                 Fernet_init s = Raise e)
      \/ ((forall s, merged_key attrs kwargs <> VStr s) /\ e = TypeError)
  | None => False
  end.
Proof. apply merge_with_kwargs_spec. Qed.

End MergeFacts.

(** ** Errors *)

Section ErrorFacts.
Context `{L : Libs} {LOk : LibsOk L}.

Abbreviation store := (gmap loc obj) (only parsing).

Lemma decode_failure_raises (self : Configuration) (segment : string)
    (st : stage) (e : exn) :
  decode_failure self segment st e ->
  (data ← decode_payload self segment;
   _ ← py_get data "metadata" (JObj []); Ok tt) = Raise e.
Proof.
  intros H. unfold decode_payload.
  destruct H as [e He|token e Hk He Hb|key token Hk He Ho|key token Hk He Ho
                 |plain e (token & He & Ho) Hd
                 |plain payload e (token & He & Ho) Hd Hj
                 |plain payload v (token & He & Ho) Hd Hj Hv];
    try rewrite Hk; rewrite He; simpl;
    try (destruct (encryption_key self); reflexivity).
  - rewrite Hb. reflexivity.
  - unfold fernet_decrypt. rewrite Ho. reflexivity.
  - unfold fernet_decrypt. rewrite Ho. reflexivity.
  - destruct (encryption_key self); unfold fernet_decrypt; rewrite Ho; simpl;
      rewrite Hd; reflexivity.
  - destruct (encryption_key self); unfold fernet_decrypt; rewrite Ho; simpl;
      rewrite Hd; simpl; rewrite Hj; reflexivity.
  - destruct (encryption_key self); unfold fernet_decrypt; rewrite Ho; simpl;
      rewrite Hd; simpl; rewrite Hj; simpl; destruct v; try discriminate;
      reflexivity.
Qed.

Lemma decode_payload_cases (self : Configuration) (segment : string) :
  match decode_payload self segment with
  | Ok v =>
      exists plain payload,
        opens_to self segment plain /\
        text_decode (encoding self) plain = Ok payload /\
        json_loads payload = Ok v
  | Raise e =>
      exists st, st <> JsonShape /\ decode_failure self segment st e
  end.
Proof.
  unfold decode_payload.
  destruct (text_encode (encoding self) segment) as [token|e] eqn:He.
  2:{ assert (Hf : decode_failure self segment TextEncode e)
        by (constructor; exact He).
      destruct (encryption_key self); simpl;
        exists TextEncode; (split; [discriminate | exact Hf]). }
  destruct (encryption_key self) as [key|] eqn:Hk; simpl.
  - unfold fernet_decrypt.
    destruct (fernet_open key token) as [plain| |] eqn:Ho; simpl.
    + assert (Hopen : opens_to self segment plain).
      { exists token. rewrite Hk. split; assumption. }
      destruct (text_decode (encoding self) plain) as [payload|e] eqn:Hd; simpl.
      * destruct (json_loads payload) as [v|e] eqn:Hj.
        -- exists plain, payload. repeat split; assumption.
        -- exists JsonParse. split; [discriminate|].
           apply (json_loads_fails _ _ plain payload); assumption.
      * exists TextDecode. split; [discriminate|].
        apply (text_decode_fails _ _ plain); assumption.
    + exists TokenStructure. split; [discriminate|].
      apply (token_malformed _ _ key token); assumption.
    + exists Authentication. split; [discriminate|].
      apply (tag_mismatch _ _ key token); assumption.
  - destruct (urlsafe_b64decode token) as [plain|e] eqn:Hb; simpl.
    + assert (Hopen : opens_to self segment plain).
      { exists token. rewrite Hk. split; assumption. }
      destruct (text_decode (encoding self) plain) as [payload|e] eqn:Hd; simpl.
      * destruct (json_loads payload) as [v|e] eqn:Hj.
        -- exists plain, payload. repeat split; assumption.
        -- exists JsonParse. split; [discriminate|].
           apply (json_loads_fails _ _ plain payload); assumption.
      * exists TextDecode. split; [discriminate|].
        apply (text_decode_fails _ _ plain); assumption.
    + exists Base64. split; [discriminate|].
      apply (b64decode_fails _ _ token); assumption.
Qed.

Lemma init_bad_key (args : init_args) (h : store) (s : string) (e : exn) :
  arg_encryption_bytestring_key args = VStr s -> s <> "" ->
  Fernet_init s = Raise e -> __init__ args h = Raise e.
Proof.
  intros Hk Hs Hf. unfold __init__.
  destruct (alloc (ODict (arg_kwargs args)) h) as [kw h1].
  destruct (alloc (OConfig (init_attrs args kw)) h1) as [self h2] eqn:Ha.
  apply alloc_spec in Ha as [_ ->].
  unfold cache_encryption_key. rewrite lookup_insert_eq.
  cbn [init_attrs dict_get String.eqb Ascii.eqb Bool.eqb].
  rewrite Hk. cbn [truthy].
  destruct s as [|c s]; [congruence|]. cbn [String.eqb negb].
  rewrite Hf. reflexivity.
Qed.

Lemma merge_bad_key (self : loc) (kwargs : list (string * val)) (h : store)
    (attrs : list (string * val)) (s : string) (e : exn) :
  h !! self = Some (OConfig attrs) ->
  distinct (map fst attrs) = true ->
  forallb plain_name (map fst attrs) = true ->
  (forall name v, dict_get name attrs = Some v -> val_ok h v) ->
  distinct (map fst kwargs) = true ->
  forallb plain_name (map fst kwargs) = true ->
  merged_key attrs kwargs = VStr s -> s <> "" ->
  Fernet_init s = Raise e ->
  merge_with_kwargs self kwargs h = Some (Raise e).
Proof.
  intros Hself Hd Hpa Hok Hkw Hpk Hmk Hs Hf.
  pose proof (merge_with_kwargs_spec self kwargs h attrs Hself Hd Hpa Hok Hkw
                Hpk) as H.
  destruct (merge_with_kwargs self kwargs h) as [[[new h']|e']|];
    [| |destruct H].
  - exfalso. destruct H as (_ & _ & _ & _ & Hcopy & _ & bk & ek & Hbk & _ & Hgiven & Hek).
    assert (Hb : bk = VStr s).
    { unfold merged_key in Hmk.
      destruct (dict_get "encryption_bytestring_key" kwargs) as [v|] eqn:Hv.
      - rewrite (Hgiven v eq_refl). exact Hmk.
      - destruct (dict_get "encryption_bytestring_key" attrs) as [v|] eqn:Ha;
          simpl in Hmk; [|discriminate]. subst v.
        assert (Hn : "encryption_bytestring_key" <> "encryption_key")
          by discriminate.
        destruct (Hcopy _ _ Hn Hv Ha) as (v' & Hv' & Hcp).
        simpl in Hcp. congruence. }
    subst bk.
    destruct Hek as [[Ht _]|(s' & f & lf & Hs' & _ & Hf' & _)].
    + destruct s; [congruence | discriminate].
    + injection Hs' as <-. congruence.
  - destruct H as [(s' & Hs' & _ & Hf')|[Hns _]].
    + rewrite Hmk in Hs'. injection Hs' as <-. congruence.
    + exfalso. apply (Hns s Hmk).
Qed.

(** C5 (as amended): errors. Decoding stops at the first library call
    that fails and [get_tracking_result] raises what that call raised,
    whatever it is: the text codec's error, [binascii.Error] for base64,
    [InvalidToken] for a token that is malformed and equally for one whose
    tag does not verify, what [json.loads] raises for text that is not
    JSON, [AttributeError] for JSON that is not an object. Nothing else
    stops it but a payload whose "metadata" is not an object, and a result
    is returned only when every stage succeeded. Creating a configuration
    with key material that is a non-empty string [Fernet] rejects raises
    what [Fernet] raised, a [ValueError]; so does merging such key material
    into an instance, when the attributes of the instance and the overrides
    have plain names (no leading underscore, no method of the class). *)
Theorem errors_propagate (self : Configuration) (encoded_url_path : string)
    (req : option dict) (is_open : bool) (now : Z) :
  let segment := strip_leading_slash encoded_url_path in
  (forall st e, decode_failure self segment st e ->
     get_tracking_result self encoded_url_path req is_open now = Raise e)
  /\ (forall e,
        get_tracking_result self encoded_url_path req is_open now = Raise e ->
        (exists st, decode_failure self segment st e) \/
        (exists data md,
           decode_payload self segment = Ok (JObj data) /\
           dict_get "metadata" data = Some md /\ is_object md = false))
  /\ (forall r,
        get_tracking_result self encoded_url_path req is_open now = Ok r ->
        exists plain payload data,
          opens_to self segment plain /\
          text_decode (encoding self) plain = Ok payload /\
          json_loads payload = Ok (JObj data))
  /\ (forall st e, decode_failure self segment st e ->
        match st with
        | Base64 => e = BinasciiError
        | TokenStructure => e = InvalidToken
        | Authentication => e = InvalidToken
        | JsonShape => e = AttributeError
        | TextEncode | TextDecode | JsonParse => True
        end)
  /\ (forall args (h : store) s e,
        arg_encryption_bytestring_key args = VStr s -> s <> "" ->
        Fernet_init s = Raise e ->
        __init__ args h = Raise e /\ e = ValueError)
  /\ (forall o kwargs (h : store) attrs s e,
        h !! o = Some (OConfig attrs) ->
        distinct (map fst attrs) = true ->
        forallb plain_name (map fst attrs) = true ->
        (forall name v, dict_get name attrs = Some v -> val_ok h v) ->
        distinct (map fst kwargs) = true ->
        forallb plain_name (map fst kwargs) = true ->
        merged_key attrs kwargs = VStr s -> s <> "" ->
        Fernet_init s = Raise e ->
        merge_with_kwargs o kwargs h = Some (Raise e) /\ e = ValueError).
Proof.
  intros segment. split; [|split; [|split; [|split; [|split]]]].
  - intros st e Hf. apply decode_failure_raises in Hf.
    unfold get_tracking_result, resolve_tracking_result. fold segment.
    destruct (decode_payload self segment) as [data|e0]; simpl in *;
      [|injection Hf as ->; reflexivity].
    destruct (py_get data "metadata" (JObj [])); simpl in *;
      [discriminate | injection Hf as ->; reflexivity].
  - intros e H. unfold get_tracking_result in H. fold segment in H.
    pose proof (decode_payload_cases self segment) as Hc.
    destruct (decode_payload self segment) as [v|e0]; simpl in H.
    + destruct Hc as (plain & payload & Hopen & Hd & Hj).
      destruct v as [| | | | |data];
        try (injection H as <-; left; exists JsonShape;
             apply (payload_not_object _ _ plain payload _ Hopen Hd Hj); reflexivity).
      right. unfold resolve_tracking_result in H. simpl in H.
      destruct (dict_get "metadata" data) as [md|] eqn:Hmd; simpl in H.
      * exists data, md. split; [reflexivity|]. split; [exact Hmd|].
        destruct md; try reflexivity. simpl in H.
        destruct (include_webhook_url self); discriminate.
      * simpl in H. destruct (include_webhook_url self); discriminate.
    + injection H as <-. destruct Hc as (st & _ & Hf). left. eauto.
  - intros r H. unfold get_tracking_result in H. fold segment in H.
    pose proof (decode_payload_cases self segment) as Hc.
    destruct (decode_payload self segment) as [v|e0]; simpl in H; [|discriminate].
    destruct Hc as (plain & payload & Hopen & Hd & Hj).
    destruct v; try discriminate. eauto 6.
  - intros st e Hf.
    destruct Hf as [e He|token e Hk He Hb|key token Hk He Ho|key token Hk He Ho
                   |plain e Ho Hd|plain payload e Ho Hd Hj
                   |plain payload v Ho Hd Hj Hv]; try reflexivity;
      try exact I.
    apply (b64_exn _ _ Hb).
  - intros args h s e Hk Hs Hf. split.
    + apply (init_bad_key args h s e Hk Hs Hf).
    + apply (Fernet_init_exn _ _ Hf).
  - intros o kwargs h attrs s e Ho Hd Hpa Hok Hkw Hpk Hmk Hs Hf. split.
    + apply (merge_bad_key o kwargs h attrs s e Ho Hd Hpa Hok Hkw Hpk Hmk Hs
               Hf).
    + apply (Fernet_init_exn _ _ Hf).
Qed.

End ErrorFacts.

(** ** The reference libraries keep the contract *)

Module ReferenceFacts.
Import Reference.

(** The regrouping of three bytes into four sextets, and back. *)
Ltac Zify.zify_post_hook ::= Z.to_euclidean_division_equations.

Lemma sextets_lt (a b : N) :
  (a < 256 -> b < 256 ->
   a / 4 < 64 /\ a mod 4 * 16 < 64 /\ a mod 4 * 16 + b / 16 < 64 /\
   b mod 16 * 4 < 64 /\ b mod 16 * 4 + a / 64 < 64 /\ a mod 64 < 64)%N.
Proof. intros. lia. Qed.

Lemma regroup_first (a b : N) :
  (a < 256 -> b < 256 ->
   a / 4 * 4 + (a mod 4 * 16 + b / 16) / 16 = a)%N.
Proof. intros. lia. Qed.

Lemma regroup_first_only (a : N) :
  (a < 256 -> a / 4 * 4 + a mod 4 * 16 / 16 = a)%N.
Proof. intros. lia. Qed.

Lemma regroup_second (a b c : N) :
  (a < 256 -> b < 256 -> c < 256 ->
   (a mod 4 * 16 + b / 16) mod 16 * 16 + (b mod 16 * 4 + c / 64) / 4 = b)%N.
Proof. intros. lia. Qed.

Lemma regroup_second_only (a b : N) :
  (a < 256 -> b < 256 ->
   (a mod 4 * 16 + b / 16) mod 16 * 16 + b mod 16 * 4 / 4 = b)%N.
Proof. intros. lia. Qed.

Lemma regroup_third (b c : N) :
  (b < 256 -> c < 256 ->
   (b mod 16 * 4 + c / 64) mod 4 * 64 + c mod 64 = c)%N.
Proof. intros. lia. Qed.

Ltac Zify.zify_post_hook ::= idtac.

(** *** base64 *)

Lemma b64_index_char_all :
  forallb (fun i =>
             match b64_index (b64_char (N.of_nat i)) with
             | Some m => N.eqb m (N.of_nat i)
             | None => false
             end) (seq 0 64) = true.
Proof. vm_compute. reflexivity. Qed.

Lemma b64_index_char (n : N) :
  (n < 64)%N -> b64_index (b64_char n) = Some n.
Proof.
  intros Hn. pose proof b64_index_char_all as H.
  rewrite forallb_forall in H. specialize (H (N.to_nat n)).
  rewrite N2Nat.id in H.
  destruct (b64_index (b64_char n)) as [m|].
  - f_equal. apply N.eqb_eq. apply H. apply in_seq. lia.
  - exfalso. assert (false = true); [|discriminate]. apply H. apply in_seq. lia.
Qed.

Lemma b64_table_urlsafe : forallb urlsafe_byte (pad :: b64_table) = true.
Proof. vm_compute. reflexivity. Qed.

Lemma b64_char_urlsafe (n : N) : urlsafe_byte (b64_char n) = true.
Proof.
  pose proof b64_table_urlsafe as H. rewrite forallb_forall in H. apply H.
  unfold b64_char. destruct (nth_in_or_default (N.to_nat n) b64_table pad) as [Hin| ->].
  - right. exact Hin.
  - left. reflexivity.
Qed.

Lemma byte_of_to_N (a : byte) : byte_of_N (Byte.to_N a) = a.
Proof. unfold byte_of_N. rewrite Byte.of_to_N. reflexivity. Qed.

Lemma to_N_lt (a : byte) : (Byte.to_N a < 256)%N.
Proof. pose proof (Byte.to_N_bounded a). lia. Qed.

Lemma decode_block (s1 s2 s3 s4 : N) (rest : list byte) :
  (s1 < 64)%N -> (s2 < 64)%N -> (s3 < 64)%N -> (s4 < 64)%N ->
  b64decode (b64_char s1 :: b64_char s2 :: b64_char s3 :: b64_char s4 :: rest) =
  (rest' ← b64decode rest;
   Ok (byte_of_N (s1 * 4 + s2 / 16)
         :: byte_of_N ((s2 mod 16) * 16 + s3 / 4)
         :: byte_of_N ((s3 mod 4) * 64 + s4) :: rest'))%N.
Proof.
  intros H1 H2 H3 H4. cbn [b64decode].
  rewrite !b64_index_char by assumption. reflexivity.
Qed.

Lemma decode_last2 (s1 s2 s3 : N) :
  (s1 < 64)%N -> (s2 < 64)%N -> (s3 < 64)%N ->
  b64decode [b64_char s1; b64_char s2; b64_char s3; pad] =
  Ok [byte_of_N (s1 * 4 + s2 / 16); byte_of_N ((s2 mod 16) * 16 + s3 / 4)]%N.
Proof.
  intros H1 H2 H3. cbn [b64decode].
  rewrite !b64_index_char by assumption. reflexivity.
Qed.

Lemma decode_last1 (s1 s2 : N) :
  (s1 < 64)%N -> (s2 < 64)%N ->
  b64decode [b64_char s1; b64_char s2; pad; pad] =
  Ok [byte_of_N (s1 * 4 + s2 / 16)]%N.
Proof.
  intros H1 H2. cbn [b64decode].
  rewrite !b64_index_char by assumption. reflexivity.
Qed.

Lemma b64_roundtrip_upto (n : nat) :
  forall bs, length bs <= n -> b64decode (b64encode bs) = Ok bs.
Proof.
  induction n as [|n IH]; intros bs Hlen.
  - destruct bs; [reflexivity | simpl in Hlen; lia].
  - destruct bs as [|a [|b [|c rest]]].
    + reflexivity.
    + cbn [b64encode]. pose proof (to_N_lt a) as Ha.
      destruct (sextets_lt _ _ Ha Ha) as (? & ? & _).
      rewrite decode_last1 by assumption.
      rewrite (regroup_first_only _ Ha), byte_of_to_N. reflexivity.
    + cbn [b64encode]. pose proof (to_N_lt a) as Ha. pose proof (to_N_lt b) as Hb.
      destruct (sextets_lt _ _ Ha Hb) as (? & _ & ? & ? & _).
      rewrite decode_last2 by assumption.
      rewrite (regroup_first _ _ Ha Hb), (regroup_second_only _ _ Ha Hb).
      rewrite !byte_of_to_N. reflexivity.
    + cbn [b64encode].
      pose proof (to_N_lt a) as Ha. pose proof (to_N_lt b) as Hb.
      pose proof (to_N_lt c) as Hc.
      destruct (sextets_lt _ _ Ha Hb) as (? & _ & ? & _).
      destruct (sextets_lt _ _ Hc Hb) as (_ & _ & _ & _ & ? & ?).
      rewrite decode_block by assumption.
      rewrite IH by (simpl in Hlen; lia). simpl.
      rewrite (regroup_first _ _ Ha Hb), (regroup_second _ _ _ Ha Hb Hc),
        (regroup_third _ _ Hb Hc).
      rewrite !byte_of_to_N. reflexivity.
Qed.

Lemma b64_roundtrip_ref (bs : list byte) : b64decode (b64encode bs) = Ok bs.
Proof. apply (b64_roundtrip_upto (length bs)). lia. Qed.

Lemma b64_alphabet_upto (n : nat) :
  forall bs, length bs <= n -> forallb urlsafe_byte (b64encode bs) = true.
Proof.
  induction n as [|n IH]; intros bs Hlen.
  - destruct bs; [reflexivity | simpl in Hlen; lia].
  - destruct bs as [|a [|b [|c rest]]]; cbn [b64encode forallb].
    + reflexivity.
    + rewrite !b64_char_urlsafe. reflexivity.
    + rewrite !b64_char_urlsafe. reflexivity.
    + rewrite !b64_char_urlsafe. rewrite IH by (simpl in Hlen; lia). reflexivity.
Qed.

Lemma b64_alphabet_ref (bs : list byte) :
  forallb urlsafe_byte (b64encode bs) = true.
Proof. apply (b64_alphabet_upto (length bs)). lia. Qed.

Lemma b64_exn_ref (cs : list byte) (e : exn) :
  b64decode cs = Raise e -> e = BinasciiError.
Proof.
  remember (length cs) as n eqn:Hn. revert cs Hn e.
  induction n as [n IH] using lt_wf_ind. intros cs Hn e.
  destruct cs as [|c1 [|c2 [|c3 [|c4 rest]]]]; cbn [b64decode];
    try (intros [=]; congruence).
  destruct (b64_index c1), (b64_index c2); try (intros [=]; congruence).
  destruct (b64_index c3), (b64_index c4);
    try (match goal with
         | |- context [if ?c then _ else _] => destruct c
         end; intros [=]; congruence).
  destruct (b64decode rest) as [rest'|e'] eqn:Hrest; simpl; [discriminate|].
  intros [= <-]. apply (IH (length rest)) with (cs := rest); [|reflexivity|exact Hrest].
  subst n. simpl. lia.
Qed.

(** *** Text *)

Lemma known_transparent (enc : string) :
  known_encoding enc = true -> ascii_transparent enc.
Proof.
  intros Hk s Hs. simpl. unfold encode, decode. rewrite Hk, Hs.
  rewrite (text_ascii_bytes _ Hs), !orb_true_r.
  rewrite string_of_list_byte_of_string. split; reflexivity.
Qed.

Lemma known_high_start (enc : string) :
  known_encoding enc = true -> high_start_preserved enc.
Proof.
  intros Hk b bs t Hb. simpl. unfold decode. rewrite Hk.
  cbn [forallb]. rewrite Hb. cbn [andb]. rewrite orb_false_r.
  destruct (String.eqb enc "latin-1"); [|discriminate].
  intros [= <-]. rewrite string_of_list_byte_cons. eauto.
Qed.

(** *** The cipher *)

Lemma byte_eqb_refl (b : byte) : Byte.eqb b b = true.
Proof. apply Byte.byte_dec_lb. reflexivity. Qed.

Lemma key_eqb_eq (k1 k2 : cipher_key) : key_eqb k1 k2 = true <-> k1 = k2.
Proof.
  destruct k1 as [[[a1 b1] c1] d1], k2 as [[[a2 b2] c2] d2]. simpl.
  rewrite !andb_true_iff. split.
  - intros [[[Ha Hb] Hc] Hd].
    apply Byte.byte_dec_bl in Ha, Hb, Hc, Hd. congruence.
  - intros [= -> -> -> ->]. rewrite !byte_eqb_refl. auto.
Qed.

Lemma cipher_token (key : cipher_key) (rnd : entropy) (msg : list byte) :
  b64decode (cipher_encrypt key rnd msg) = Ok (x80 :: key_bytes key ++ msg).
Proof. apply b64_roundtrip_ref. Qed.

Lemma cipher_open_own (k1 k2 : cipher_key) (rnd : entropy) (msg : list byte) :
  cipher_open k2 (cipher_encrypt k1 rnd msg) =
  if key_eqb k1 k2 then Plain msg else BadTag.
Proof.
  unfold cipher_open. rewrite cipher_token.
  destruct k1 as [[[a b] c] d]. reflexivity.
Qed.

Lemma cipher_open_version (key : cipher_key) (token msg : list byte) :
  cipher_open key token = Plain msg ->
  exists body, b64decode token = Ok (x80 :: body).
Proof.
  unfold cipher_open.
  destruct (b64decode token) as [[|v [|a [|b [|c [|d m]]]]]|e]; try discriminate.
  destruct (Byte.eqb v x80) eqn:Hv; [|discriminate].
  apply Byte.byte_dec_bl in Hv. subst v. eauto.
Qed.

Lemma cipher_init_exn (s : string) (e : exn) :
  cipher_init s = Raise e -> e = ValueError.
Proof.
  unfold cipher_init.
  destruct s as [|a [|b [|c [|d [|x s]]]]]; try (intros [= <-]; reflexivity).
  destruct (str_is_ascii _); [discriminate | intros [= <-]; reflexivity].
Qed.

(** *** JSON *)

Lemma json_nested_ind (P : json -> Prop) :
  P JNull -> (forall b, P (JBool b)) -> (forall z, P (JInt z)) ->
  (forall s, P (JStr s)) ->
  (forall items, Forall P items -> P (JArr items)) ->
  (forall members, Forall (fun kv => P (snd kv)) members -> P (JObj members)) ->
  forall v, P v.
Proof.
  intros Hnull Hbool Hint Hstr Harr Hobj.
  fix IH 1. intros [| b | z | s | items | members].
  - exact Hnull.
  - apply Hbool.
  - apply Hint.
  - apply Hstr.
  - apply Harr. induction items as [|x items IHitems]; constructor.
    + apply IH.
    + exact IHitems.
  - apply Hobj. induction members as [|[k x] members IHmembers]; constructor.
    + apply IH.
    + exact IHmembers.
Qed.

Lemma append_assoc (a b c : string) : (a +:+ b) +:+ c = a +:+ (b +:+ c).
Proof.
  induction a as [|x a IH]; [reflexivity|].
  rewrite !append_cons, IH. reflexivity.
Qed.

Lemma append_nil_r (a : string) : a +:+ "" = a.
Proof.
  induction a as [|x a IH]; [reflexivity|]. rewrite append_cons, IH. reflexivity.
Qed.

Lemma length_append (a b : string) :
  String.length (a +:+ b) = String.length a + String.length b.
Proof.
  induction a as [|x a IH]; [reflexivity|].
  rewrite append_cons. simpl. rewrite IH. reflexivity.
Qed.

Lemma is_ascii_append (a b : string) :
  str_is_ascii (a +:+ b) = str_is_ascii a && str_is_ascii b.
Proof.
  induction a as [|x a IH]; [reflexivity|].
  rewrite append_cons. simpl. rewrite IH, andb_assoc. reflexivity.
Qed.

(** Strings *)

Lemma parse_escape_char (c : ascii) (s : string) :
  parse_string (escape_char c +:+ s) = cons_char c (parse_string s).
Proof. destruct c as [[] [] [] [] [] [] [] []]; reflexivity. Qed.

Lemma escape_char_ascii (c : ascii) : str_is_ascii (escape_char c) = true.
Proof. destruct c as [[] [] [] [] [] [] [] []]; reflexivity. Qed.

Lemma parse_escape (s rest : string) :
  parse_string (escape s +:+ String quote_char rest) = Some (s, rest).
Proof.
  induction s as [|c s IH].
  - reflexivity.
  - cbn [escape]. rewrite append_assoc, parse_escape_char, IH. reflexivity.
Qed.

Lemma quote_append (s rest : string) :
  quote s +:+ rest = String quote_char (escape s +:+ String quote_char rest).
Proof.
  unfold quote. rewrite append_cons, append_assoc. reflexivity.
Qed.

Lemma escape_ascii (s : string) : str_is_ascii (escape s) = true.
Proof.
  induction s as [|c s IH]; [reflexivity|].
  cbn [escape]. rewrite is_ascii_append, escape_char_ascii, IH. reflexivity.
Qed.

Lemma quote_ascii (s : string) : str_is_ascii (quote s) = true.
Proof.
  unfold quote. cbn [str_is_ascii]. rewrite is_ascii_append, escape_ascii.
  reflexivity.
Qed.

(** Integers *)

Lemma all_num_nil : all_num "".
Proof.
  intros [|c r] H; [reflexivity|]. rewrite append_empty.
  simpl in H. cbn [span_num]. rewrite H. reflexivity.
Qed.

Lemma all_num_cons (c : ascii) (s : string) :
  is_num_char c = true -> all_num s -> all_num (String c s).
Proof.
  intros Hc Hs rest Hrest. rewrite append_cons. cbn [span_num].
  rewrite Hc, (Hs rest Hrest). reflexivity.
Qed.

Lemma uint_all_num (d : uint) :
  all_num (NilEmpty.string_of_uint d) /\
  str_is_ascii (NilEmpty.string_of_uint d) = true.
Proof.
  induction d as [|d [IH1 IH2]|d [IH1 IH2]|d [IH1 IH2]|d [IH1 IH2]|d [IH1 IH2]
                  |d [IH1 IH2]|d [IH1 IH2]|d [IH1 IH2]|d [IH1 IH2]|d [IH1 IH2]];
    cbn [NilEmpty.string_of_uint str_is_ascii];
    try (split; [apply all_num_cons; [reflexivity | exact IH1]
                | rewrite IH2; reflexivity]).
  split; [apply all_num_nil | reflexivity].
Qed.

Lemma int_all_num (z : Z) :
  all_num (NilZero.string_of_int (Z.to_int z)) /\
  str_is_ascii (NilZero.string_of_int (Z.to_int z)) = true /\
  exists c r, NilZero.string_of_int (Z.to_int z) = String c r /\
              is_num_char c = true.
Proof.
  assert (Hu : forall p, all_num (NilZero.string_of_uint (Pos.to_uint p)) /\
    str_is_ascii (NilZero.string_of_uint (Pos.to_uint p)) = true /\
    exists c r, NilZero.string_of_uint (Pos.to_uint p) = String c r /\
                is_num_char c = true).
  { intros p. pose proof (Unsigned.to_uint_nonnil p) as Hn.
    pose proof (uint_all_num (Pos.to_uint p)) as [Ha Hb].
    unfold NilZero.string_of_uint.
    destruct (Pos.to_uint p) as [|d|d|d|d|d|d|d|d|d|d]; [congruence|..];
      (split; [exact Ha | split; [exact Hb|]]);
      cbn [NilEmpty.string_of_uint]; eexists _, _; (split; reflexivity). }
  destruct z as [|p|p]; cbn [Z.to_int NilZero.string_of_int].
  - split; [|split; [reflexivity | eexists _, _; split; reflexivity]].
    apply all_num_cons; [reflexivity | apply all_num_nil].
  - apply Hu.
  - destruct (Hu p) as (Ha & Hb & _). split; [|split].
    + apply all_num_cons; [reflexivity | exact Ha].
    + cbn [str_is_ascii]. rewrite Hb. reflexivity.
    + eexists _, _. split; reflexivity.
Qed.

Lemma int_of_string_of_int (z : Z) :
  NilZero.int_of_string (NilZero.string_of_int (Z.to_int z)) = Some (Z.to_int z).
Proof.
  apply NilZero.isi; destruct z as [|p|p]; cbn [Z.to_int]; try discriminate;
    intros [= H]; apply (Unsigned.to_uint_nonnil p H).
Qed.

Lemma parse_int_dumps (z : Z) (rest : string) :
  ok_rest rest ->
  parse_int (NilZero.string_of_int (Z.to_int z) +:+ rest) = Some (z, rest).
Proof.
  intros Hrest. unfold parse_int.
  destruct (int_all_num z) as (Hspan & _). rewrite (Hspan rest Hrest).
  rewrite int_of_string_of_int, DecimalZ.of_to, String.eqb_refl. reflexivity.
Qed.

(** Values *)

Lemma value_start_not_close (c : ascii) (r : string) :
  value_start c = true ->
  startswith (String c r) "]" = false /\ startswith (String c r) "}" = false.
Proof.
  destruct c as [[] [] [] [] [] [] [] []]; intros H; vm_compute in H;
    try discriminate H; split; reflexivity.
Qed.

Lemma parse_value_num (f : nat) (c : ascii) (r : string) :
  is_num_char c = true ->
  parse_value (S f) (String c r) =
  ('(z, r1) ← parse_int (String c r); Some (JInt z, r1)).
Proof.
  destruct c as [[] [] [] [] [] [] [] []]; intros H; vm_compute in H;
    try discriminate H; reflexivity.
Qed.

Lemma parse_value_arr (f : nat) (c : ascii) (r : string) :
  value_start c = true ->
  parse_value (S f) (String "[" (String c r)) =
  ('(x, r1) ← parse_value f (String c r);
   '(l, r2) ← parse_items f r1;
   Some (JArr (x :: l), r2)).
Proof.
  destruct c as [[] [] [] [] [] [] [] []]; intros H; vm_compute in H;
    try discriminate H; reflexivity.
Qed.

Lemma parse_value_obj (f : nat) (r : string) :
  parse_value (S f) (String "{" (String quote_char r)) =
  ('(kx, r1) ← parse_member f (String quote_char r);
   '(l, r2) ← parse_members f r1;
   Some (JObj (dict_update [] (kx :: l)), r2)).
Proof. reflexivity. Qed.

Lemma parse_value_str (f : nat) (r : string) :
  parse_value (S f) (String quote_char r) =
  ('(str, r1) ← parse_string r; Some (JStr str, r1)).
Proof. reflexivity. Qed.

Lemma parse_items_close (f : nat) (rest : string) :
  parse_items (S f) (String "]" rest) = Some ([], rest).
Proof. destruct rest; reflexivity. Qed.

Lemma parse_items_more (f : nat) (r : string) :
  parse_items (S f) (String "," (String " " r)) =
  ('(y, r1) ← parse_value f r;
   '(l, r2) ← parse_items f r1;
   Some (y :: l, r2)).
Proof. destruct r; reflexivity. Qed.

Lemma parse_members_close (f : nat) (rest : string) :
  parse_members (S f) (String "}" rest) = Some ([], rest).
Proof. destruct rest; reflexivity. Qed.

Lemma parse_members_more (f : nat) (r : string) :
  parse_members (S f) (String "," (String " " r)) =
  ('(kx, r1) ← parse_member f r;
   '(l, r2) ← parse_members f r1;
   Some (kx :: l, r2)).
Proof. destruct r; reflexivity. Qed.

Lemma parse_member_quoted (f : nat) (k r : string) :
  parse_member (S f) (quote k +:+ String ":" (String " " r)) =
  ('(x, r2) ← parse_value f r; Some ((k, x), r2)).
Proof.
  rewrite quote_append. cbn [parse_member].
  change (Ascii.eqb quote_char quote_char) with true. cbv iota.
  rewrite parse_escape. destruct r; reflexivity.
Qed.

Lemma dumps_arr (x : json) (l : list json) :
  dumps (JArr (x :: l)) = String "[" (dumps x +:+ dumps_items l).
Proof. reflexivity. Qed.

Lemma dumps_obj (k : string) (x : json) (l : list (string * json)) :
  dumps (JObj ((k, x) :: l)) =
  String "{" (quote k +:+ String ":" (String " " (dumps x +:+ dumps_members l))).
Proof. reflexivity. Qed.

Lemma dumps_items_cons (y : json) (l : list json) :
  dumps_items (y :: l) = String "," (String " " (dumps y +:+ dumps_items l)).
Proof. reflexivity. Qed.

Lemma dumps_members_cons (k : string) (y : json) (l : list (string * json)) :
  dumps_members ((k, y) :: l) =
  String "," (String " "
    (quote k +:+ String ":" (String " " (dumps y +:+ dumps_members l)))).
Proof. reflexivity. Qed.

Lemma dumps_start (v : json) :
  exists c r, dumps v = String c r /\ value_start c = true.
Proof.
  destruct v as [| [|] | z | s | [|x l] | [|[k x] l]];
    try (eexists _, _; split; reflexivity).
  destruct (int_all_num z) as (_ & _ & c & r & Hz & Hc).
  exists c, r. split; [exact Hz|]. unfold value_start. rewrite Hc. reflexivity.
Qed.

Lemma dumps_length (v : json) : 1 <= String.length (dumps v).
Proof. destruct (dumps_start v) as (c & r & -> & _). simpl. lia. Qed.

Lemma items_ok_rest (l : list json) (rest : string) :
  ok_rest (dumps_items l +:+ rest).
Proof. destruct l; reflexivity. Qed.

Lemma members_ok_rest (l : list (string * json)) (rest : string) :
  ok_rest (dumps_members l +:+ rest).
Proof. destruct l as [|[k y] l]; [reflexivity|]. rewrite dumps_members_cons. reflexivity. Qed.

Lemma parse_items_dumps (l : list json) :
  Forall (fun v => json_wf v = true -> parses v) l ->
  forallb json_wf l = true ->
  forall fuel rest,
    String.length (dumps_items l) < fuel -> ok_rest rest ->
    parse_items fuel (dumps_items l +:+ rest) = Some (l, rest).
Proof.
  induction l as [|y l IH]; intros HP Hwf fuel rest Hfuel Hrest.
  - destruct fuel as [|f]; [inversion Hfuel|]. destruct rest; reflexivity.
  - apply Forall_cons_iff in HP as [Hy HP]. cbn [forallb] in Hwf.
    apply andb_prop in Hwf as [Hwy Hwf].
    rewrite dumps_items_cons in *. cbn [String.length] in Hfuel.
    rewrite length_append in Hfuel.
    destruct fuel as [|f]; [inversion Hfuel|].
    rewrite !append_cons, append_assoc, parse_items_more.
    pose proof (dumps_length y).
    assert (Hl : 1 <= String.length (dumps_items l))
      by (destruct l; simpl; lia).
    rewrite (Hy Hwy f _ ltac:(lia) (items_ok_rest l rest)). cbn [mbind option_bind].
    rewrite (IH HP Hwf f rest ltac:(lia) Hrest). reflexivity.
Qed.

Lemma parse_members_dumps (l : list (string * json)) :
  Forall (fun kv => json_wf (snd kv) = true -> parses (snd kv)) l ->
  forallb (fun kv => match kv with (_, w) => json_wf w end) l = true ->
  forall fuel rest,
    String.length (dumps_members l) < fuel -> ok_rest rest ->
    parse_members fuel (dumps_members l +:+ rest) = Some (l, rest).
Proof.
  induction l as [|[k y] l IH]; intros HP Hwf fuel rest Hfuel Hrest.
  - destruct fuel as [|f]; [inversion Hfuel|]. destruct rest; reflexivity.
  - apply Forall_cons_iff in HP as [Hy HP]. cbn [forallb] in Hwf. simpl in Hy.
    apply andb_prop in Hwf as [Hwy Hwf].
    rewrite dumps_members_cons in *. cbn [String.length] in Hfuel.
    rewrite length_append in Hfuel. cbn [String.length] in Hfuel.
    rewrite length_append in Hfuel.
    destruct fuel as [|[|f]]; [inversion Hfuel | lia |].
    rewrite !append_cons, append_assoc, !append_cons, append_assoc.
    rewrite parse_members_more, parse_member_quoted.
    pose proof (dumps_length y).
    assert (Hl : 1 <= String.length (dumps_members l)).
    { destruct l as [|[k' y'] l]; [simpl; lia|].
      rewrite dumps_members_cons. simpl. lia. }
    rewrite (Hy Hwy f _ ltac:(lia) (members_ok_rest l rest)). cbn [mbind option_bind].
    rewrite (IH HP Hwf (S f) rest ltac:(lia) Hrest). reflexivity.
Qed.

Lemma parse_dumps (v : json) : json_wf v = true -> parses v.
Proof.
  induction v as [| b | z | s | items IH | members IH] using json_nested_ind;
    intros Hwf fuel rest Hfuel Hrest;
    (destruct fuel as [|f]; [inversion Hfuel|]).
  - destruct rest; reflexivity.
  - destruct b, rest; reflexivity.
  - cbn [dumps]. destruct (int_all_num z) as (_ & _ & c & r & Hz & Hc).
    pose proof (parse_int_dumps z rest Hrest) as Hp.
    rewrite Hz in *. rewrite append_cons in *.
    rewrite (parse_value_num f c _ Hc), Hp. reflexivity.
  - cbn [dumps]. rewrite quote_append, parse_value_str, parse_escape. reflexivity.
  - destruct items as [|x l]; [destruct rest; reflexivity|].
    apply Forall_cons_iff in IH as [Hx IH]. cbn [json_wf forallb] in Hwf.
    apply andb_prop in Hwf as [Hwx Hwl].
    rewrite dumps_arr in *. cbn [String.length] in Hfuel.
    rewrite length_append in Hfuel.
    rewrite append_cons, append_assoc.
    destruct (dumps_start x) as (c & r & Hxs & Hc).
    pose proof (Hx Hwx f (dumps_items l +:+ rest)) as Hpx.
    pose proof (dumps_length x).
    assert (Hl : 1 <= String.length (dumps_items l))
      by (destruct l; simpl; lia).
    rewrite Hxs in *. rewrite append_cons in *.
    rewrite (parse_value_arr f c _ Hc).
    rewrite Hpx by (try apply items_ok_rest; lia). cbn [mbind option_bind].
    rewrite (parse_items_dumps l IH Hwl f rest ltac:(lia) Hrest). reflexivity.
  - destruct members as [|[k x] l]; [destruct rest; reflexivity|].
    apply Forall_cons_iff in IH as [Hx IH]. simpl in Hx.
    pose proof Hwf as Hwf'. apply dict_wf_inv in Hwf' as [Hdist Hvals].
    cbn [forallb] in Hvals. apply andb_prop in Hvals as [Hwx Hwl].
    rewrite dumps_obj in *. cbn [String.length] in Hfuel.
    rewrite length_append in Hfuel. cbn [String.length] in Hfuel.
    rewrite length_append in Hfuel.
    destruct f as [|f]; [lia|].
    rewrite append_cons, append_assoc, !append_cons, append_assoc.
    rewrite quote_append, parse_value_obj, <- quote_append.
    rewrite parse_member_quoted.
    pose proof (dumps_length x).
    assert (Hl : 1 <= String.length (dumps_members l)).
    { destruct l as [|[k' y'] l]; [simpl; lia|].
      rewrite dumps_members_cons. simpl. lia. }
    rewrite (Hx Hwx f _ ltac:(lia) (members_ok_rest l rest)). cbn [mbind option_bind].
    rewrite (parse_members_dumps l IH Hwl (S f) rest ltac:(lia) Hrest). cbn [mbind option_bind].
    rewrite (dict_update_empty _ Hdist). reflexivity.
Qed.

Lemma loads_dumps (v : json) : json_wf v = true -> loads (dumps v) = Ok v.
Proof.
  intros Hwf. unfold loads.
  pose proof (parse_dumps v Hwf (S (String.length (dumps v))) ""
                ltac:(lia) I) as H.
  rewrite append_nil_r in H. rewrite H. reflexivity.
Qed.

Lemma dumps_ascii (v : json) : str_is_ascii (dumps v) = true.
Proof.
  induction v as [| b | z | s | items IH | members IH] using json_nested_ind.
  - reflexivity.
  - destruct b; reflexivity.
  - apply (int_all_num z).
  - apply quote_ascii.
  - destruct items as [|x l]; [reflexivity|].
    apply Forall_cons_iff in IH as [Hx IH].
    rewrite dumps_arr. cbn [str_is_ascii]. rewrite is_ascii_append, Hx.
    clear Hx. induction l as [|y l IHl]; [reflexivity|].
    apply Forall_cons_iff in IH as [Hy IH].
    rewrite dumps_items_cons. cbn [str_is_ascii].
    rewrite is_ascii_append, Hy. apply IHl, IH.
  - destruct members as [|[k x] l]; [reflexivity|].
    apply Forall_cons_iff in IH as [Hx IH]. simpl in Hx.
    rewrite dumps_obj. cbn [str_is_ascii].
    rewrite is_ascii_append, quote_ascii. cbn [str_is_ascii].
    rewrite is_ascii_append, Hx.
    clear Hx. induction l as [|[k' y] l IHl]; [reflexivity|].
    apply Forall_cons_iff in IH as [Hy IH]. simpl in Hy.
    rewrite dumps_members_cons. cbn [str_is_ascii].
    rewrite is_ascii_append, quote_ascii. cbn [str_is_ascii].
    rewrite is_ascii_append, Hy. apply IHl, IH.
Qed.

Lemma parse_value_high (f : nat) (c : ascii) (r : string) :
  is_ascii_char c = false -> parse_value f (String c r) = None.
Proof.
  destruct f as [|f]; [reflexivity|].
  destruct c as [[] [] [] [] [] [] [] []]; intros H; try discriminate H;
    reflexivity.
Qed.

Lemma loads_start (t : string) (v : json) :
  loads t = Ok v ->
  exists c t', t = String c t' /\ is_ascii_char c = true.
Proof.
  unfold loads. destruct t as [|c t']; [discriminate|].
  destruct (is_ascii_char c) eqn:Hc; [eauto|].
  rewrite (parse_value_high _ c t' Hc). discriminate.
Qed.

End ReferenceFacts.

(** The reference libraries are libraries. *)
#[global] Instance reference_libs_ok : LibsOk reference_libs.
Proof.
  split; simpl.
  - apply ReferenceFacts.loads_dumps.
  - apply ReferenceFacts.dumps_ascii.
  - apply ReferenceFacts.loads_start.
  - apply ReferenceFacts.b64_roundtrip_ref.
  - apply ReferenceFacts.b64_alphabet_ref.
  - apply ReferenceFacts.b64_exn_ref.
  - apply ReferenceFacts.known_transparent. reflexivity.
  - apply ReferenceFacts.known_high_start. reflexivity.
  - intros k r msg. rewrite ReferenceFacts.cipher_open_own.
    rewrite (proj2 (ReferenceFacts.key_eqb_eq k k) eq_refl). reflexivity.
  - intros k r msg. apply ReferenceFacts.b64_alphabet_ref.
  - intros k r msg. eexists. apply ReferenceFacts.cipher_token.
  - apply ReferenceFacts.cipher_open_version.
  - intros k1 k2 r msg Hne. rewrite ReferenceFacts.cipher_open_own.
    destruct (Reference.key_eqb k1 k2) eqn:E; [|reflexivity].
    apply ReferenceFacts.key_eqb_eq in E. contradiction.
  - apply ReferenceFacts.cipher_init_exn.
Qed.

(** ** The theorems at concrete inputs, on the reference libraries *)

Lemma utf8_is_transparent : ascii_transparent (L := reference_libs) "utf-8".
Proof. apply ReferenceFacts.known_transparent. reflexivity. Qed.


Lemma example_attrs_ok (name : string) (v : val) :
  dict_get name example_attrs = Some v ->
  val_ok (L := reference_libs) example_store v.
Proof.
  unfold example_attrs. cbn [dict_get]. intros H.
  repeat match type of H with
         | (if ?c then _ else _) = _ =>
             destruct c;
             [injection H as <-; simpl; try exact I; eexists; reflexivity|]
         end.
  discriminate.
Qed.

(** C1 at a URL and metadata {"b": 3}, encrypted under [key_A] on both
    sides. *)
Lemma roundtrip_symmetry_witness :
  ascii_transparent (encoding config_A)
  /\ encryption_key config_A = encryption_key config_A
  /\ dict_wf [("b", JInt 3)] = true
  /\ exists tok r,
       get_url_encoded_data_str config_A no_entropy
         [("url", JStr "https://example.com");
          ("metadata", JObj [("b", JInt 3)])] = Ok tok
       /\ decode_payload config_A (strip_leading_slash tok) =
          Ok (JObj [("url", JStr "https://example.com");
                    ("metadata", JObj [("b", JInt 3)])])
       /\ get_tracking_result config_A tok None false 0 = Ok r
       /\ tracked_url r = JStr "https://example.com"
       /\ metadata r = dict_update (local_metadata config_A) [("b", JInt 3)].
Proof.
  split; [exact utf8_is_transparent|]. split; [reflexivity|].
  split; [reflexivity|].
  destruct (roundtrip_symmetry config_A config_A no_entropy
              "https://example.com" [("b", JInt 3)] None false 0
              utf8_is_transparent utf8_is_transparent eq_refl eq_refl)
    as (tok & r & H1 & _ & H2 & H3 & H4 & H5 & _).
  exists tok, r. repeat split; assumption.
Defined.

(** C3 at the path "/eyJtZXRhZGF0YSI6IHsiYiI6IDN9fQ==", which encodes
    {"metadata": {"b": 3}}, with local defaults {"a": 1}. *)
Lemma get_tracking_result_resolution_witness :
  decode_payload plain_config
    (strip_leading_slash "/eyJtZXRhZGF0YSI6IHsiYiI6IDN9fQ==") =
    Ok (JObj [("metadata", JObj [("b", JInt 3)])])
  /\ default (JObj []) (dict_get "metadata" [("metadata", JObj [("b", JInt 3)])])
     = JObj [("b", JInt 3)]
  /\ exists r,
       get_tracking_result plain_config "/eyJtZXRhZGF0YSI6IHsiYiI6IDN9fQ=="
         None true 1700000000 = Ok r
       /\ metadata r = [("a", JInt 1); ("b", JInt 3)]
       /\ tracked_url r = JNull
       /\ tr_webhook_url r = JNull
       /\ is_open_tracking r = true
       /\ is_click_tracking r = false.
Proof.
  assert (Hdec : decode_payload plain_config
      (strip_leading_slash "/eyJtZXRhZGF0YSI6IHsiYiI6IDN9fQ==") =
      Ok (JObj [("metadata", JObj [("b", JInt 3)])]))
    by (vm_compute; reflexivity).
  split; [exact Hdec|]. split; [reflexivity|].
  destruct (get_tracking_result_resolution plain_config
              "/eyJtZXRhZGF0YSI6IHsiYiI6IDN9fQ==" None true 1700000000
              [("metadata", JObj [("b", JInt 3)])] [("b", JInt 3)]
              Hdec eq_refl)
    as (r & Hr & _ & _ & _ & _ & Hw & Hu & Ho & Hc & _ & _ & _ & Hex).
  exists r. repeat split; try assumption.
  apply Hex; reflexivity.
Defined.


(** C5 at a segment that is not base64, without a key. *)
Lemma errors_propagate_witness :
  LibsOk reference_libs
  /\ decode_failure plain_config (strip_leading_slash "/e30") Base64 BinasciiError
  /\ get_tracking_result plain_config "/e30" None true 0 = Raise BinasciiError.
Proof.
  assert (Hf : decode_failure plain_config (strip_leading_slash "/e30")
                 Base64 BinasciiError).
  { apply (b64decode_fails _ _ (list_byte_of_string "e30")); reflexivity. }
  split; [exact reference_libs_ok|]. split; [exact Hf|].
  destruct (errors_propagate plain_config "/e30" None true 0) as (H & _).
  apply (H Base64 BinasciiError Hf).
Defined.

(** C6 at [example_store], overriding the webhook URL and the key. *)
Lemma merge_with_kwargs_frame_witness :
  example_store !! 1%positive = Some (OConfig example_attrs)
  /\ distinct (map fst example_attrs) = true
  /\ forallb plain_name (map fst example_attrs) = true
  /\ distinct (map fst example_kwargs) = true
  /\ forallb plain_name (map fst example_kwargs) = true
  /\ exists new h',
       merge_with_kwargs 1%positive example_kwargs example_store
         = Some (Ok (new, h'))
       /\ example_store !! new = None
       /\ h' !! 1%positive = Some (OConfig example_attrs)
       /\ h' !! 2%positive = Some (ODict [("a", JInt 1)])
       /\ getattr h' new "webhook_url" = Some (VStr "https://hooks.example/x")
       /\ (exists v', getattr h' new "default_metadata" = Some v' /\
                      deep_copy_of example_store h' (VDict 2%positive) v')
       /\ getattr h' new "no_such_option" = None
       /\ exists lf,
            getattr h' new "encryption_key" = Some (VFernet lf) /\
            example_store !! lf = None /\
            h' !! lf = Some (@OFernet reference_libs key_A).
Proof.
  assert (H1 : example_store !! 1%positive = Some (OConfig example_attrs))
    by reflexivity.
  split; [exact H1|]. split; [reflexivity|]. split; [reflexivity|].
  split; [reflexivity|]. split; [reflexivity|].
  pose proof (merge_with_kwargs_frame 1%positive example_kwargs example_store
                example_attrs H1 eq_refl eq_refl example_attrs_ok eq_refl
                eq_refl) as H.
  destruct (merge_with_kwargs 1%positive example_kwargs example_store)
    as [[[new h']|e]|] eqn:E; [| |destruct H].
  - destruct H as (Hnew & Hframe & Hself & Hset & Hcopy & Hunknown & bk & ek
                   & Hbk & Hek & Hgiven & Hkey).
    exists new, h'. split; [reflexivity|]. split; [exact Hnew|].
    split; [exact Hself|]. split; [apply Hframe; reflexivity|].
    split; [apply Hset; [discriminate | reflexivity | eexists; reflexivity]|].
    split; [apply Hcopy; [discriminate | reflexivity | reflexivity]|].
    split; [apply Hunknown; reflexivity|].
    rewrite (Hgiven (VStr "keyA") eq_refl) in Hkey.
    destruct Hkey as [[Ht _]|(s & f & lf & Hs & _ & Hf & -> & Hlf & Hlf')].
    + discriminate Ht.
    + injection Hs as <-. vm_compute in Hf. injection Hf as <-.
      exists lf. repeat split; assumption.
  - exfalso. destruct H as [(s & Hs & _ & Hf)|[Hns _]].
    + vm_compute in Hs. injection Hs as <-. vm_compute in Hf. discriminate Hf.
    + apply (Hns "keyA"). reflexivity.
Defined.

(** C10 at an empty tracked URL with no extra metadata. *)
Lemma emptiness_is_absence_witness :
  ascii_transparent (encoding empty_strings_config)
  /\ dict_wf (default [] (default_metadata empty_strings_config)) = true
  /\ dict_wf (default [] (None : option dict)) = true
  /\ get_data_to_embed empty_strings_config (Some "") None = []
  /\ exists tok r,
       get_url_encoded_data_str empty_strings_config no_entropy
         (get_data_to_embed empty_strings_config (Some "") None) = Ok tok
       /\ get_tracking_result empty_strings_config tok None false 0 = Ok r
       /\ tracked_url r = JNull.
Proof.
  split; [exact utf8_is_transparent|]. split; [reflexivity|].
  split; [reflexivity|]. split; [reflexivity|].
  destruct (emptiness_is_absence empty_strings_config no_entropy (Some "") None
              None false 0 utf8_is_transparent eq_refl eq_refl)
    as (_ & Hdec & _).
  exact Hdec.
Defined.

(** ** Runs

    What the code computes on the reference libraries; the encoded strings
    are those of [base64.urlsafe_b64encode(json.dumps(...).encode())]. *)

Example encode_plain :
  get_url_encoded_data_str plain_config no_entropy
    [("metadata", JObj [("b", JInt 3)])]
  = Ok "eyJtZXRhZGF0YSI6IHsiYiI6IDN9fQ==".
Proof. vm_compute. reflexivity. Qed.

Example click_url_plain :
  get_click_tracking_url plain_config no_entropy
    (Some "https://example.com/a?b=1")
    (Some [("k", JStr "v"); ("n", JArr [JInt (-1); JNull; JBool true])])
  = Ok ("https://t.example/c/"
        +:+ "eyJ1cmwiOiAiaHR0cHM6Ly9leGFtcGxlLmNvbS9hP2I9MSIsICJtZXRhZGF0YSI6"
        +:+ "IHsiayI6ICJ2IiwgIm4iOiBbLTEsIG51bGwsIHRydWVdfX0=").
Proof. vm_compute. reflexivity. Qed.

Example click_result_plain :
  get_click_tracking_result
    ("https://t.example/c/"
     +:+ "eyJ1cmwiOiAiaHR0cHM6Ly9leGFtcGxlLmNvbS9hP2I9MSIsICJtZXRhZGF0YSI6"
     +:+ "IHsiayI6ICJ2IiwgIm4iOiBbLTEsIG51bGwsIHRydWVdfX0=")
    None plain_config 1700000000
  = Ok {| is_open_tracking := false;
          is_click_tracking := true;
          tracked_url := JStr "https://example.com/a?b=1";
          tr_webhook_url := JNull;
          metadata := [("a", JInt 1); ("k", JStr "v");
                       ("n", JArr [JInt (-1); JNull; JBool true])];
          request_data := None;
          timestamp := 1700000000 |}.
Proof. vm_compute. reflexivity. Qed.

Example encrypted_roundtrip :
  (tok ← get_url_encoded_data_str config_A no_entropy
           [("url", JStr "https://example.com")];
   r ← get_tracking_result config_A tok None false 0;
   Ok (tracked_url r))
  = Ok (JStr "https://example.com").
Proof. vm_compute. reflexivity. Qed.

Example wrong_key_raises :
  (tok ← get_url_encoded_data_str config_A no_entropy
           [("url", JStr "https://example.com")];
   get_tracking_result config_B tok None false 0)
  = Raise InvalidToken.
Proof. vm_compute. reflexivity. Qed.

Example key_against_none_raises :
  (tok ← get_url_encoded_data_str config_A no_entropy
           [("url", JStr "https://example.com")];
   get_tracking_result plain_config tok None false 0)
  = Raise UnicodeDecodeError.
Proof. vm_compute. reflexivity. Qed.

Example none_against_key_raises :
  (tok ← get_url_encoded_data_str plain_config no_entropy
           [("url", JStr "https://example.com")];
   get_tracking_result config_A tok None false 0)
  = Raise InvalidToken.
Proof. vm_compute. reflexivity. Qed.

Example bad_key_raises :
  __init__ {| arg_webhook_url := VNone;
              arg_webhook_timeout_seconds := VInt 5;
              arg_include_webhook_url := VBool false;
              arg_base_open_tracking_url := VNone;
              arg_base_click_tracking_url := VNone;
              arg_default_metadata := VNone;
              arg_include_default_metadata := VBool false;
              arg_encryption_bytestring_key := VStr "short";
              arg_encoding := VStr "utf-8";
              arg_append_slash := VBool false;
              arg_pixel_position := VStr "top";
              arg_kwargs := [] |} (∅ : gmap positive (@obj reference_libs))
  = Raise ValueError.
Proof. reflexivity. Qed.

(** ** Where the code departs from the specification's wording *)

(** C2 as stated fails: a tracked URL that is the empty string is
    provided and the payload has no "url"; a webhook URL that is the empty
    string is set and is to be included, and the payload has no
    "webhook". *)
Lemma get_data_to_embed_counterexample :
  get_data_to_embed empty_strings_config (Some "") None = []
  /\ ~ (is_Some (dict_get "url"
                   (get_data_to_embed empty_strings_config (Some "") None))
        <-> is_Some (Some ""))
  /\ ~ (is_Some (dict_get "webhook"
                   (get_data_to_embed empty_strings_config (Some "") None))
        <-> include_webhook_url empty_strings_config = true
            /\ is_Some (webhook_url empty_strings_config)).
Proof.
  split; [reflexivity|]. split.
  - intros [_ H]. destruct (H (ex_intro _ "" eq_refl)) as [x Hx]. discriminate.
  - intros [_ H].
    destruct (H (conj eq_refl (ex_intro _ "" eq_refl))) as [x Hx]. discriminate.
Qed.

(** C5 as stated fails: a string that is no token and a token whose tag
    does not verify raise the same [InvalidToken], so no reading of the
    exceptions tells a DecodeError from an IntegrityError. *)
Lemma error_taxonomy_counterexample :
  decode_failure config_A not_a_token TokenStructure InvalidToken
  /\ decode_failure config_A token_B Authentication InvalidToken
  /\ get_tracking_result config_A not_a_token None true 0 = Raise InvalidToken
  /\ get_tracking_result config_A token_B None true 0 = Raise InvalidToken
  /\ ~ taxonomy_realised (L := reference_libs).
Proof.
  assert (H1 : decode_failure config_A not_a_token TokenStructure InvalidToken).
  { apply (token_malformed config_A not_a_token key_A
             (list_byte_of_string not_a_token));
      reflexivity. }
  assert (H2 : decode_failure config_A token_B Authentication InvalidToken).
  { apply (tag_mismatch config_A token_B key_A (list_byte_of_string token_B));
      reflexivity. }
  split; [exact H1|]. split; [exact H2|].
  split; [reflexivity|]. split; [reflexivity|].
  intros [classify Hc].
  pose proof (Hc _ _ _ _ DecodeError H1 eq_refl) as Ha.
  pose proof (Hc _ _ _ _ IntegrityError H2 eq_refl) as Hb.
  congruence.
Qed.

(** C8 as stated fails: with an empty base URL every link starts with
    it, and a link with a valid scheme still qualifies. *)
Lemma valid_link_counterexample :
  base_click_tracking_url empty_strings_config = Some ""
  /\ startswith "https://example.com" "" = true
  /\ _valid_link "https://example.com" (Some empty_strings_config) = true
  /\ ~ (_valid_link "https://example.com" (Some empty_strings_config) = true
        <-> has_valid_scheme "https://example.com"
            /\ startswith "https://example.com"
                 (default "" (base_click_tracking_url empty_strings_config))
               = false).
Proof.
  split; [reflexivity|]. split; [reflexivity|]. split; [reflexivity|].
  intros [H _]. destruct (H eq_refl) as [_ Hs]. discriminate Hs.
Qed.

(** C1 as stated fails: under [encoding="utf-32"], with no key on either
    side, the JSON text encodes to bytes and those to base64, and reading
    the base64 bytes as utf-32 raises [UnicodeDecodeError] (the first unit,
    "__4A", is no code point), so [get_url_encoded_data_str] returns no
    string and nothing is there to decode. *)
Lemma roundtrip_counterexample :
  encryption_key utf32_config = None
  /\ dict_wf example_payload = true
  /\ @text_encode reference_libs "utf-32"
       (json_dumps (JObj example_payload))
     = Ok (Reference.utf32_encode (json_dumps (JObj example_payload)))
  /\ firstn 4 (urlsafe_b64encode
                 (Reference.utf32_encode (json_dumps (JObj example_payload))))
     = list_byte_of_string "__4A"
  /\ get_url_encoded_data_str utf32_config no_entropy example_payload
     = Raise UnicodeDecodeError
  /\ ~ (exists tok r,
          get_url_encoded_data_str utf32_config no_entropy example_payload
            = Ok tok
          /\ get_tracking_result utf32_config tok None false 0 = Ok r
          /\ tracked_url r = JStr "https://example.com"
          /\ metadata r = [("b", JInt 3)]).
Proof.
  assert (H : get_url_encoded_data_str utf32_config no_entropy example_payload
              = Raise UnicodeDecodeError) by (vm_compute; reflexivity).
  split; [reflexivity|]. split; [reflexivity|]. split; [reflexivity|].
  split; [vm_compute; reflexivity|]. split; [exact H|].
  intros (tok & r & Htok & _). rewrite H in Htok. discriminate Htok.
Qed.

(** C6 as stated fails: for the override {"cache_encryption_key": 1} the
    copy has that attribute (the class defines the method), [setattr] binds
    it to 1 on the copy, and the call of [cache_encryption_key] that follows
    raises [TypeError]; no configuration is returned, though the key
    material of the instance gives no error. *)
Lemma merge_with_kwargs_counterexample :
  example_store !! 1%positive = Some (OConfig example_attrs)
  /\ distinct (map fst shadowing_kwargs) = true
  /\ derive_key (L := reference_libs) example_store
       (merged_key example_attrs shadowing_kwargs) = Ok None
  /\ merge_with_kwargs 1%positive shadowing_kwargs example_store
     = Some (Raise TypeError)
  /\ ~ (exists new h',
          merge_with_kwargs 1%positive shadowing_kwargs example_store
            = Some (Ok (new, h'))).
Proof.
  assert (H : merge_with_kwargs 1%positive shadowing_kwargs example_store
              = Some (Raise TypeError)) by reflexivity.
  split; [reflexivity|]. split; [reflexivity|]. split; [reflexivity|].
  split; [exact H|].
  intros (new & h' & Hm). rewrite H in Hm. discriminate Hm.
Qed.

(** ** Building a tracking URL and resolving it *)



Section UrlFacts.
Context `{L : Libs}.

(** The path of a URL that [get_click_tracking_url_from_data_str] built on
    a base that [urljoin] appends to is the segment it was built from. *)
Lemma click_path_of_built_url (c : Configuration) (tok : string) :
  appends_to_base (base_click_tracking_url c) -> append_slash c = false ->
  forallb urlsafe_byte (list_byte_of_string tok) = true ->
  click_encoded_url_path c (get_click_tracking_url_from_data_str c tok) = Ok tok.
Proof.
  intros Happ Hsl Htok.
  unfold get_click_tracking_url_from_data_str. cbv zeta.
  rewrite (Happ tok Htok), Hsl.
  unfold click_encoded_url_path, get_click_tracking_url_path.
  destruct (base_click_tracking_url c) as [b|] eqn:Hb.
  - apply (prefix_segment _ _ b tok); reflexivity.
  - apply (no_prefix_segment None). left. reflexivity.
Qed.


(** X5: the path methods against the URL builders. On a base URL [b] that
    [urljoin] appends the segment to, [get_click_tracking_url_path] of the
    URL that [get_click_tracking_url_from_data_str] built is the segment,
    followed by the slash that [append_slash] added; the same holds for the
    open tracking pair. Without a base URL the path methods raise
    [TypeError] for every input ([len(None)]). *)
Theorem url_path_of_built_url (c : Configuration) (data_str : string) :
  (forall b, base_click_tracking_url c = Some b ->
     urljoin (Some b) data_str = b +:+ data_str ->
     get_click_tracking_url_path c
       (get_click_tracking_url_from_data_str c data_str) =
     Ok (if append_slash c then data_str +:+ "/" else data_str))
  /\ (forall b, base_open_tracking_url c = Some b ->
     urljoin (Some b) data_str = b +:+ data_str ->
     get_open_tracking_url_path c
       (get_open_tracking_url_from_data_str c data_str) =
     Ok (if append_slash c then data_str +:+ "/" else data_str))
  /\ (base_click_tracking_url c = None ->
      forall url, get_click_tracking_url_path c url = Raise TypeError)
  /\ (base_open_tracking_url c = None ->
      forall url, get_open_tracking_url_path c url = Raise TypeError).
Proof.
  assert (Hdrop : forall b s, string_drop (String.length b)
                    (if append_slash c then (b +:+ s) +:+ "/" else b +:+ s) =
                  if append_slash c then s +:+ "/" else s).
  { intros b s. destruct (append_slash c).
    - rewrite ReferenceFacts.append_assoc. apply string_drop_app.
    - apply string_drop_app. }
  split; [|split; [|split]].
  - intros b Hb Hj.
    unfold get_click_tracking_url_path, get_click_tracking_url_from_data_str.
    rewrite Hb, Hj. simpl. rewrite Hdrop. reflexivity.
  - intros b Hb Hj.
    unfold get_open_tracking_url_path, get_open_tracking_url_from_data_str.
    rewrite Hb, Hj. simpl. rewrite Hdrop. reflexivity.
  - intros Hb url. unfold get_click_tracking_url_path. rewrite Hb. reflexivity.
  - intros Hb url. unfold get_open_tracking_url_path. rewrite Hb. reflexivity.
Qed.

End UrlFacts.

Section RoundTripFacts.
Context `{L : Libs} {LOk : LibsOk L}.

Lemma merged_metadata_value (merged : dict) :
  default (JObj [])
    (if truthy_dict (Some merged) then Some (JObj merged) else None) =
  JObj merged.
Proof. destruct merged; reflexivity. Qed.

(** What comes back of what a configuration embedded, decoded under the
    same configuration. *)
Lemma embed_then_decode (self : Configuration) (rnd : entropy)
    (url_to_track : option string) (extra_metadata : option dict)
    (req : option dict) (is_open : bool) (now : Z) :
  ascii_transparent (encoding self) ->
  dict_wf (default [] (default_metadata self)) = true ->
  dict_wf (default [] extra_metadata) = true ->
  let data := get_data_to_embed self url_to_track extra_metadata in
  let tok := string_of_list_byte (encoded_bytes self rnd data) in
  get_url_encoded_data_str self rnd data = Ok tok
  /\ get_tracking_result self tok req is_open now =
     Ok {| is_open_tracking := is_open;
           is_click_tracking := negb is_open;
           tracked_url :=
             (if truthy_str url_to_track then py_of_str url_to_track
              else JNull);
           tr_webhook_url :=
             (if include_webhook_url self
                 && negb (truthy_str (webhook_url self))
              then JNull else py_of_str (webhook_url self));
           metadata :=
             dict_update (default [] (default_metadata self))
               (default [] extra_metadata);
           request_data := req;
           timestamp := now |}.
Proof.
  intros Henc Hd He data tok.
  assert (Hwf : dict_wf data = true) by (apply get_data_to_embed_wf; assumption).
  split; [apply get_url_encoded_data_str_ok; exact Henc|].
  destruct (encoded_segment_bytes self self rnd data Henc) as [Hstrip _].
  pose proof (decode_payload_encoded self self rnd data Henc eq_refl Hwf) as Hdec.
  pose proof (get_data_to_embed_keys self url_to_track extra_metadata)
    as (Hurl & Hmeta & Hwh).
  fold data in Hurl, Hmeta, Hwh. cbv zeta in Hmeta.
  unfold get_tracking_result. fold tok in Hstrip, Hdec.
  rewrite Hstrip, Hdec. unfold mbind at 1, result_bind at 1.
  rewrite (resolve_tracking_result_ok self data _ req is_open now
             (eq_trans (f_equal (default (JObj [])) Hmeta)
                       (merged_metadata_value _))).
  f_equal. f_equal.
  - rewrite Hurl. destruct (truthy_str url_to_track); reflexivity.
  - rewrite Hwh.
    destruct (include_webhook_url self), (truthy_str (webhook_url self));
      reflexivity.
  - apply dict_wf_inv in Hd as [Hdk Hdv]. apply dict_wf_inv in He as [Hek Hev].
    rewrite local_metadata_eq.
    destruct (include_default_metadata self).
    + rewrite (dict_update_empty _ Hdk). apply dict_update_empty.
      assert (Hm : dict_wf (dict_update (default [] (default_metadata self))
                              (default [] extra_metadata)) = true).
      { apply dict_update_wf; [|exact Hev].
        unfold dict_wf. simpl. rewrite Hdk, Hdv. reflexivity. }
      apply dict_wf_inv in Hm as [Hm _]. exact Hm.
    + rewrite (dict_update_empty _ Hdk).
      change (dict_update [] []) with (@nil (string * json)).
      rewrite (dict_update_empty _ Hek). reflexivity.
Qed.

Lemma encoded_text_urlsafe (self : Configuration) (rnd : entropy) (data : dict) :
  forallb urlsafe_byte
    (list_byte_of_string (string_of_list_byte (encoded_bytes self rnd data)))
  = true.
Proof.
  rewrite list_byte_of_string_of_list_byte. apply encoded_bytes_urlsafe.
Qed.

(** X1: the encoded string is safe in a URL path. Under an encoding that
    keeps ASCII as it is, [get_url_encoded_data_str] returns, for every
    payload and with or without a key, a string over the alphabet of
    URL-safe base64 (letters, digits, "-", "_", "="): it is ASCII, holds no
    "/", and [get_tracking_result] strips nothing from its front. *)
Theorem encoded_str_url_safe (self : Configuration) (rnd : entropy)
    (data_to_embed : dict) :
  ascii_transparent (encoding self) ->
  exists data_str,
    get_url_encoded_data_str self rnd data_to_embed = Ok data_str
    /\ forallb urlsafe_byte (list_byte_of_string data_str) = true
    /\ str_is_ascii data_str = true
    /\ (forall b, In b (list_byte_of_string data_str) ->
          ascii_of_byte b <> "/"%char)
    /\ strip_leading_slash data_str = data_str.
Proof.
  intros Henc.
  pose proof (encoded_bytes_urlsafe self rnd data_to_embed) as Hsafe.
  exists (string_of_list_byte (encoded_bytes self rnd data_to_embed)).
  split; [apply get_url_encoded_data_str_ok; exact Henc|].
  split; [apply encoded_text_urlsafe|].
  split; [apply ascii_bytes_text, urlsafe_bytes_ascii, Hsafe|].
  split; [|apply urlsafe_no_leading_slash, Hsafe].
  intros b Hb. rewrite list_byte_of_string_of_list_byte in Hb.
  apply urlsafe_byte_not_slash.
  rewrite forallb_forall in Hsafe. apply Hsafe, Hb.
Qed.

(** X2: what a configuration embeds, it gets back, under an encoding that
    keeps ASCII as it is (utf-8, ascii, latin-1) and with default and extra
    metadata that are dicts of JSON values (no key twice). For every tracked
    URL and extra metadata, the string [get_url_encoded_data_str] makes of
    [get_data_to_embed] is resolved by [get_tracking_result] of the same
    configuration, with or without a leading slash, to: the tracked URL, or
    [None] for an empty or missing one; the default metadata overlaid by the
    extra metadata, whether [include_default_metadata] put the defaults into
    the link or left them to the decoding side; the webhook URL of the
    configuration, or [None] when [include_webhook_url] is set and the URL
    is empty. *)
Theorem embedded_data_roundtrip (self : Configuration) (rnd : entropy)
    (url_to_track : option string) (extra_metadata : option dict)
    (req : option dict) (is_open : bool) (now : Z) :
  ascii_transparent (encoding self) ->
  dict_wf (default [] (default_metadata self)) = true ->
  dict_wf (default [] extra_metadata) = true ->
  exists data_str r,
    get_url_encoded_data_str self rnd
      (get_data_to_embed self url_to_track extra_metadata) = Ok data_str
    /\ get_tracking_result self data_str req is_open now = Ok r
    /\ get_tracking_result self ("/" +:+ data_str) req is_open now = Ok r
    /\ tracked_url r =
       (if truthy_str url_to_track then py_of_str url_to_track else JNull)
    /\ metadata r =
       dict_update (default [] (default_metadata self))
         (default [] extra_metadata)
    /\ tr_webhook_url r =
       (if include_webhook_url self && negb (truthy_str (webhook_url self))
        then JNull else py_of_str (webhook_url self))
    /\ is_open_tracking r = is_open
    /\ is_click_tracking r = negb is_open
    /\ request_data r = req
    /\ timestamp r = now.
Proof.
  intros Henc Hd He.
  destruct (embed_then_decode self rnd url_to_track extra_metadata req is_open
              now Henc Hd He) as [Htok Hres].
  eexists. eexists. split; [exact Htok|]. split; [exact Hres|].
  split; [|repeat split].
  unfold get_tracking_result in *.
  rewrite strip_leading_slash_cons.
  rewrite (urlsafe_no_leading_slash _ (encoded_bytes_urlsafe _ _ _)) in Hres.
  exact Hres.
Qed.

(** The URL [get_click_tracking_url] builds and what
    [get_click_tracking_result] makes of it. *)
Lemma click_url_resolves (configuration : Configuration) (rnd : entropy)
    (url_to_track : string) (extra_metadata : option dict)
    (req : option dict) (now : Z) :
  ascii_transparent (encoding configuration) ->
  dict_wf (default [] (default_metadata configuration)) = true ->
  dict_wf (default [] extra_metadata) = true ->
  appends_to_base (base_click_tracking_url configuration) ->
  append_slash configuration = false ->
  url_to_track <> "" ->
  exists data_str,
    forallb urlsafe_byte (list_byte_of_string data_str) = true
    /\ get_click_tracking_url configuration rnd (Some url_to_track)
         extra_metadata
       = Ok (get_click_tracking_url_from_data_str configuration data_str)
    /\ get_click_tracking_result
         (get_click_tracking_url_from_data_str configuration data_str)
         req configuration now =
       Ok {| is_open_tracking := false;
             is_click_tracking := true;
             tracked_url := JStr url_to_track;
             tr_webhook_url :=
               (if include_webhook_url configuration
                   && negb (truthy_str (webhook_url configuration))
                then JNull else py_of_str (webhook_url configuration));
             metadata :=
               dict_update (default [] (default_metadata configuration))
                 (default [] extra_metadata);
             request_data := req;
             timestamp := now |}.
Proof.
  intros Henc Hd He Happ Hsl Hne.
  destruct (embed_then_decode configuration rnd (Some url_to_track)
              extra_metadata req false now Henc Hd He) as [Htok Hres].
  eexists. split; [apply encoded_text_urlsafe|]. split.
  { unfold get_click_tracking_url. cbv zeta. rewrite Htok. reflexivity. }
  unfold get_click_tracking_result.
  rewrite (click_path_of_built_url _ _ Happ Hsl (encoded_text_urlsafe _ _ _)).
  unfold mbind, result_bind. rewrite Hres.
  destruct url_to_track; [congruence | reflexivity].
Qed.

(** X3: a click tracking URL resolves to the link it was built for. The
    conditions: the configuration is as [get_configuration] returns it (its
    [encryption_key] is the handle derived from its
    [encryption_bytestring_key], [None] without key material); its encoding
    keeps ASCII as it is (utf-8, ascii, latin-1); default and extra metadata
    are dicts of JSON values (no key twice); [urljoin] appends every segment
    over the URL-safe base64 alphabet to [base_click_tracking_url] (as to a
    base that ends with a slash, or to none); [append_slash] is off; the
    tracked URL is not the empty string. Then [get_click_tracking_url]
    returns a URL that [get_click_tracking_result], given that whole URL and
    the same configuration, resolves to a click result with the tracked URL,
    the default metadata overlaid by the extra metadata and the
    configuration's webhook URL ([None] when [include_webhook_url] is set
    and the URL is empty). *)
Theorem click_url_roundtrip (configuration : Configuration) (rnd : entropy)
    (url_to_track : string) (extra_metadata : option dict)
    (req : option dict) (now : Z) :
  key_cached configuration ->
  ascii_transparent (encoding configuration) ->
  dict_wf (default [] (default_metadata configuration)) = true ->
  dict_wf (default [] extra_metadata) = true ->
  appends_to_base (base_click_tracking_url configuration) ->
  append_slash configuration = false ->
  url_to_track <> "" ->
  exists url r,
    get_click_tracking_url configuration rnd (Some url_to_track) extra_metadata
      = Ok url
    /\ get_click_tracking_result url req configuration now = Ok r
    /\ is_click_tracking r = true
    /\ is_open_tracking r = false
    /\ tracked_url r = JStr url_to_track
    /\ metadata r =
       dict_update (default [] (default_metadata configuration))
         (default [] extra_metadata)
    /\ tr_webhook_url r =
       (if include_webhook_url configuration
           && negb (truthy_str (webhook_url configuration))
        then JNull else py_of_str (webhook_url configuration))
    /\ request_data r = req
    /\ timestamp r = now.
Proof.
  intros _ Henc Hd He Happ Hsl Hne.
  destruct (click_url_resolves configuration rnd url_to_track extra_metadata
              req now Henc Hd He Happ Hsl Hne) as (data_str & _ & Hurl & Hres).
  eexists. eexists. split; [exact Hurl|]. split; [exact Hres|].
  repeat split.
Qed.


(** X11: a link made under one configuration, resolved under another
    with the same key (or none on both sides), both with encodings that
    keep ASCII as it is (utf-8, ascii, latin-1), the default metadata of
    both and the extra metadata being dicts of JSON values (no key twice).
    The link resolves, and the tracked URL is the maker's. The webhook is the resolver's own unless the resolver has
    [include_webhook_url]; then it is what the link carries, the maker's
    webhook URL if the maker included one and [None] otherwise, and the
    resolver's own webhook URL is not used. A metadata key has the value of
    the extra metadata, or else of the maker's defaults if the maker
    included them, or else of the resolver's defaults unless the resolver
    has [include_default_metadata]. *)
Theorem link_resolved_by_other_configuration (maker resolver : Configuration)
    (rnd : entropy) (url_to_track : option string)
    (extra_metadata : option dict) (req : option dict) (is_open : bool)
    (now : Z) :
  ascii_transparent (encoding maker) ->
  ascii_transparent (encoding resolver) ->
  encryption_key maker = encryption_key resolver ->
  dict_wf (default [] (default_metadata maker)) = true ->
  dict_wf (default [] (default_metadata resolver)) = true ->
  dict_wf (default [] extra_metadata) = true ->
  exists data_str r,
    get_url_encoded_data_str maker rnd
      (get_data_to_embed maker url_to_track extra_metadata) = Ok data_str
    /\ get_tracking_result resolver data_str req is_open now = Ok r
    /\ tracked_url r =
       (if truthy_str url_to_track then py_of_str url_to_track else JNull)
    /\ tr_webhook_url r =
       (if include_webhook_url resolver
        then (if include_webhook_url maker && truthy_str (webhook_url maker)
              then py_of_str (webhook_url maker) else JNull)
        else py_of_str (webhook_url resolver))
    /\ forall k,
         dict_get k (metadata r) =
         match dict_get k (default [] extra_metadata) with
         | Some v => Some v
         | None =>
             match (if include_default_metadata maker
                    then dict_get k (default [] (default_metadata maker))
                    else None) with
             | Some v => Some v
             | None =>
                 if include_default_metadata resolver then None
                 else dict_get k (default [] (default_metadata resolver))
             end
         end.
Proof.
  intros Hm Hr Hkey Hdm Hdr He.
  set (data := get_data_to_embed maker url_to_track extra_metadata).
  assert (Hwf : dict_wf data = true) by (apply get_data_to_embed_wf; assumption).
  destruct (encoded_segment_bytes maker resolver rnd data Hr) as [Hstrip _].
  pose proof (decode_payload_encoded maker resolver rnd data Hr Hkey Hwf) as Hdec.
  pose proof (get_data_to_embed_keys maker url_to_track extra_metadata)
    as (Hurl & Hmeta & Hwh).
  fold data in Hurl, Hmeta, Hwh. cbv zeta in Hmeta.
  exists (string_of_list_byte (encoded_bytes maker rnd data)). eexists.
  split; [apply get_url_encoded_data_str_ok; exact Hm|].
  split.
  { unfold get_tracking_result. rewrite Hstrip, Hdec.
    unfold mbind at 1, result_bind at 1.
    apply (resolve_tracking_result_ok resolver data _ req is_open now
             (eq_trans (f_equal (default (JObj [])) Hmeta)
                       (merged_metadata_value _))). }
  cbn [tracked_url tr_webhook_url metadata].
  split; [rewrite Hurl; destruct (truthy_str url_to_track); reflexivity|].
  split.
  { rewrite Hwh.
    destruct (include_webhook_url resolver),
      (include_webhook_url maker && truthy_str (webhook_url maker));
      reflexivity. }
  intros k.
  apply dict_wf_inv in Hdm as [Hdmk Hdmv]. apply dict_wf_inv in Hdr as [Hdrk _].
  apply dict_wf_inv in He as [Hek Hev].
  set (included := if include_default_metadata maker
                   then default [] (default_metadata maker) else []).
  assert (Hik : distinct (map fst included) = true)
    by (unfold included; destruct (include_default_metadata maker);
        [exact Hdmk | reflexivity]).
  assert (Hmk : distinct (map fst
                  (dict_update (dict_update [] included)
                     (default [] extra_metadata))) = true).
  { assert (Hw : dict_wf (dict_update (dict_update [] included)
                            (default [] extra_metadata)) = true).
    { apply dict_update_wf; [|exact Hev]. rewrite (dict_update_empty _ Hik).
      unfold dict_wf, included. simpl.
      destruct (include_default_metadata maker);
        [rewrite Hdmk, Hdmv|]; reflexivity. }
    apply dict_wf_inv in Hw as [Hw _]. exact Hw. }
  rewrite (dict_get_update _ _ _ Hmk), (dict_get_update _ _ _ Hek),
    (dict_update_empty _ Hik), local_metadata_eq.
  destruct (dict_get k (default [] extra_metadata)); [reflexivity|].
  unfold included.
  destruct (include_default_metadata maker);
    [destruct (dict_get k (default [] (default_metadata maker)));
       [reflexivity|]|];
    (destruct (include_default_metadata resolver);
     [reflexivity | rewrite (dict_update_empty _ Hdrk); reflexivity]).
Qed.



End RoundTripFacts.

(** ** Creating, copying and merging instances *)

Section InstanceFacts.
Context `{L : Libs}.

Abbreviation store := (gmap loc obj) (only parsing).

Lemma val_ok_weaken (h h' : store) (v : val) :
  h ⊆ h' -> val_ok h v -> val_ok h' v.
Proof.
  intros Hsub. destruct v as [| | | |l|l]; simpl; try tauto.
  - intros [items H]. exists items. apply (lookup_weaken _ _ _ _ H Hsub).
  - intros [key H]. exists key. apply (lookup_weaken _ _ _ _ H Hsub).
Qed.

Lemma agrees_same (h h' : store) (v : val) :
  h ⊆ h' -> val_ok h v -> agrees h h' v v.
Proof.
  intros Hsub. destruct v as [| | | |l|l]; simpl; try reflexivity.
  - intros [items H]. exists l. split; [reflexivity|].
    rewrite H. apply (lookup_weaken _ _ _ _ H Hsub).
  - intros [key H]. exists l. split; [reflexivity|].
    rewrite H. apply (lookup_weaken _ _ _ _ H Hsub).
Qed.

Lemma agrees_copy (h h' : store) (v v' : val) :
  deep_copy_of h h' v v' -> agrees h h' v v'.
Proof.
  destruct v as [| | | |l|l]; simpl; try tauto;
    intros (l' & -> & _ & H); eauto.
Qed.

Lemma truthy_agrees (h h' : store) (v v' : val) :
  agrees h h' v v' -> truthy h' v' = truthy h v.
Proof.
  destruct v as [| | | |l|l]; simpl; try (intros ->; reflexivity).
  - intros (l' & -> & H). simpl. rewrite H. reflexivity.
  - intros (l' & -> & H). reflexivity.
Qed.

Lemma as_str_agrees (h h' : store) (v v' : val) :
  agrees h h' v v' -> as_str v' = as_str v.
Proof.
  destruct v as [| | | |l|l]; simpl; try (intros ->; reflexivity);
    intros (l' & -> & _); reflexivity.
Qed.

Lemma as_text_agrees (h h' : store) (v v' : val) :
  agrees h h' v v' -> as_text v' = as_text v.
Proof.
  destruct v as [| | | |l|l]; simpl; try (intros ->; reflexivity);
    intros (l' & -> & _); reflexivity.
Qed.

Lemma as_bool_agrees (h h' : store) (v v' : val) :
  agrees h h' v v' -> as_bool v' = as_bool v.
Proof.
  destruct v as [| | | |l|l]; simpl; try (intros ->; reflexivity);
    intros (l' & -> & _); reflexivity.
Qed.

Lemma as_int_agrees (h h' : store) (v v' : val) :
  agrees h h' v v' -> as_int v' = as_int v.
Proof.
  destruct v as [| | | |l|l]; simpl; try (intros ->; reflexivity);
    intros (l' & -> & _); reflexivity.
Qed.

Lemma as_items_agrees (h h' : store) (v v' : val) :
  agrees h h' v v' -> as_items h' v' = as_items h v.
Proof.
  destruct v as [| | | |l|l]; simpl; try (intros ->; reflexivity).
  - intros (l' & -> & H). simpl. rewrite H. reflexivity.
  - intros (l' & -> & _). reflexivity.
Qed.

Lemma as_dict_agrees (h h' : store) (v v' : val) :
  agrees h h' v v' -> as_dict h' v' = as_dict h v.
Proof.
  intros H. pose proof (as_items_agrees _ _ _ _ H) as Hi.
  destruct v as [| | | |l|l]; simpl in H; try (rewrite H; reflexivity).
  - destruct H as (l' & -> & _). unfold as_dict. rewrite Hi. reflexivity.
  - destruct H as (l' & -> & _). reflexivity.
Qed.

(** Attributes that read the same give the same record. *)
Lemma fields_of_ext (h h' : store) (get get' : string -> option val)
    (key : option fernet) :
  (forall name, In name init_names -> name <> "encryption_key" ->
     exists v v', get name = Some v /\ get' name = Some v' /\
                  agrees h h' v v') ->
  fields_of h' get' key = fields_of h get key.
Proof.
  intros H.
  assert (E : forall name, In name init_names -> name <> "encryption_key" ->
    (get' name ≫= as_str) = (get name ≫= as_str)
    /\ (get' name ≫= as_text) = (get name ≫= as_text)
    /\ (get' name ≫= as_bool) = (get name ≫= as_bool)
    /\ (get' name ≫= as_int) = (get name ≫= as_int)
    /\ (get' name ≫= as_items h') = (get name ≫= as_items h)
    /\ (get' name ≫= as_dict h') = (get name ≫= as_dict h)).
  { intros name Hin Hne. destruct (H name Hin Hne) as (v & v' & -> & -> & Ha).
    simpl.
    rewrite (as_str_agrees _ _ _ _ Ha), (as_text_agrees _ _ _ _ Ha),
      (as_bool_agrees _ _ _ _ Ha), (as_int_agrees _ _ _ _ Ha),
      (as_items_agrees _ _ _ _ Ha), (as_dict_agrees _ _ _ _ Ha).
    repeat split. }
  assert (Hin : forall name, existsb (String.eqb name) init_names = true ->
                  In name init_names).
  { intros name Hn. apply existsb_exists in Hn as (x & Hx & Heq).
    apply String.eqb_eq in Heq. subst x. exact Hx. }
  unfold fields_of.
  destruct (E "webhook_url" (Hin "webhook_url" eq_refl) ltac:(discriminate))
    as (-> & _).
  destruct (E "webhook_timeout_seconds" (Hin "webhook_timeout_seconds" eq_refl) ltac:(discriminate))
    as (_ & _ & _ & -> & _).
  destruct (E "include_webhook_url" (Hin "include_webhook_url" eq_refl) ltac:(discriminate))
    as (_ & _ & -> & _).
  destruct (E "base_open_tracking_url" (Hin "base_open_tracking_url" eq_refl) ltac:(discriminate))
    as (-> & _).
  destruct (E "base_click_tracking_url" (Hin "base_click_tracking_url" eq_refl) ltac:(discriminate))
    as (-> & _).
  destruct (E "default_metadata" (Hin "default_metadata" eq_refl) ltac:(discriminate))
    as (_ & _ & _ & _ & _ & ->).
  destruct (E "include_default_metadata" (Hin "include_default_metadata" eq_refl) ltac:(discriminate))
    as (_ & _ & -> & _).
  destruct (E "encryption_bytestring_key" (Hin "encryption_bytestring_key" eq_refl) ltac:(discriminate))
    as (-> & _).
  destruct (E "encoding" (Hin "encoding" eq_refl) ltac:(discriminate))
    as (_ & -> & _).
  destruct (E "kwargs" (Hin "kwargs" eq_refl) ltac:(discriminate))
    as (_ & _ & _ & _ & -> & _).
  destruct (E "append_slash" (Hin "append_slash" eq_refl) ltac:(discriminate))
    as (_ & _ & -> & _).
  destruct (E "pixel_position" (Hin "pixel_position" eq_refl) ltac:(discriminate))
    as (_ & -> & _).
  reflexivity.
Qed.

(** A record that was read names every field, and reads the same with
    another handle. *)
Lemma fields_of_Some (h : store) (get : string -> option val)
    (key : option fernet) (c : Configuration) :
  fields_of h get key = Some c ->
  (forall name, In name init_names -> name <> "encryption_key" ->
     is_Some (get name))
  /\ forall key', fields_of h get key' = Some (set_encryption_key c key').
Proof.
  unfold fields_of. intros H.
  repeat match type of H with
         | context [get ?n] =>
             destruct (get n) as [?v|] eqn:?G; simpl in H; [|discriminate H]
         | (?r ≫= _) = Some _ =>
             destruct r as [?x|] eqn:?R; simpl in H; [|discriminate H]
         end.
  injection H as <-. split.
  - intros name Hin Hne. unfold init_names in Hin. simpl in Hin.
    repeat (destruct Hin as [<-|Hin]; [try congruence; eauto|]).
    contradiction.
  - intros key'. simpl.
    repeat match goal with
           | R : ?r = Some _ |- context [?r] => rewrite R; simpl
           end.
    reflexivity.
Qed.

Lemma derive_key_agrees (h h' : store) (v v' : val) :
  agrees h h' v v' -> derive_key h' v' = derive_key h v.
Proof.
  intros Ha. unfold derive_key. rewrite (truthy_agrees _ _ _ _ Ha).
  destruct v as [| | | |l|l]; simpl in Ha; try (rewrite Ha; reflexivity);
    destruct Ha as (l' & -> & _); reflexivity.
Qed.

(** What [cache_encryption_key] leaves, in terms of [derive_key]. *)
Lemma cache_encryption_key_derives (h0 hc : store) (new : loc)
    (attrs : list (string * val)) (bk : val) :
  h0 ⊆ hc -> h0 !! new = None -> hc !! new = Some (OConfig attrs) ->
  dict_get "encryption_bytestring_key" attrs = Some bk ->
  match cache_encryption_key new hc with
  | Ok hf =>
      h0 ⊆ hf /\ same_but new hc hf /\
      exists ek key,
        hf !! new = Some (OConfig (dict_set "encryption_key" ek attrs))
        /\ derive_key hc bk = Ok key
        /\ as_key hf ek = Some key
        /\ (forall lf, ek = VFernet lf -> hc !! lf = None)
  | Raise e => derive_key hc bk = Raise e
  end.
Proof.
  intros Hsub Hnew Hc Hbk.
  pose proof (cache_encryption_key_spec h0 hc new attrs bk Hsub Hnew Hc Hbk)
    as H.
  destruct (cache_encryption_key new hc) as [hf|e].
  - destruct H as (Hsf & Hsame & ek & Hf & Hek).
    split; [exact Hsf|]. split; [exact Hsame|].
    destruct Hek as [[Ht ->]|(Ht & s & f & lf & -> & Hinit & -> & Hlf & Hlff)].
    + exists VNone, None. unfold derive_key. rewrite Ht.
      repeat split; [exact Hf | discriminate].
    + exists (VFernet lf), (Some f). unfold derive_key. rewrite Ht, Hinit.
      simpl. rewrite Hlff. repeat split; [exact Hf|].
      intros lf' [= <-]. exact Hlf.
  - destruct H as (Ht & [(s & -> & Hinit)|(Hns & ->)]); unfold derive_key;
      rewrite Ht.
    + rewrite Hinit. reflexivity.
    + destruct bk as [| | |s| |]; try reflexivity. exfalso. apply (Hns s eq_refl).
Qed.

(** X6: what the constructor leaves. [Configuration(...)] makes an
    instance that did not exist and changes no object that did; the
    instance holds every argument under its own name and the extra keyword
    arguments, as a dict of its own, under [kwargs]; its [encryption_key]
    is [None] for key material that is falsy ([None], ""), and a new
    [Fernet] handle made from the key material otherwise. It raises exactly
    when deriving the handle raises: what [Fernet] raises for a string it
    rejects, [TypeError] for truthy key material that is no string. The key
    material, if it is a reference, refers to an object of the store. *)
Theorem init_postcondition (args : init_args) (h : store) :
  val_ok h (arg_encryption_bytestring_key args) ->
  match __init__ args h with
  | Ok (self, h') =>
      h !! self = None
      /\ (forall l x, h !! l = Some x -> h' !! l = Some x)
      /\ exists kw ek key,
           h !! kw = None
           /\ h' !! kw = Some (ODict (arg_kwargs args))
           /\ h' !! self =
              Some (OConfig (dict_set "encryption_key" ek
                               (init_attrs args kw)))
           /\ derive_key h (arg_encryption_bytestring_key args) = Ok key
           /\ as_key h' ek = Some key
           /\ (forall lf, ek = VFernet lf -> h !! lf = None)
  | Raise e => derive_key h (arg_encryption_bytestring_key args) = Raise e
  end.
Proof.
  intros Hok. unfold __init__.
  destruct (alloc (ODict (arg_kwargs args)) h) as [kw h1] eqn:H1.
  destruct (alloc (OConfig (init_attrs args kw)) h1) as [self h2] eqn:H2.
  destruct (alloc_extends _ h h _ _ H1 (reflexivity h))
    as (_ & Hs1 & Hkw & _ & Hkw1).
  destruct (alloc_extends _ h _ _ _ H2 Hs1)
    as (Hs02 & Hs12 & Hself1 & Hself0 & Hself2).
  pose proof (cache_encryption_key_derives h h2 self (init_attrs args kw)
                (arg_encryption_bytestring_key args) Hs02 Hself0 Hself2
                eq_refl) as Hc.
  rewrite (derive_key_agrees h h2 _ _ (agrees_same _ _ _ Hs02 Hok)) in Hc.
  destruct (cache_encryption_key self h2) as [hf|e];
    unfold mbind, result_bind; [|exact Hc].
  destruct Hc as (Hsf & Hsame & ek & key & Hf & Hkey & Hek & Hfresh).
  split; [exact Hself0|].
  split; [intros l x Hl; apply (lookup_weaken _ _ _ _ Hl Hsf)|].
  exists kw, ek, key. repeat split; try assumption.
  - apply Hsame; [congruence|]. apply (lookup_weaken _ _ _ _ Hkw1 Hs12).
  - intros lf Hlf. specialize (Hfresh lf Hlf).
    destruct (h !! lf) as [x|] eqn:Hx; [|reflexivity].
    rewrite (lookup_weaken _ _ _ _ Hx Hs02) in Hfresh. discriminate.
Qed.


(** The steps of [merge_with_kwargs] before the handle is derived: the
    copy holds the value given for a name of the receiver, and a deep copy
    of the receiver's otherwise. *)
Lemma merge_with_kwargs_steps (self : loc) (kwargs : list (string * val))
    (h : store) (attrs : list (string * val)) :
  h !! self = Some (OConfig attrs) ->
  distinct (map fst attrs) = true ->
  forallb plain_name (map fst attrs) = true ->
  (forall name v, dict_get name attrs = Some v -> val_ok h v) ->
  distinct (map fst kwargs) = true ->
  forallb plain_name (map fst kwargs) = true ->
  exists new h3 A3,
    merge_with_kwargs self kwargs h =
      Some (h4 ← cache_encryption_key new h3; Ok (new, h4))
    /\ h ⊆ h3 /\ h !! new = None /\ h3 !! new = Some (OConfig A3)
    /\ forall name v,
         name <> "encryption_key" -> dict_get name attrs = Some v ->
         match dict_get name kwargs with
         | Some w => dict_get name A3 = Some w
         | None => exists v', dict_get name A3 = Some v' /\
                              deep_copy_of h h3 v v'
         end.
Proof.
  intros Hself Hd Hpa Hok Hkw Hpk. unfold merge_with_kwargs.
  assert (Hnodc : getattr h self "__deepcopy__" = None).
  { unfold getattr, attrs_of. rewrite Hself.
    apply (plain_keys_lookup _ _ Hpa). reflexivity. }
  rewrite Hnodc. unfold __deepcopy__.
  destruct (init_default h) as (kw & new & Hinit & Hkwf & Hnewf & Hne).
  rewrite Hinit. unfold mbind at 1 2, result_bind at 1 2.
  set (A0 := init_attrs default_args kw).
  set (h1 := <[new := OConfig A0]> (<[kw := ODict []]> h)).
  assert (Hsub1 : h ⊆ h1).
  { transitivity (<[kw := ODict []]> h); apply insert_subseteq; [exact Hkwf|].
    rewrite lookup_insert_ne; [exact Hnewf | exact Hne]. }
  assert (H1new : h1 !! new = Some (OConfig A0)) by apply lookup_insert_eq.
  rewrite (lookup_weaken _ _ _ _ Hself Hsub1).
  destruct (copy_attrs_spec h new attrs h1 A0 Hsub1 Hnewf H1new Hd Hok)
    as (A2 & H2new & Hsub2 & Hsame2 & Hi & Hii).
  set (h2 := copy_attrs new attrs h1) in *.
  destruct (apply_kwargs_spec h new kwargs h2 A2 Hsub2 Hnewf H2new Hkw Hpk)
    as (h3 & A3 & Hrun & H3new & Hsub3 & Hsame3 & Hget3).
  rewrite Hrun.
  assert (Hnocache : getattr h3 new "cache_encryption_key" = None).
  { unfold getattr, attrs_of.
    rewrite H3new, Hget3,
      (plain_keys_lookup kwargs "cache_encryption_key" Hpk eq_refl).
    rewrite Hi
      by (left; apply (plain_keys_lookup attrs "cache_encryption_key" Hpa
                         eq_refl)).
    reflexivity. }
  rewrite Hnocache.
  exists new, h3, A3. split; [reflexivity|].
  split; [exact Hsub3|]. split; [exact Hnewf|]. split; [exact H3new|].
  intros name v Hn Hv. destruct (Hii name v Hn Hv) as (v' & Hv' & Hcp).
  assert (Hk : known A2 name = true).
  { unfold known. apply orb_true_iff. left. apply dict_get_in_keys. eauto. }
  rewrite Hget3, Hk. destruct (dict_get name kwargs) as [w|]; [reflexivity|].
  exists v'. split; [exact Hv'|].
  apply (deep_copy_of_stable h h2 h3 new v v' A2 (Hok _ _ Hv) Hcp H2new Hsame3).
Qed.

(** What [merge_with_kwargs] returns, as a record. *)
Lemma merge_with_kwargs_view (self : loc) (kwargs : list (string * val))
    (h : store) (attrs : list (string * val)) :
  h !! self = Some (OConfig attrs) ->
  distinct (map fst attrs) = true ->
  (forall name v, dict_get name attrs = Some v -> val_ok h v) ->
  (forall name, In name init_names -> is_Some (dict_get name attrs)) ->
  distinct (map fst kwargs) = true ->
  (forall name v, dict_get name kwargs = Some v -> val_ok h v) ->
  forallb plain_name (map fst attrs) = true ->
  forallb plain_name (map fst kwargs) = true ->
  match merge_with_kwargs self kwargs h with
  | Some (Ok (new, h')) =>
      h !! new = None
      /\ (forall l x, h !! l = Some x -> h' !! l = Some x)
      /\ exists key,
           derive_key h (merged_key attrs kwargs) = Ok key
           /\ config_of h' new = fields_of h (overridden attrs kwargs) key
  | Some (Raise e) => derive_key h (merged_key attrs kwargs) = Raise e
  | None => False
  end.
Proof.
  intros Hself Hd Hok Hall Hkw Hkwok Hpa Hpk.
  destruct (merge_with_kwargs_steps self kwargs h attrs Hself Hd Hpa Hok Hkw
              Hpk)
    as (new & h3 & A3 & -> & Hsub3 & Hnewf & H3new & Hattr).
  (* every field of the copy reads as the merged value *)
  assert (Hfield : forall name, In name init_names ->
            name <> "encryption_key" ->
            exists v v', overridden attrs kwargs name = Some v /\
                         dict_get name A3 = Some v' /\ agrees h h3 v v').
  { intros name Hin Hn. destruct (Hall name Hin) as [v Hv].
    specialize (Hattr name v Hn Hv). unfold overridden.
    destruct (dict_get name kwargs) as [w|] eqn:Hw.
    - exists w, w. repeat split; [exact Hattr|].
      apply agrees_same; [exact Hsub3 | apply (Hkwok name w Hw)].
    - destruct Hattr as (v' & Hv' & Hcp). exists v, v'.
      repeat split; [exact Hv | exact Hv' | apply agrees_copy, Hcp]. }
  assert (Hin : In "encryption_bytestring_key" init_names)
    by (unfold init_names; simpl; tauto).
  destruct (Hfield _ Hin ltac:(discriminate)) as (mk & bk & Hmk & Hbk & Hagree).
  assert (Hmerged : merged_key attrs kwargs = mk).
  { unfold merged_key. unfold overridden in Hmk.
    destruct (dict_get "encryption_bytestring_key" kwargs); [congruence|].
    rewrite Hmk. reflexivity. }
  pose proof (cache_encryption_key_derives h h3 new A3 bk Hsub3 Hnewf H3new Hbk)
    as Hc.
  rewrite (derive_key_agrees _ _ _ _ Hagree), <- Hmerged in Hc.
  destruct (cache_encryption_key new h3) as [hf|e];
    unfold mbind, result_bind; [|exact Hc].
  destruct Hc as (Hsf & Hsame & ek & key & Hf & Hkey & Hek & _).
  split; [exact Hnewf|].
  split; [intros l x Hl; apply (lookup_weaken _ _ _ _ Hl Hsf)|].
  exists key. split; [exact Hkey|].
  assert (Hget : forall name, getattr hf new name =
                   dict_get name (dict_set "encryption_key" ek A3)).
  { intros name. unfold getattr, attrs_of. rewrite Hf. reflexivity. }
  unfold config_of. rewrite Hget, dict_get_set. simpl. rewrite Hek. simpl.
  apply fields_of_ext. intros name Hinn Hn.
  destruct (Hfield name Hinn Hn) as (v & v' & Hv & Hv' & Ha).
  exists v, v'. repeat split; [exact Hv | |].
  - rewrite Hget, dict_get_set. apply String.eqb_neq in Hn. rewrite Hn.
    exact Hv'.
  - (* the copy's referents are not the instance, so deriving the handle
       leaves them *)
    destruct v as [| | | |l|l]; simpl in Ha |- *; try exact Ha;
      destruct Ha as (l' & -> & Hl'); exists l'; (split; [reflexivity|]).
    + assert (Hvok : val_ok h (VDict l)).
      { unfold overridden in Hv.
        destruct (dict_get name kwargs) as [w|] eqn:Hw.
        - injection Hv as ->. apply (Hkwok name _ Hw).
        - apply (Hok name _ Hv). }
      destruct Hvok as [items Hl]. rewrite Hl in *.
      apply Hsame; [congruence | exact Hl'].
    + assert (Hvok : val_ok h (VFernet l)).
      { unfold overridden in Hv.
        destruct (dict_get name kwargs) as [w|] eqn:Hw.
        - injection Hv as ->. apply (Hkwok name _ Hw).
        - apply (Hok name _ Hv). }
      destruct Hvok as [k Hl]. rewrite Hl in *.
      apply Hsame; [congruence | exact Hl'].
Qed.

Lemma derive_key_cached (h : store) (v : val) (bk : option string) :
  as_str v = Some bk -> derive_key h v = cached_key bk.
Proof.
  destruct v as [| | |s| |]; simpl; try discriminate; intros [= <-].
  - reflexivity.
  - unfold derive_key, cached_key. destruct s; reflexivity.
Qed.

Lemma fields_of_key_material (h : store) (get : string -> option val)
    (key : option fernet) (c : Configuration) :
  fields_of h get key = Some c ->
  exists v, get "encryption_bytestring_key" = Some v /\
            as_str v = Some (encryption_bytestring_key c).
Proof.
  unfold fields_of. intros H.
  destruct (get "encryption_bytestring_key") as [v|] eqn:G.
  - exists v. split; [reflexivity|].
    repeat match type of H with
           | context [get ?n] =>
               destruct (get n) as [?v|] eqn:?G; simpl in H; [|discriminate H]
           | (?r ≫= _) = Some _ =>
               destruct r as [?x|] eqn:?R; simpl in H; [|discriminate H]
           end.
    injection H as <-. reflexivity.
  - exfalso.
    repeat match type of H with
           | context [get ?n] =>
               destruct (get n) as [?v|] eqn:?G; simpl in H; [|discriminate H]
           | (?r ≫= _) = Some _ =>
               destruct r as [?x|] eqn:?R; simpl in H; [|discriminate H]
           end.
    discriminate H.
Qed.

Lemma set_encryption_key_same (c : Configuration) :
  set_encryption_key c (encryption_key c) = c.
Proof. destruct c. reflexivity. Qed.

Lemma init_attrs_distinct (args : init_args) (kw : loc) :
  distinct (map fst (init_attrs args kw)) = true.
Proof. reflexivity. Qed.

Lemma init_attrs_present (args : init_args) (kw : loc) (name : string) :
  In name init_names -> is_Some (dict_get name (init_attrs args kw)).
Proof.
  unfold init_names. simpl. intros Hin.
  repeat (destruct Hin as [<-|Hin]; [eexists; reflexivity|]).
  contradiction.
Qed.

(** X8: the configuration an API function works on, for overrides and a
    given instance with plain attribute names. The conditions: the overrides
    [kwargs] name each attribute once, every name is plain (it does not start
    with an underscore and is no method of the class), and every value is
    None, a bool, an int, a str or a reference to a dict or cipher handle of
    the store; the given instance holds the attributes [__init__] sets, each
    attribute name once and plain, with values of the same kinds. Then
    [get_configuration] starts from the given instance, or from
    [Configuration()] when none is given, and returns a new instance, leaving
    every object that existed as it was. Read as a record, the new instance
    has for each field the value given for it in the overrides, or else the
    starting instance's; its cipher handle is derived from the resulting key
    material, whatever handle the starting instance held; and it raises
    exactly when that derivation raises. With no overrides the fields are
    those of the given instance, with the handle derived anew (so all of
    them, the handle included, for an instance whose handle is the one its
    key material gives), or the constructor's defaults. *)
Theorem get_configuration_view (kwargs : list (string * val)) (h : store) :
  distinct (map fst kwargs) = true ->
  (forall name v, dict_get name kwargs = Some v -> val_ok h v) ->
  forallb plain_name (map fst kwargs) = true ->
  (forall configuration attrs,
     h !! configuration = Some (OConfig attrs) ->
     distinct (map fst attrs) = true ->
     forallb plain_name (map fst attrs) = true ->
     (forall name v, dict_get name attrs = Some v -> val_ok h v) ->
     (forall name, In name init_names -> is_Some (dict_get name attrs)) ->
     match get_configuration (Some configuration) kwargs h with
     | Some (Ok (new, h')) =>
         h !! new = None
         /\ (forall l x, h !! l = Some x -> h' !! l = Some x)
         /\ exists key,
              derive_key h (merged_key attrs kwargs) = Ok key
              /\ config_of h' new = fields_of h (overridden attrs kwargs) key
              /\ (kwargs = [] -> forall c,
                    config_of h configuration = Some c ->
                    config_of h' new = Some (set_encryption_key c key)
                    /\ (key_cached c -> config_of h' new = Some c))
     | Some (Raise e) => derive_key h (merged_key attrs kwargs) = Raise e
     | None => False
     end)
  /\ (exists kw,
        h !! kw = None /\
        let h0 : store := <[kw := ODict []]> h in
        let attrs0 := init_attrs default_args kw in
        match get_configuration None kwargs h with
        | Some (Ok (new, h')) =>
            h !! new = None
            /\ (forall l x, h !! l = Some x -> h' !! l = Some x)
            /\ exists key,
                 derive_key h (merged_key attrs0 kwargs) = Ok key
                 /\ config_of h' new =
                    fields_of h0 (overridden attrs0 kwargs) key
                 /\ (kwargs = [] ->
                     config_of h' new = Some default_configuration)
        | Some (Raise e) => derive_key h (merged_key attrs0 kwargs) = Raise e
        | None => False
        end).
Proof.
  intros Hkw Hkwok Hpk. split.
  - intros self attrs Hself Hd Hpa Hok Hall. unfold get_configuration.
    assert (Hnom : getattr h self "merge_with_kwargs" = None).
    { unfold getattr, attrs_of. rewrite Hself.
      apply (plain_keys_lookup attrs "merge_with_kwargs" Hpa eq_refl). }
    rewrite Hnom.
    pose proof (merge_with_kwargs_view self kwargs h attrs Hself Hd Hok Hall
                  Hkw Hkwok Hpa Hpk) as H.
    destruct (merge_with_kwargs self kwargs h) as [[[new h']|e]|];
      [|exact H|exact H].
    destruct H as (Hnew & Hframe & key & Hkey & Hview).
    split; [exact Hnew|]. split; [exact Hframe|].
    exists key. split; [exact Hkey|]. split; [exact Hview|].
    intros -> c Hc. rewrite Hview. unfold config_of in Hc.
    destruct (getattr h self "encryption_key" ≫= as_key h) as [key0|];
      [|discriminate]. simpl in Hc.
    destruct (fields_of_Some _ _ _ _ Hc) as [_ Hany].
    assert (Hsame : fields_of h (overridden attrs []) key =
                    Some (set_encryption_key c key)).
    { rewrite <- (Hany key). apply fields_of_ext.
      intros name Hin Hn. destruct (Hall name Hin) as [v Hv].
      exists v, v. repeat split.
      + unfold getattr, attrs_of. rewrite Hself. exact Hv.
      + exact Hv.
      + apply agrees_same; [reflexivity | apply (Hok name v Hv)]. }
    split; [exact Hsame|].
    intros Hcached. rewrite Hsame. f_equal.
    destruct (fields_of_key_material _ _ _ _ Hc) as (v & Hv & Hstr).
    unfold getattr, attrs_of in Hv. rewrite Hself in Hv.
    unfold merged_key in Hkey. simpl in Hkey. rewrite Hv in Hkey. simpl in Hkey.
    rewrite (derive_key_cached _ _ _ Hstr) in Hkey.
    unfold key_cached in Hcached. rewrite Hcached in Hkey.
    injection Hkey as <-. apply set_encryption_key_same.
  - unfold get_configuration.
    destruct (init_default h) as (kw & new0 & Hinit & Hkwf & Hnewf & Hne).
    exists kw. split; [exact Hkwf|]. cbv zeta.
    rewrite Hinit.
    set (A0 := init_attrs default_args kw).
    set (h0 := <[kw := ODict []]> h).
    set (h1 := <[new0 := OConfig A0]> h0).
    assert (Hsub0 : h ⊆ h0) by (apply insert_subseteq; exact Hkwf).
    assert (Hsub01 : h0 ⊆ h1).
    { apply insert_subseteq. unfold h0.
      rewrite lookup_insert_ne; [exact Hnewf | exact Hne]. }
    assert (Hsub1 : h ⊆ h1) by (transitivity h0; assumption).
    assert (H1new : h1 !! new0 = Some (OConfig A0)) by apply lookup_insert_eq.
    assert (H0kw : h0 !! kw = Some (ODict [])) by apply lookup_insert_eq.
    assert (Hok0 : forall name v, dict_get name A0 = Some v -> val_ok h0 v).
    { intros name v Hv. unfold A0, init_attrs in Hv. cbn [dict_get] in Hv.
      repeat match type of Hv with
             | (if ?c then _ else _) = _ =>
                 destruct c;
                 [injection Hv as <-; simpl; try exact I; eexists; exact H0kw|]
             end.
      discriminate. }
    assert (Hkwok0 : forall name v, dict_get name kwargs = Some v -> val_ok h0 v).
    { intros name v Hv. apply (val_ok_weaken h h0 v Hsub0), (Hkwok name v Hv). }
    pose proof (merge_with_kwargs_view new0 kwargs h1 A0 H1new
                  (init_attrs_distinct _ _)
                  (fun name v Hv => val_ok_weaken h0 h1 v Hsub01 (Hok0 name v Hv))
                  (init_attrs_present _ _) Hkw
                  (fun name v Hv => val_ok_weaken h0 h1 v Hsub01 (Hkwok0 name v Hv))
                  eq_refl Hpk)
      as H.
    assert (Hmk : derive_key h1 (merged_key A0 kwargs) =
                  derive_key h (merged_key A0 kwargs)).
    { apply derive_key_agrees. unfold merged_key.
      destruct (dict_get "encryption_bytestring_key" kwargs) as [w|] eqn:Hw.
      - apply agrees_same; [exact Hsub1 | apply (Hkwok _ _ Hw)].
      - reflexivity. }
    rewrite Hmk in H.
    destruct (merge_with_kwargs new0 kwargs h1) as [[[new h']|e]|];
      [|exact H|exact H].
    destruct H as (Hnew & Hframe & key & Hkey & Hview).
    assert (Hview0 : config_of h' new =
                     fields_of h0 (overridden A0 kwargs) key).
    { rewrite Hview. apply fields_of_ext. intros name Hin Hn.
      destruct (init_attrs_present default_args kw name Hin) as [v Hv].
      fold A0 in Hv. unfold overridden.
      destruct (dict_get name kwargs) as [w|] eqn:Hw.
      - exists w, w. repeat split.
        apply agrees_same; [exact Hsub01 | apply (Hkwok0 _ _ Hw)].
      - exists v, v. repeat split; try exact Hv.
        apply agrees_same; [exact Hsub01 | apply (Hok0 _ _ Hv)]. }
    split.
    { destruct (h !! new) as [x|] eqn:Hx; [|reflexivity].
      rewrite (lookup_weaken _ _ _ _ Hx Hsub1) in Hnew. discriminate. }
    split.
    { intros l x Hl. apply Hframe, (lookup_weaken _ _ _ _ Hl Hsub1). }
    exists key. split; [exact Hkey|]. split; [exact Hview0|].
    intros ->. rewrite Hview0.
    unfold merged_key, derive_key in Hkey. simpl in Hkey.
    injection Hkey as <-.
    unfold fields_of, overridden, A0. simpl. rewrite H0kw. reflexivity.
Qed.

End InstanceFacts.

(** ** Rewriting the links of a document *)

Lemma urlsafe_byte_not_colon (b : byte) :
  urlsafe_byte b = true -> ascii_of_byte b <> ":"%char.
Proof. destruct b; intros H; vm_compute in H |- *; congruence. Qed.

Lemma chars_append (a b : string) :
  list_ascii_of_string (a +:+ b) =
  list_ascii_of_string a ++ list_ascii_of_string b.
Proof.
  induction a as [|c a IH]; [reflexivity|].
  rewrite append_cons. simpl. rewrite IH. reflexivity.
Qed.

Lemma chars_of_bytes (bs : list byte) :
  list_ascii_of_string (string_of_list_byte bs) = map ascii_of_byte bs.
Proof.
  induction bs as [|b bs IH]; [reflexivity|].
  rewrite string_of_list_byte_cons. simpl. rewrite IH. reflexivity.
Qed.

(** A string holds every character of a prefix of it. *)
Lemma startswith_chars (s p : string) (c : ascii) :
  startswith s p = true -> In c (list_ascii_of_string p) ->
  In c (list_ascii_of_string s).
Proof.
  intros H Hc. rewrite (startswith_split _ _ H), chars_append.
  apply in_or_app. left. exact Hc.
Qed.

(** An encoded segment, with or without a slash behind it, starts with no
    scheme of [_valid_scheme]. *)
Lemma segment_has_no_scheme (bs : list byte) (sfx : string) :
  forallb urlsafe_byte bs = true -> sfx = "" \/ sfx = "/" ->
  existsb (fun scheme => startswith (string_of_list_byte bs +:+ sfx) scheme)
    _valid_scheme = false.
Proof.
  intros Hbs Hsfx.
  assert (Hcolon : ~ In ":"%char
                     (list_ascii_of_string (string_of_list_byte bs +:+ sfx))).
  { rewrite chars_append, chars_of_bytes. intros H.
    apply in_app_or in H as [H|H].
    - apply in_map_iff in H as (b & Hb & Hin).
      rewrite forallb_forall in Hbs.
      apply (urlsafe_byte_not_colon b (Hbs b Hin) Hb).
    - destruct Hsfx as [-> | ->]; simpl in H; [exact H|].
      destruct H as [H|H]; [discriminate | exact H]. }
  unfold _valid_scheme. cbn [existsb].
  destruct (startswith (string_of_list_byte bs +:+ sfx) "http://") eqn:H1.
  { exfalso. apply Hcolon, (startswith_chars _ _ _ H1). simpl. tauto. }
  destruct (startswith (string_of_list_byte bs +:+ sfx) "https://") eqn:H2.
  { exfalso. apply Hcolon, (startswith_chars _ _ _ H2). simpl. tauto. }
  destruct bs as [|b bs].
  - destruct Hsfx as [-> | ->]; reflexivity.
  - rewrite string_of_list_byte_cons, append_cons, startswith_cons.
    simpl in Hbs. apply andb_prop in Hbs as [Hb _].
    destruct (ascii_dec "/" (ascii_of_byte b)) as [E|_]; [|reflexivity].
    exfalso. apply (urlsafe_byte_not_slash _ Hb). congruence.
Qed.

Section RewriteFacts.
Context `{L : Libs} {LOk : LibsOk L}.

(** A URL that [get_click_tracking_url_from_data_str] built is no link to
    rewrite: it starts with the base URL, or, without one, with no
    scheme. *)
Lemma built_click_url_invalid (c : Configuration) (data_str : string) :
  forallb urlsafe_byte (list_byte_of_string data_str) = true ->
  appends_to_base (base_click_tracking_url c) ->
  _valid_link (get_click_tracking_url_from_data_str c data_str) (Some c)
  = false.
Proof.
  intros Hsafe Happ. unfold get_click_tracking_url_from_data_str. cbv zeta.
  rewrite (Happ _ Hsafe). unfold _valid_link. cbv zeta.
  destruct (base_click_tracking_url c) as [[|ch b]|] eqn:Hb; cbn [truthy_str default].
  - rewrite append_empty.
    rewrite <- (string_of_list_byte_of_string data_str).
    destruct (append_slash c).
    + apply segment_has_no_scheme; [exact Hsafe | right; reflexivity].
    + rewrite <- (ReferenceFacts.append_nil_r (string_of_list_byte _)).
      apply segment_has_no_scheme; [exact Hsafe | left; reflexivity].
  - assert (Hp : forall rest,
              startswith (String ch b +:+ rest) (String ch b) = true)
      by (intros rest; apply startswith_app).
    destruct (append_slash c).
    + rewrite ReferenceFacts.append_assoc, Hp. apply andb_false_r.
    + rewrite Hp. apply andb_false_r.
  - rewrite append_empty.
    rewrite <- (string_of_list_byte_of_string data_str).
    destruct (append_slash c).
    + apply segment_has_no_scheme; [exact Hsafe | right; reflexivity].
    + rewrite <- (ReferenceFacts.append_nil_r (string_of_list_byte _)).
      apply segment_has_no_scheme; [exact Hsafe | left; reflexivity].
Qed.

Lemma click_url_built (c : Configuration) (rnd : entropy)
    (url_to_track : option string) (extra : option dict) :
  ascii_transparent (encoding c) ->
  exists data_str,
    forallb urlsafe_byte (list_byte_of_string data_str) = true
    /\ get_click_tracking_url c rnd url_to_track extra =
       Ok (get_click_tracking_url_from_data_str c data_str).
Proof.
  intros Henc. eexists. split; [apply encoded_text_urlsafe|].
  unfold get_click_tracking_url. cbv zeta.
  rewrite (get_url_encoded_data_str_ok _ _ _ Henc). reflexivity.
Qed.

Lemma rewritten_link (c : Configuration) (it : link_item) (new_link : string) :
  _valid_link new_link (Some c) = false ->
  rewritten c {| tag := tag it; attribute := attribute it; link := new_link |}
  = false.
Proof.
  intros H. unfold rewritten. cbn [tag attribute link]. rewrite H.
  apply andb_false_r.
Qed.

(** One pass leaves no link to rewrite. *)
Lemma _replace_links_from_settles (c : Configuration) (extra : option dict)
    (rnd : nat -> entropy) (items : list link_item) :
  ascii_transparent (encoding c) ->
  appends_to_base (base_click_tracking_url c) ->
  forall i, exists items',
    _replace_links_from i items extra c rnd = Ok items'
    /\ Forall (fun it' => rewritten c it' = false) items'.
Proof.
  intros Henc Happ. induction items as [|it items IH]; intros i.
  - exists []. split; [reflexivity | constructor].
  - destruct (IH (S i)) as (rest' & Hrest & Hall).
    cbn [_replace_links_from]. rewrite Hrest.
    destruct (rewritten c it) eqn:Hrw.
    + destruct (click_url_built c (rnd i) (Some (link it)) extra Henc)
        as (data_str & Hsafe & ->).
      eexists. split; [reflexivity|]. constructor; [|exact Hall].
      apply rewritten_link, built_click_url_invalid; assumption.
    + eexists. split; [reflexivity|]. constructor; assumption.
Qed.

(** Where no link qualifies, [_replace_links] changes nothing. *)
Lemma _replace_links_from_fixed (c : Configuration) (extra : option dict)
    (rnd : nat -> entropy) (items : list link_item) :
  Forall (fun it => rewritten c it = false) items ->
  forall i, _replace_links_from i items extra c rnd = Ok items.
Proof.
  induction 1 as [|it items Hit _ IH]; intros i; [reflexivity|].
  cbn [_replace_links_from]. rewrite Hit, (IH (S i)). reflexivity.
Qed.

Lemma valid_link_not_empty (c : Configuration) (l : string) :
  _valid_link l (Some c) = true -> l <> "".
Proof.
  intros H ->. unfold _valid_link in H. cbv zeta in H.
  destruct (base_click_tracking_url c) as [[|ch b]|]; discriminate.
Qed.

(** X9: [_replace_links] does not wrap a link twice. The conditions: the
    configuration is as [get_configuration] returns it (its
    [encryption_key] is the handle derived from its
    [encryption_bytestring_key], [None] without key material); its encoding
    keeps ASCII as it is (utf-8, ascii, latin-1); [urljoin] appends every
    segment over the URL-safe base64 alphabet to [base_click_tracking_url]
    (as to a base that ends with a slash, or to none). Then [_replace_links]
    returns, and in what it returns no link qualifies for rewriting any
    more: a rewritten link starts with the base URL or, without a base URL,
    is the bare segment and starts with no scheme. A second pass, whatever
    the cipher draws, leaves every link as the first pass made it. *)
Theorem replace_links_idempotent (configuration : Configuration)
    (extra_metadata : option dict) (rnd rnd' : nat -> entropy)
    (links : list link_item) :
  key_cached configuration ->
  ascii_transparent (encoding configuration) ->
  appends_to_base (base_click_tracking_url configuration) ->
  exists links',
    _replace_links links extra_metadata configuration rnd = Ok links'
    /\ length links' = length links
    /\ Forall (fun it' => rewritten configuration it' = false) links'
    /\ _replace_links links' extra_metadata configuration rnd' = Ok links'.
Proof.
  intros _ Henc Happ.
  destruct (_replace_links_from_settles configuration extra_metadata rnd links
              Henc Happ 0) as (links' & Hrun & Hall).
  exists links'. split; [exact Hrun|].
  split; [apply (_replace_links_from_spec 0 _ _ _ _ _ Hrun)|].
  split; [exact Hall|].
  apply _replace_links_from_fixed. exact Hall.
Qed.

(** X10: every link [_replace_links] rewrites resolves to the link it
    replaced. The conditions: the configuration is as [get_configuration]
    returns it (its [encryption_key] is the handle derived from its
    [encryption_bytestring_key], [None] without key material); its encoding
    keeps ASCII as it is (utf-8, ascii, latin-1); default and extra metadata
    are dicts of JSON values (no key twice); [urljoin] appends every segment
    over the URL-safe base64 alphabet to [base_click_tracking_url] (as to a
    base that ends with a slash, or to none); [append_slash] is off. Then
    [_replace_links] returns a list of the same length in which an item
    that does not qualify is as it was and an item that qualifies keeps its
    tag and attribute and holds a URL that [get_click_tracking_result],
    under the same configuration, resolves to the original link as the
    tracked URL, with the default metadata overlaid by the extra
    metadata. *)
Theorem replaced_links_resolve (configuration : Configuration)
    (extra_metadata : option dict) (rnd : nat -> entropy)
    (links : list link_item) (req : option dict) (now : Z) :
  key_cached configuration ->
  ascii_transparent (encoding configuration) ->
  dict_wf (default [] (default_metadata configuration)) = true ->
  dict_wf (default [] extra_metadata) = true ->
  appends_to_base (base_click_tracking_url configuration) ->
  append_slash configuration = false ->
  exists links',
    _replace_links links extra_metadata configuration rnd = Ok links'
    /\ length links' = length links
    /\ forall j it, links !! j = Some it ->
         (rewritten configuration it = false -> links' !! j = Some it)
         /\ (rewritten configuration it = true ->
             exists new_link r,
               links' !! j = Some {| tag := tag it;
                                     attribute := attribute it;
                                     link := new_link |}
               /\ get_click_tracking_result new_link req configuration now
                  = Ok r
               /\ is_click_tracking r = true
               /\ tracked_url r = JStr (link it)
               /\ metadata r =
                  dict_update (default [] (default_metadata configuration))
                    (default [] extra_metadata)).
Proof.
  intros _ Henc Hd He Happ Hsl.
  destruct (_replace_links_from_settles configuration extra_metadata rnd links
              Henc Happ 0) as (links' & Hrun & _).
  exists links'. split; [exact Hrun|].
  destruct (_replace_links_from_spec 0 _ _ _ _ _ Hrun) as [Hlen Hitems].
  split; [exact Hlen|].
  intros j it Hj. destruct (Hitems j it Hj) as [Hkeep Hnew].
  split; [exact Hkeep|].
  intros Hrw. destruct (Hnew Hrw) as (new_link & Hurl & Hat).
  assert (Hne : link it <> "").
  { apply (valid_link_not_empty configuration). unfold rewritten in Hrw.
    apply andb_prop in Hrw as [_ Hrw]. exact Hrw. }
  destruct (click_url_resolves configuration (rnd (0 + j)) (link it)
              extra_metadata req now Henc Hd He Happ Hsl Hne)
    as (data_str & _ & Hurl' & Hres).
  rewrite Hurl' in Hurl. injection Hurl as <-.
  eexists. eexists. split; [exact Hat|]. split; [exact Hres|].
  repeat split.
Qed.

End RewriteFacts.

(** ** The further theorems at concrete inputs *)

Lemma reference_appends (base : option string) :
  appends_to_base (L := reference_libs) base.
Proof. intros seg _. reflexivity. Qed.

Lemma latin1_is_transparent : ascii_transparent (L := reference_libs) "latin-1".
Proof. apply ReferenceFacts.known_transparent. reflexivity. Qed.


Lemma example_kwargs_ok (name : string) (v : val) :
  dict_get name example_kwargs = Some v ->
  val_ok (L := reference_libs) example_store v.
Proof.
  unfold example_kwargs. cbn [dict_get]. intros H.
  repeat match type of H with
         | (if ?c then _ else _) = _ =>
             destruct c; [injection H as <-; exact I|]
         end.
  discriminate.
Qed.

Lemma example_attrs_present (name : string) :
  In name init_names -> is_Some (dict_get name example_attrs).
Proof.
  unfold init_names. simpl. intros Hin.
  repeat (destruct Hin as [<-|Hin]; [eexists; reflexivity|]).
  contradiction.
Qed.

(** X1 at an encrypted payload. *)
Lemma encoded_str_url_safe_witness :
  ascii_transparent (encoding config_A)
  /\ exists data_str,
       get_url_encoded_data_str config_A no_entropy
         [("url", JStr "https://example.com/a?b=1")] = Ok data_str
       /\ forallb urlsafe_byte (list_byte_of_string data_str) = true
       /\ strip_leading_slash data_str = data_str.
Proof.
  split; [exact utf8_is_transparent|].
  destruct (encoded_str_url_safe config_A no_entropy
              [("url", JStr "https://example.com/a?b=1")] utf8_is_transparent)
    as (data_str & H1 & H2 & _ & _ & H3).
  exists data_str. repeat split; assumption.
Defined.

(** X2 at a link with extra metadata {"b": 3}, local defaults {"a": 1}. *)
Lemma embedded_data_roundtrip_witness :
  ascii_transparent (encoding plain_config)
  /\ dict_wf (default [] (default_metadata plain_config)) = true
  /\ dict_wf [("b", JInt 3)] = true
  /\ exists data_str r,
       get_url_encoded_data_str plain_config no_entropy
         (get_data_to_embed plain_config (Some "https://example.com")
            (Some [("b", JInt 3)])) = Ok data_str
       /\ get_tracking_result plain_config data_str None false 7 = Ok r
       /\ get_tracking_result plain_config ("/" +:+ data_str) None false 7
          = Ok r
       /\ tracked_url r = JStr "https://example.com"
       /\ metadata r = [("a", JInt 1); ("b", JInt 3)]
       /\ tr_webhook_url r = JNull.
Proof.
  split; [exact utf8_is_transparent|]. split; [reflexivity|].
  split; [reflexivity|].
  destruct (embedded_data_roundtrip plain_config no_entropy
              (Some "https://example.com") (Some [("b", JInt 3)]) None false 7
              utf8_is_transparent eq_refl eq_refl)
    as (data_str & r & H1 & H2 & H3 & H4 & H5 & H6 & _).
  exists data_str, r. repeat split; assumption.
Defined.

(** X3 at a link with a query string, encrypted under [key_A]. *)
Lemma click_url_roundtrip_witness :
  key_cached config_A
  /\ ascii_transparent (encoding config_A)
  /\ appends_to_base (base_click_tracking_url config_A)
  /\ exists url r,
       get_click_tracking_url config_A no_entropy
         (Some "https://example.com/a?b=1") (Some [("b", JInt 3)]) = Ok url
       /\ get_click_tracking_result url None config_A 7 = Ok r
       /\ is_click_tracking r = true
       /\ tracked_url r = JStr "https://example.com/a?b=1"
       /\ metadata r = [("a", JInt 1); ("b", JInt 3)].
Proof.
  split; [reflexivity|].
  split; [exact utf8_is_transparent|]. split; [apply reference_appends|].
  destruct (click_url_roundtrip config_A no_entropy
              "https://example.com/a?b=1" (Some [("b", JInt 3)]) None 7
              eq_refl utf8_is_transparent eq_refl eq_refl (reference_appends _)
              eq_refl ltac:(discriminate))
    as (url & r & H1 & H2 & H3 & _ & H4 & H5 & _).
  exists url, r. repeat split; assumption.
Defined.


(** X11 at [maker_config] and [resolver_config]: the maker's webhook
    comes back; "a" is the maker's default, "r" the resolver's. *)
Lemma link_resolved_by_other_configuration_witness :
  ascii_transparent (encoding maker_config)
  /\ ascii_transparent (encoding resolver_config)
  /\ encryption_key maker_config = encryption_key resolver_config
  /\ exists data_str r,
       get_url_encoded_data_str maker_config no_entropy
         (get_data_to_embed maker_config (Some "https://example.com")
            (Some [("b", JInt 3)])) = Ok data_str
       /\ get_tracking_result resolver_config data_str None false 7 = Ok r
       /\ tracked_url r = JStr "https://example.com"
       /\ tr_webhook_url r = JStr "https://hooks.example/maker"
       /\ dict_get "a" (metadata r) = Some (JInt 1)
       /\ dict_get "b" (metadata r) = Some (JInt 3)
       /\ dict_get "r" (metadata r) = Some (JInt 8).
Proof.
  split; [exact utf8_is_transparent|]. split; [exact latin1_is_transparent|].
  split; [reflexivity|].
  destruct (link_resolved_by_other_configuration maker_config resolver_config
              no_entropy (Some "https://example.com") (Some [("b", JInt 3)])
              None false 7 utf8_is_transparent latin1_is_transparent eq_refl
              eq_refl eq_refl eq_refl)
    as (data_str & r & H1 & H2 & H3 & H4 & H5).
  exists data_str, r. repeat split; try assumption.
  - apply (H5 "a").
  - apply (H5 "b").
  - apply (H5 "r").
Defined.

(** X6 at [example_args] on [example_store]. *)
Lemma init_postcondition_witness :
  val_ok (L := reference_libs) example_store
    (arg_encryption_bytestring_key example_args)
  /\ exists self h' kw lf,
       __init__ example_args example_store = Ok (self, h')
       /\ example_store !! self = None
       /\ h' !! 1%positive = Some (OConfig example_attrs)
       /\ h' !! kw = Some (ODict [("utm", JStr "x")])
       /\ getattr h' self "kwargs" = Some (VDict kw)
       /\ getattr h' self "base_click_tracking_url"
          = Some (VStr "https://t.example/c/")
       /\ getattr h' self "encryption_key" = Some (VFernet lf)
       /\ example_store !! lf = None
       /\ h' !! lf = Some (@OFernet reference_libs key_A).
Proof.
  split; [exact I|].
  pose proof (init_postcondition example_args example_store I) as H.
  destruct (__init__ example_args example_store) as [[self h']|e].
  - destruct H as (Hself & Hframe & kw & ek & key & Hkw & Hkw' & Hattrs
                   & Hkey & Hek & Hfresh).
    vm_compute in Hkey. injection Hkey as <-.
    destruct ek as [| | | | |lf]; simpl in Hek; try discriminate.
    destruct (h' !! lf) as [[| k |]|] eqn:Hlf; try discriminate.
    injection Hek as ->.
    exists self, h', kw, lf. split; [reflexivity|]. split; [exact Hself|].
    split; [apply Hframe; reflexivity|]. split; [exact Hkw'|].
    unfold getattr, attrs_of. rewrite Hattrs.
    repeat split; try reflexivity; [apply Hfresh; reflexivity | exact Hlf].
  - vm_compute in H. discriminate H.
Defined.


(** X8 at [example_store]: overriding the webhook URL and the key of the
    instance, and starting from no instance. *)
Lemma get_configuration_view_witness :
  distinct (map fst example_kwargs) = true
  /\ forallb plain_name (map fst example_kwargs) = true
  /\ forallb plain_name (map fst example_attrs) = true
  /\ (exists new h',
        get_configuration (Some 1%positive) example_kwargs example_store
          = Some (Ok (new, h'))
        /\ example_store !! new = None
        /\ config_of h' new =
           Some {| webhook_url := Some "https://hooks.example/x";
                   webhook_timeout_seconds := 5;
                   include_webhook_url := false;
                   base_open_tracking_url := None;
                   base_click_tracking_url := Some "https://t.example/c/";
                   default_metadata := Some [("a", JInt 1)];
                   include_default_metadata := false;
                   encryption_bytestring_key := Some "keyA";
                   encoding := "utf-8";
                   kwargs := [];
                   encryption_key := Some key_A;
                   append_slash := false;
                   pixel_position := "top" |})
  /\ (exists new h',
        get_configuration None example_kwargs example_store
          = Some (Ok (new, h'))
        /\ example_store !! new = None
        /\ config_of h' new =
           Some {| webhook_url := Some "https://hooks.example/x";
                   webhook_timeout_seconds := 5;
                   include_webhook_url := false;
                   base_open_tracking_url := None;
                   base_click_tracking_url := None;
                   default_metadata := None;
                   include_default_metadata := false;
                   encryption_bytestring_key := Some "keyA";
                   encoding := "utf-8";
                   kwargs := [];
                   encryption_key := Some key_A;
                   append_slash := false;
                   pixel_position := "top" |}).
Proof.
  split; [reflexivity|]. split; [reflexivity|]. split; [reflexivity|].
  destruct (get_configuration_view example_kwargs example_store eq_refl
              example_kwargs_ok eq_refl) as [Hsome (kw & Hkw & Hnone)].
  split.
  - specialize (Hsome 1%positive example_attrs eq_refl eq_refl eq_refl
                  example_attrs_ok
                  example_attrs_present).
    destruct (get_configuration (Some 1%positive) example_kwargs example_store)
      as [[[new h']|e]|].
    + destruct Hsome as (Hnew & _ & key & Hkey & Hview & _).
      vm_compute in Hkey. injection Hkey as <-.
      exists new, h'. split; [reflexivity|]. split; [exact Hnew|].
      rewrite Hview. reflexivity.
    + vm_compute in Hsome. discriminate Hsome.
    + destruct Hsome.
  - cbv zeta in Hnone.
    destruct (get_configuration None example_kwargs example_store)
      as [[[new h']|e]|].
    + destruct Hnone as (Hnew & _ & key & Hkey & Hview & _).
      vm_compute in Hkey. injection Hkey as <-.
      exists new, h'. split; [reflexivity|]. split; [exact Hnew|].
      rewrite Hview. unfold fields_of, overridden. simpl.
      rewrite lookup_insert_eq. reflexivity.
    + vm_compute in Hnone. discriminate Hnone.
    + destruct Hnone.
Defined.

(** X9 at [example_links]: the first link is rewritten, and nothing is on
    a second pass. *)
Lemma replace_links_idempotent_witness :
  key_cached plain_config
  /\ ascii_transparent (encoding plain_config)
  /\ appends_to_base (base_click_tracking_url plain_config)
  /\ exists links',
       _replace_links example_links None plain_config (fun _ => no_entropy)
         = Ok links'
       /\ length links' = 4
       /\ _replace_links links' None plain_config (fun _ => no_entropy)
          = Ok links'.
Proof.
  split; [reflexivity|].
  split; [exact utf8_is_transparent|]. split; [apply reference_appends|].
  destruct (replace_links_idempotent plain_config None (fun _ => no_entropy)
              (fun _ => no_entropy) example_links eq_refl utf8_is_transparent
              (reference_appends _))
    as (links' & H1 & H2 & _ & H3).
  exists links'. repeat split; assumption.
Defined.

(** X10 at [example_links]: the first link resolves to
    "https://example.com/a", the others are as they were. *)
Lemma replaced_links_resolve_witness :
  key_cached plain_config
  /\ ascii_transparent (encoding plain_config)
  /\ appends_to_base (base_click_tracking_url plain_config)
  /\ exists links' new_link r,
       _replace_links example_links None plain_config (fun _ => no_entropy)
         = Ok links'
       /\ links' !! 0 = Some {| tag := "a"; attribute := "href";
                                link := new_link |}
       /\ get_click_tracking_result new_link None plain_config 7 = Ok r
       /\ tracked_url r = JStr "https://example.com/a"
       /\ links' !! 1 = example_links !! 1
       /\ links' !! 2 = example_links !! 2
       /\ links' !! 3 = example_links !! 3.
Proof.
  split; [reflexivity|].
  split; [exact utf8_is_transparent|]. split; [apply reference_appends|].
  destruct (replaced_links_resolve plain_config None (fun _ => no_entropy)
              example_links None 7 eq_refl utf8_is_transparent eq_refl eq_refl
              (reference_appends _) eq_refl)
    as (links' & H1 & _ & H2).
  destruct (H2 0 _ eq_refl) as [_ H0].
  destruct (H0 eq_refl) as (new_link & r & Hat & Hres & _ & Hurl & _).
  destruct (H2 1 _ eq_refl) as [Hk1 _].
  destruct (H2 2 _ eq_refl) as [Hk2 _].
  destruct (H2 3 _ eq_refl) as [Hk3 _].
  exists links', new_link, r. split; [exact H1|]. split; [exact Hat|].
  split; [exact Hres|]. split; [exact Hurl|].
  split; [exact (Hk1 eq_refl)|]. split; [exact (Hk2 eq_refl) | exact (Hk3 eq_refl)].
Defined.

